(** * Inventory-management back end: stock, order and product services

    A shallow embedding of the service layer (StockService,
    SalesOrderService, PurchaseOrderService, ProductService,
    WarehouseService, SupplierService), of the middlewares (errorHandler,
    authenticate, authorize) and of the part of the relational schema they
    run on (prisma/migrations/20250802180117_init/migration.sql).

    Conventions of the model:
    - a table is the list of its rows in rowid order together with its
      AUTOINCREMENT counter; a query without orderBy on a table that has no
      index but its primary key scans in that order; on Product, which has
      indexes on sku and barcode, which matching row findFirst returns is
      the database's choice ([Choice]);
    - ids and quantities are Prisma [Int] columns, modelled as [Z], and
      requests carry integers; prices are JavaScript numbers that the
      services only carry, modelled as [Q]. The model has no upper bound on
      a quantity: it agrees with the code for quantities within [Int_range],
      where the arithmetic on JavaScript numbers is exact and the column
      takes the result;
    - timestamps (createdAt, updatedAt) are left out;
    - an order row carries its items, as the ORM presents the relation
      ([include: { items: true }], nested [items: { create: ... }]);
    - a service is a computation in the monad [Prisma]: it reads and writes
      the database and may throw; [transaction] rolls the writes back when
      its body throws. Requests are run one after the other; where a
      service reads and writes outside a transaction, the interleaving of
      two requests is written out ([createStock_overlapped],
      [createSalesOrder_overlapped]). *)

From Stdlib Require Import ZArith List Permutation Ascii String Bool Lia DecimalString.
From Stdlib Require QArith Qround.
Import ListNotations.

Local Open Scope string_scope.
Local Open Scope list_scope.
Local Open Scope Z_scope.

(** ** Data model *)

Definition number : Type := QArith_base.Q.

Module Category.
Record t := mk { id : Z; name : string }.
End Category.

Module Supplier.
Record t := mk { id : Z; name : string; email : string }.
End Supplier.

Module Warehouse.
Record t := mk { id : Z; name : string; capacity : Z; address : string }.
End Warehouse.

Module Location.
Record t := mk { id : Z; name : string; warehouseId : Z }.
End Location.

Module Product.
Record t := mk {
  id : Z; name : string; sku : string; barcode : string;
  categoryId : Z; supplierId : Z; warehouseId : Z;
  unitPrice : number; price : number }.
End Product.

(** The body of a create-product request. *)
Module ProductData.
Record t := mk {
  name : string; sku : string; barcode : string;
  categoryId : Z; supplierId : Z; warehouseId : Z;
  unitPrice : number; price : number }.

Definition row (d : t) (i : Z) : Product.t :=
  Product.mk i (name d) (sku d) (barcode d) (categoryId d) (supplierId d)
             (warehouseId d) (unitPrice d) (price d).
End ProductData.

(** The body of an update-product request: every field is optional. *)
Module ProductUpdate.
Record t := mk {
  name : option string; unitPrice : option number; price : option number;
  categoryId : option Z; supplierId : option Z; warehouseId : option Z }.

Definition or_else {A : Type} (o : option A) (d : A) : A :=
  match o with Some a => a | None => d end.

Definition apply (u : t) (p : Product.t) : Product.t :=
  Product.mk (Product.id p)
    (or_else (name u) (Product.name p))
    (Product.sku p) (Product.barcode p)
    (or_else (categoryId u) (Product.categoryId p))
    (or_else (supplierId u) (Product.supplierId p))
    (or_else (warehouseId u) (Product.warehouseId p))
    (or_else (unitPrice u) (Product.unitPrice p))
    (or_else (price u) (Product.price p)).
End ProductUpdate.

(** The bodies of the supplier and warehouse requests. *)
Module SupplierData.
Record t := mk { name : string; email : string }.
End SupplierData.

Module SupplierUpdate.
Record t := mk { name : option string; email : option string }.

Definition apply (u : t) (r : Supplier.t) : Supplier.t :=
  Supplier.mk (Supplier.id r)
    (ProductUpdate.or_else (name u) (Supplier.name r))
    (ProductUpdate.or_else (email u) (Supplier.email r)).
End SupplierUpdate.

Module WarehouseData.
Record t := mk { name : string; capacity : Z; address : string }.
End WarehouseData.

Module WarehouseUpdate.
Record t := mk { name : option string; capacity : option Z; address : option string }.

Definition apply (u : t) (w : Warehouse.t) : Warehouse.t :=
  Warehouse.mk (Warehouse.id w)
    (ProductUpdate.or_else (name u) (Warehouse.name w))
    (ProductUpdate.or_else (capacity u) (Warehouse.capacity w))
    (ProductUpdate.or_else (address u) (Warehouse.address w)).
End WarehouseUpdate.

Module Stock.
Record t := mk {
  id : Z; productId : Z; warehouseId : Z; locationId : Z; quantity : Z }.

Definition set_quantity (q : Z) (s : t) : t :=
  mk (id s) (productId s) (warehouseId s) (locationId s) q.
End Stock.

(** The [items] array of a create-order request. *)
Module ItemInput.
Record t := mk { productId : Z; quantity : Z; unitPrice : number }.
End ItemInput.

(** A row of SalesOrderItem or PurchaseOrderItem; the order it belongs to is
    the one that carries it. *)
Module OrderItem.
Record t := mk { id : Z; productId : Z; quantity : Z; unitPrice : number }.
End OrderItem.

Module PurchaseOrder.
Record t := mk {
  id : Z; supplierId : Z; status : string; items : list OrderItem.t }.

Definition set_status (st : string) (o : t) : t :=
  mk (id o) (supplierId o) st (items o).
End PurchaseOrder.

Module SalesOrder.
Record t := mk {
  id : Z; customerId : Z; status : string; items : list OrderItem.t }.

Definition set_status (st : string) (o : t) : t :=
  mk (id o) (customerId o) st (items o).
End SalesOrder.

Inductive MovementType := IN | OUT.
Inductive AdjustmentType := ADD | REMOVE.

Module StockMovement.
Record t := mk {
  id : Z; stockId : Z; movementType : MovementType; quantity : Z;
  reason : string }.
End StockMovement.

(** A movement before the database has given it an id. *)
Module MovementInput.
Record t := mk {
  stockId : Z; movementType : MovementType; quantity : Z; reason : string }.
End MovementInput.

Module StockAdjustment.
Record t := mk {
  id : Z; stockId : Z; adjustmentType : AdjustmentType; quantity : Z;
  reason : string; approvedById : Z }.
End StockAdjustment.

(** ** Tables *)

Record Table (A : Type) := mkTable { rows : list A; seq : Z }.
Arguments mkTable {A} rows seq.
Arguments rows {A} t.
Arguments seq {A} t.

Definition emptyTable {A : Type} : Table A := mkTable [] 0.

Class HasId (A : Type) := id_of : A -> Z.

#[global] Instance Category_HasId : HasId Category.t := Category.id.
#[global] Instance Supplier_HasId : HasId Supplier.t := Supplier.id.
#[global] Instance Warehouse_HasId : HasId Warehouse.t := Warehouse.id.
#[global] Instance Location_HasId : HasId Location.t := Location.id.
#[global] Instance Product_HasId : HasId Product.t := Product.id.
#[global] Instance Stock_HasId : HasId Stock.t := Stock.id.
#[global] Instance OrderItem_HasId : HasId OrderItem.t := OrderItem.id.
#[global] Instance PurchaseOrder_HasId : HasId PurchaseOrder.t := PurchaseOrder.id.
#[global] Instance SalesOrder_HasId : HasId SalesOrder.t := SalesOrder.id.
#[global] Instance StockMovement_HasId : HasId StockMovement.t := StockMovement.id.
#[global] Instance StockAdjustment_HasId : HasId StockAdjustment.t := StockAdjustment.id.

Definition max_id {A : Type} `{HasId A} (l : list A) : Z :=
  fold_right (fun r m => Z.max (id_of r) m) 0 l.

(** INTEGER PRIMARY KEY AUTOINCREMENT: one more than the largest rowid the
    table has ever held. *)
Definition next_id {A : Type} `{HasId A} (s : Z) (l : list A) : Z :=
  1 + Z.max s (max_id l).

Definition insert {A : Type} `{HasId A} (mk : Z -> A) (t : Table A) : A * Table A :=
  let i := next_id (seq t) (rows t) in
  (mk i, mkTable (rows t ++ [mk i]) i).

(** SELECT ... WHERE id = ? *)
Definition lookup {A : Type} `{HasId A} (i : Z) (t : Table A) : option A :=
  find (fun r => id_of r =? i) (rows t).

(** UPDATE ... SET ... WHERE id = ? *)
Definition update_rows {A : Type} `{HasId A} (i : Z) (f : A -> A) (l : list A) : list A :=
  map (fun r => if id_of r =? i then f r else r) l.

Definition update_where_id {A : Type} `{HasId A} (i : Z) (f : A -> A) (t : Table A) : Table A :=
  mkTable (update_rows i f (rows t)) (seq t).

(** DELETE ... WHERE id = ? *)
Definition delete_where_id {A : Type} `{HasId A} (i : Z) (t : Table A) : Table A :=
  mkTable (filter (fun r => negb (id_of r =? i)) (rows t)) (seq t).

Record DB := mkDB {
  categories : Table Category.t;
  suppliers : Table Supplier.t;
  warehouses : Table Warehouse.t;
  locations : Table Location.t;
  products : Table Product.t;
  stocks : Table Stock.t;
  purchaseOrders : Table PurchaseOrder.t;
  purchaseOrderItemSeq : Z;
  salesOrders : Table SalesOrder.t;
  salesOrderItemSeq : Z;
  stockMovements : Table StockMovement.t;
  stockAdjustments : Table StockAdjustment.t }.

Definition emptyDB : DB :=
  mkDB emptyTable emptyTable emptyTable emptyTable emptyTable emptyTable
       emptyTable 0 emptyTable 0 emptyTable emptyTable.

Definition set_locations (t : Table Location.t) (db : DB) : DB :=
  mkDB (categories db) (suppliers db) (warehouses db) t (products db)
       (stocks db) (purchaseOrders db) (purchaseOrderItemSeq db)
       (salesOrders db) (salesOrderItemSeq db) (stockMovements db)
       (stockAdjustments db).

Definition set_products (t : Table Product.t) (db : DB) : DB :=
  mkDB (categories db) (suppliers db) (warehouses db) (locations db) t
       (stocks db) (purchaseOrders db) (purchaseOrderItemSeq db)
       (salesOrders db) (salesOrderItemSeq db) (stockMovements db)
       (stockAdjustments db).

Definition set_stocks (t : Table Stock.t) (db : DB) : DB :=
  mkDB (categories db) (suppliers db) (warehouses db) (locations db)
       (products db) t (purchaseOrders db) (purchaseOrderItemSeq db)
       (salesOrders db) (salesOrderItemSeq db) (stockMovements db)
       (stockAdjustments db).

Definition set_purchaseOrders (t : Table PurchaseOrder.t) (db : DB) : DB :=
  mkDB (categories db) (suppliers db) (warehouses db) (locations db)
       (products db) (stocks db) t (purchaseOrderItemSeq db)
       (salesOrders db) (salesOrderItemSeq db) (stockMovements db)
       (stockAdjustments db).

Definition set_salesOrders (t : Table SalesOrder.t) (s : Z) (db : DB) : DB :=
  mkDB (categories db) (suppliers db) (warehouses db) (locations db)
       (products db) (stocks db) (purchaseOrders db) (purchaseOrderItemSeq db)
       t s (stockMovements db) (stockAdjustments db).

Definition set_stockMovements (t : Table StockMovement.t) (db : DB) : DB :=
  mkDB (categories db) (suppliers db) (warehouses db) (locations db)
       (products db) (stocks db) (purchaseOrders db) (purchaseOrderItemSeq db)
       (salesOrders db) (salesOrderItemSeq db) t (stockAdjustments db).

Definition set_stockAdjustments (t : Table StockAdjustment.t) (db : DB) : DB :=
  mkDB (categories db) (suppliers db) (warehouses db) (locations db)
       (products db) (stocks db) (purchaseOrders db) (purchaseOrderItemSeq db)
       (salesOrders db) (salesOrderItemSeq db) (stockMovements db) t.

Definition set_suppliers (t : Table Supplier.t) (db : DB) : DB :=
  mkDB (categories db) t (warehouses db) (locations db) (products db)
       (stocks db) (purchaseOrders db) (purchaseOrderItemSeq db)
       (salesOrders db) (salesOrderItemSeq db) (stockMovements db)
       (stockAdjustments db).

Definition set_warehouses (t : Table Warehouse.t) (db : DB) : DB :=
  mkDB (categories db) (suppliers db) t (locations db) (products db)
       (stocks db) (purchaseOrders db) (purchaseOrderItemSeq db)
       (salesOrders db) (salesOrderItemSeq db) (stockMovements db)
       (stockAdjustments db).

Definition set_purchaseOrders_items (t : Table PurchaseOrder.t) (s : Z) (db : DB) : DB :=
  mkDB (categories db) (suppliers db) (warehouses db) (locations db)
       (products db) (stocks db) t s
       (salesOrders db) (salesOrderItemSeq db) (stockMovements db)
       (stockAdjustments db).

(** ** Errors and the monad of database computations *)

Inductive Error :=
| AppError (message : string) (statusCode : Z)
| PrismaClientKnownRequestError (code : string) (message : string)
| OtherError (name : string) (message : string).

Definition Result (A : Type) : Type := (Error + A)%type.

Definition Prisma (A : Type) : Type := DB -> Result A * DB.

Definition ret {A : Type} (a : A) : Prisma A := fun db => (inr a, db).

Definition throw {A : Type} (e : Error) : Prisma A := fun db => (inl e, db).

Definition bind {A B : Type} (m : Prisma A) (k : A -> Prisma B) : Prisma B :=
  fun db =>
    match m db with
    | (inl e, db') => (inl e, db')
    | (inr a, db') => k a db'
    end.

Declare Scope prisma_scope.
Delimit Scope prisma_scope with prisma.
Notation "x <- m ;; k" := (bind m (fun x => k))
  (at level 61, m at next level, right associativity) : prisma_scope.
Notation "m ;;; k" := (bind m (fun _ => k))
  (at level 61, right associativity) : prisma_scope.
Local Open Scope prisma_scope.

Definition query {A : Type} (f : DB -> A) : Prisma A := fun db => (inr (f db), db).

(** prisma.$transaction(async (tx) => ...): the writes of a body that throws
    are rolled back. *)
Definition transaction {A : Type} (body : Prisma A) : Prisma A :=
  fun db =>
    match body db with
    | (inl e, _) => (inl e, db)
    | (inr a, db') => (inr a, db')
    end.

(** for (const x of l) { await body(x) } *)
Fixpoint forEach {A : Type} (body : A -> Prisma unit) (l : list A) : Prisma unit :=
  match l with
  | [] => ret tt
  | x :: l' => body x ;;; forEach body l'
  end.

(** Promise.all(l.map(async x => f(x))) *)
Fixpoint mapAll {A B : Type} (f : A -> Prisma B) (l : list A) : Prisma (list B) :=
  match l with
  | [] => ret []
  | x :: l' => y <- f x ;; ys <- mapAll f l' ;; ret (y :: ys)
  end.

Definition string_of_Z (z : Z) : string := NilZero.string_of_int (Z.to_int z).

Definition exists_id {A : Type} `{HasId A} (i : Z) (t : Table A) : bool :=
  existsb (fun r => id_of r =? i) (rows t).

Definition P2002 : Error :=
  PrismaClientKnownRequestError "P2002" "Unique constraint failed".
Definition P2003 : Error :=
  PrismaClientKnownRequestError "P2003" "Foreign key constraint failed".
Definition P2025 : Error :=
  PrismaClientKnownRequestError "P2025" "Record to update not found".

(** ** The ORM client

    The calls the services make on [prisma] (or on the transaction client
    [tx], which is the same client inside [transaction]). Constraints come
    from the migration: primary keys, the foreign keys of each table, and the
    unique indexes on Product.sku and Product.barcode. The Stock table has no
    unique index. *)

Definition unique_indexes : list (string * list string) :=
  [ ("User", ["username"]);
    ("Category", ["name"]);
    ("Supplier", ["email"]);
    ("Product", ["sku"]);
    ("Product", ["barcode"]) ].

(** findMany({ skip, take }) without cursor: a negative [skip] is refused by
    the client; a negative [take] reads from the end of the list. *)
Definition skip_take {A : Type} (skip take : Z) (l : list A) : Result (list A) :=
  if skip <? 0
  then inl (OtherError "PrismaClientValidationError"
                       "Invalid value for skip argument: Value can only be positive")
  else if take <? 0
  then inr (rev (firstn (Z.to_nat (- take)) (skipn (Z.to_nat skip) (rev l))))
  else inr (firstn (Z.to_nat take) (skipn (Z.to_nat skip) l)).

(** A query without orderBy that several rows can match leaves it to the
    database which of them it returns. A [Choice] stands for what the
    database does: given the matching rows, it answers with one of them. *)
Definition Choice (A : Type) : Type := list A -> option A.

(** The row with the least rowid, and the one with the greatest. *)
Definition first_row {A : Type} : Choice A := @hd_error A.
Definition last_row {A : Type} : Choice A := fun l => hd_error (rev l).

Module prisma.

Module category.
Definition findUnique (i : Z) : Prisma (option Category.t) :=
  query (fun db => lookup i (categories db)).
End category.

Module supplier.
Definition findUnique (i : Z) : Prisma (option Supplier.t) :=
  query (fun db => lookup i (suppliers db)).

(** findUnique({ where: { email } }), on the unique index Supplier_email_key. *)
Definition findUniqueByEmail (email : string) : Prisma (option Supplier.t) :=
  query (fun db => find (fun r => (Supplier.email r =? email)%string)
                        (rows (suppliers db))).

Definition create (data : SupplierData.t) : Prisma Supplier.t := fun db =>
  if existsb (fun r => (Supplier.email r =? SupplierData.email data)%string)
             (rows (suppliers db))
  then (inl P2002, db)
  else
    let (r, t) :=
      insert (fun i => Supplier.mk i (SupplierData.name data) (SupplierData.email data))
             (suppliers db) in
    (inr r, set_suppliers t db).

Definition update (i : Z) (data : SupplierUpdate.t) : Prisma Supplier.t := fun db =>
  match lookup i (suppliers db) with
  | None => (inl P2025, db)
  | Some r =>
      if existsb (fun x => negb (Supplier.id x =? i)
                           && (Supplier.email x =? Supplier.email (SupplierUpdate.apply data r))%string)
                 (rows (suppliers db))
      then (inl P2002, db)
      else
        (inr (SupplierUpdate.apply data r),
         set_suppliers (update_where_id i (SupplierUpdate.apply data) (suppliers db)) db)
  end.

(** delete({ where: { id } }); Product.supplierId and
    PurchaseOrder.supplierId are ON DELETE RESTRICT. *)
Definition delete (i : Z) : Prisma unit := fun db =>
  match lookup i (suppliers db) with
  | None => (inl P2025, db)
  | Some _ =>
      if existsb (fun p => Product.supplierId p =? i) (rows (products db))
         || existsb (fun o => PurchaseOrder.supplierId o =? i) (rows (purchaseOrders db))
      then (inl P2003, db)
      else (inr tt, set_suppliers (delete_where_id i (suppliers db)) db)
  end.
End supplier.

Module warehouse.
Definition findUnique (i : Z) : Prisma (option Warehouse.t) :=
  query (fun db => lookup i (warehouses db)).

Definition create (data : WarehouseData.t) : Prisma Warehouse.t := fun db =>
  let (r, t) :=
    insert (fun i => Warehouse.mk i (WarehouseData.name data)
                       (WarehouseData.capacity data) (WarehouseData.address data))
           (warehouses db) in
  (inr r, set_warehouses t db).

Definition update (i : Z) (data : WarehouseUpdate.t) : Prisma Warehouse.t := fun db =>
  match lookup i (warehouses db) with
  | None => (inl P2025, db)
  | Some w =>
      (inr (WarehouseUpdate.apply data w),
       set_warehouses (update_where_id i (WarehouseUpdate.apply data) (warehouses db)) db)
  end.

(** delete({ where: { id } }); Location.warehouseId, Product.warehouseId and
    Stock.warehouseId are ON DELETE RESTRICT. *)
Definition delete (i : Z) : Prisma unit := fun db =>
  match lookup i (warehouses db) with
  | None => (inl P2025, db)
  | Some _ =>
      if existsb (fun l => Location.warehouseId l =? i) (rows (locations db))
         || existsb (fun p => Product.warehouseId p =? i) (rows (products db))
         || existsb (fun s => Stock.warehouseId s =? i) (rows (stocks db))
      then (inl P2003, db)
      else (inr tt, set_warehouses (delete_where_id i (warehouses db)) db)
  end.
End warehouse.

Module location.
Definition findUnique (i : Z) : Prisma (option Location.t) :=
  query (fun db => lookup i (locations db)).

Definition create (name : string) (warehouseId : Z) : Prisma Location.t := fun db =>
  if negb (exists_id warehouseId (warehouses db))
  then (inl P2003, db)
  else
    let (r, t) := insert (fun i => Location.mk i name warehouseId) (locations db) in
    (inr r, set_locations t db).

(** delete({ where: { id } }); Stock.locationId is ON DELETE RESTRICT. *)
Definition delete (i : Z) : Prisma unit := fun db =>
  match lookup i (locations db) with
  | None => (inl P2025, db)
  | Some _ =>
      if existsb (fun s => Stock.locationId s =? i) (rows (stocks db))
      then (inl P2003, db)
      else (inr tt, set_locations (delete_where_id i (locations db)) db)
  end.
End location.

Module product.
Definition findUnique (i : Z) : Prisma (option Product.t) :=
  query (fun db => lookup i (products db)).

(** findFirst({ where: { OR: [{ sku }, { barcode }] } }): there is no
    orderBy, and each branch of the OR has a unique index the query can be
    answered from, so which matching row comes back is the database's
    [choose], not the program's. *)
Definition findFirst (choose : Choice Product.t) (where_ : Product.t -> bool)
  : Prisma (option Product.t) :=
  query (fun db => choose (filter where_ (rows (products db)))).

Definition create (data : ProductData.t) : Prisma Product.t := fun db =>
  if existsb (fun r => (Product.sku r =? ProductData.sku data)%string)
             (rows (products db))
     || existsb (fun r => (Product.barcode r =? ProductData.barcode data)%string)
                (rows (products db))
  then (inl P2002, db)
  else if negb (exists_id (ProductData.categoryId data) (categories db)
                && exists_id (ProductData.supplierId data) (suppliers db)
                && exists_id (ProductData.warehouseId data) (warehouses db))
  then (inl P2003, db)
  else
    let (r, t) := insert (ProductData.row data) (products db) in
    (inr r, set_products t db).

(** update({ where: { id }, data }) with the columns updateProduct may
    send; an absent field leaves its column as it is. *)
Definition update (i : Z) (data : ProductUpdate.t) : Prisma Product.t := fun db =>
  match lookup i (products db) with
  | None => (inl P2025, db)
  | Some p =>
      if negb (exists_id (Product.categoryId (ProductUpdate.apply data p)) (categories db)
               && exists_id (Product.supplierId (ProductUpdate.apply data p)) (suppliers db)
               && exists_id (Product.warehouseId (ProductUpdate.apply data p)) (warehouses db))
      then (inl P2003, db)
      else
        (inr (ProductUpdate.apply data p),
         set_products (update_where_id i (ProductUpdate.apply data) (products db)) db)
  end.

(** delete({ where: { id } }); every reference to Product is ON DELETE
    RESTRICT. *)
Definition delete (i : Z) : Prisma unit := fun db =>
  match lookup i (products db) with
  | None => (inl P2025, db)
  | Some _ =>
      if existsb (fun s => Stock.productId s =? i) (rows (stocks db))
         || existsb (fun o => existsb (fun it => OrderItem.productId it =? i)
                                      (PurchaseOrder.items o))
                    (rows (purchaseOrders db))
         || existsb (fun o => existsb (fun it => OrderItem.productId it =? i)
                                      (SalesOrder.items o))
                    (rows (salesOrders db))
      then (inl P2003, db)
      else (inr tt, set_products (delete_where_id i (products db)) db)
  end.

(** findMany({ where: { id: { in: ids } } }) *)
Definition findManyIn (ids : list Z) : Prisma (list Product.t) :=
  query (fun db => filter (fun p => existsb (fun i => Product.id p =? i) ids)
                          (rows (products db))).
End product.

Module stock.
Definition findUnique (i : Z) : Prisma (option Stock.t) :=
  query (fun db => lookup i (stocks db)).

(** findFirst({ where }) on columns of Stock, which has no index but its
    primary key: a scan of the table in rowid order. *)
Definition findFirst (where_ : Stock.t -> bool) : Prisma (option Stock.t) :=
  query (fun db => find where_ (rows (stocks db))).

Definition create (productId warehouseId locationId quantity : Z) : Prisma Stock.t :=
  fun db =>
    if negb (exists_id productId (products db)
             && exists_id warehouseId (warehouses db)
             && exists_id locationId (locations db))
    then (inl P2003, db)
    else
      let (r, t) :=
        insert (fun i => Stock.mk i productId warehouseId locationId quantity)
               (stocks db) in
      (inr r, set_stocks t db).

(** update({ where: { id }, data: { quantity } }) *)
Definition update (i : Z) (quantity : Z) : Prisma Stock.t := fun db =>
  match lookup i (stocks db) with
  | None => (inl P2025, db)
  | Some s =>
      (inr (Stock.set_quantity quantity s),
       set_stocks (update_where_id i (Stock.set_quantity quantity) (stocks db)) db)
  end.

Definition findMany (where_ : Stock.t -> bool) : Prisma (list Stock.t) :=
  query (fun db => filter where_ (rows (stocks db))).

(** findMany({ skip, take }) *)
Definition findManyPage (skip take : Z) : Prisma (list Stock.t) := fun db =>
  (skip_take skip take (rows (stocks db)), db).

Definition count : Prisma Z :=
  query (fun db => Z.of_nat (List.length (rows (stocks db)))).
End stock.

Module stockMovement.
Definition create (data : MovementInput.t) : Prisma StockMovement.t := fun db =>
  if negb (exists_id (MovementInput.stockId data) (stocks db))
  then (inl P2003, db)
  else
    let (r, t) :=
      insert (fun i => StockMovement.mk i (MovementInput.stockId data)
                         (MovementInput.movementType data)
                         (MovementInput.quantity data)
                         (MovementInput.reason data))
             (stockMovements db) in
    (inr r, set_stockMovements t db).

Definition createMany (data : list MovementInput.t) : Prisma unit :=
  forEach (fun d => create d ;;; ret tt) data.
End stockMovement.

Module stockAdjustment.
Definition create (stockId : Z) (adjustmentType : AdjustmentType)
    (quantity : Z) (reason : string) (approvedById : Z)
  : Prisma StockAdjustment.t := fun db =>
  if negb (exists_id stockId (stocks db))
  then (inl P2003, db)
  else
    let (r, t) :=
      insert (fun i => StockAdjustment.mk i stockId adjustmentType quantity
                         reason approvedById)
             (stockAdjustments db) in
    (inr r, set_stockAdjustments t db).
End stockAdjustment.

(** Rows for the nested [items: { create: items }]: consecutive ids after
    [start]. *)
Fixpoint number_items (start : Z) (items : list ItemInput.t) : list OrderItem.t :=
  match items with
  | [] => []
  | it :: rest =>
      OrderItem.mk (start + 1) (ItemInput.productId it) (ItemInput.quantity it)
                   (ItemInput.unitPrice it)
      :: number_items (start + 1) rest
  end.

Module purchaseOrder.
Definition findUnique (i : Z) : Prisma (option PurchaseOrder.t) :=
  query (fun db => lookup i (purchaseOrders db)).

(** update({ where: { id }, data: { status } }) *)
Definition update (i : Z) (status : option string) : Prisma PurchaseOrder.t := fun db =>
  match lookup i (purchaseOrders db) with
  | None => (inl P2025, db)
  | Some o =>
      let f := fun o => match status with
                        | Some st => PurchaseOrder.set_status st o
                        | None => o
                        end in
      (inr (f o), set_purchaseOrders (update_where_id i f (purchaseOrders db)) db)
  end.

Definition create (supplierId : Z) (status : string) (items : list ItemInput.t)
  : Prisma PurchaseOrder.t := fun db =>
  if negb (exists_id supplierId (suppliers db)
           && forallb (fun it => exists_id (ItemInput.productId it) (products db)) items)
  then (inl P2003, db)
  else
    let start :=
      Z.max (purchaseOrderItemSeq db)
            (max_id (List.concat (map PurchaseOrder.items (rows (purchaseOrders db))))) in
    let rs := number_items start items in
    let (r, t) := insert (fun i => PurchaseOrder.mk i supplierId status rs)
                         (purchaseOrders db) in
    (inr r, set_purchaseOrders_items t (start + Z.of_nat (List.length items)) db).

(** delete({ where: { id } }); PurchaseOrderItem.purchaseOrderId is ON DELETE
    RESTRICT, so an order that has items cannot go. *)
Definition delete (i : Z) : Prisma unit := fun db =>
  match lookup i (purchaseOrders db) with
  | None => (inl P2025, db)
  | Some o =>
      match PurchaseOrder.items o with
      | _ :: _ => (inl P2003, db)
      | [] => (inr tt, set_purchaseOrders (delete_where_id i (purchaseOrders db)) db)
      end
  end.
End purchaseOrder.

Module salesOrder.
Definition findUnique (i : Z) : Prisma (option SalesOrder.t) :=
  query (fun db => lookup i (salesOrders db)).

Definition create (customerId : Z) (status : string) (items : list ItemInput.t)
  : Prisma SalesOrder.t := fun db =>
  if negb (forallb (fun it => exists_id (ItemInput.productId it) (products db)) items)
  then (inl P2003, db)
  else
    let start :=
      Z.max (salesOrderItemSeq db)
            (max_id (List.concat (map SalesOrder.items (rows (salesOrders db))))) in
    let rs := number_items start items in
    let (r, t) := insert (fun i => SalesOrder.mk i customerId status rs)
                         (salesOrders db) in
    (inr r, set_salesOrders t (start + Z.of_nat (List.length items)) db).

(** update({ where: { id }, data: { status } }) *)
Definition update (i : Z) (status : option string) : Prisma SalesOrder.t := fun db =>
  match lookup i (salesOrders db) with
  | None => (inl P2025, db)
  | Some o =>
      let f := fun o => match status with
                        | Some st => SalesOrder.set_status st o
                        | None => o
                        end in
      (inr (f o),
       set_salesOrders (update_where_id i f (salesOrders db)) (salesOrderItemSeq db) db)
  end.
End salesOrder.

End prisma.

(** ** StockService *)

Module CreateStockData.
Record t := mk { productId : Z; warehouseId : Z; locationId : Z; quantity : Z }.
End CreateStockData.

Module AdjustStockData.
Record t := mk {
  stockId : Z; adjustmentType : AdjustmentType; quantity : Z;
  reason : string; approvedById : Z }.
End AdjustStockData.

Module TransferStockData.
Record t := mk {
  sourceStockId : Z; targetLocationId : Z; quantity : Z; reason : string }.
End TransferStockData.

Module StockService.

Definition createStock (data : CreateStockData.t) : Prisma Stock.t :=
  let productId := CreateStockData.productId data in
  let warehouseId := CreateStockData.warehouseId data in
  let locationId := CreateStockData.locationId data in
  let quantity := CreateStockData.quantity data in
  location <- prisma.location.findUnique locationId ;;
  match location with
  | None => throw (AppError "Invalid location for warehouse" 400)
  | Some l =>
    if negb (Location.warehouseId l =? warehouseId)
    then throw (AppError "Invalid location for warehouse" 400)
    else
      existingStock <- prisma.stock.findFirst
        (fun s => (Stock.productId s =? productId)
                  && (Stock.locationId s =? locationId)) ;;
      match existingStock with
      | Some _ =>
          throw (AppError "Stock already exists for this product in this location" 400)
      | None => prisma.stock.create productId warehouseId locationId quantity
      end
  end.

Definition recordMovement (data : MovementInput.t) : Prisma StockMovement.t :=
  let stockId := MovementInput.stockId data in
  let movementType := MovementInput.movementType data in
  let quantity := MovementInput.quantity data in
  let reason := MovementInput.reason data in
  transaction (
    stock <- prisma.stock.findUnique stockId ;;
    match stock with
    | None => throw (AppError "Stock not found" 404)
    | Some stock =>
      if match movementType with OUT => Stock.quantity stock <? quantity | IN => false end
      then throw (AppError "Insufficient stock quantity" 400)
      else
        let newQuantity :=
          match movementType with
          | IN => Stock.quantity stock + quantity
          | OUT => Stock.quantity stock - quantity
          end in
        prisma.stock.update stockId newQuantity ;;;
        prisma.stockMovement.create
          (MovementInput.mk stockId movementType quantity reason)
    end).

Definition adjustStock (data : AdjustStockData.t) : Prisma StockAdjustment.t :=
  let stockId := AdjustStockData.stockId data in
  let adjustmentType := AdjustStockData.adjustmentType data in
  let quantity := AdjustStockData.quantity data in
  let reason := AdjustStockData.reason data in
  let approvedById := AdjustStockData.approvedById data in
  transaction (
    stock <- prisma.stock.findUnique stockId ;;
    match stock with
    | None => throw (AppError "Stock not found" 404)
    | Some stock =>
      if match adjustmentType with REMOVE => Stock.quantity stock <? quantity | ADD => false end
      then throw (AppError "Insufficient stock quantity" 400)
      else
        let newQuantity :=
          match adjustmentType with
          | ADD => Stock.quantity stock + quantity
          | REMOVE => Stock.quantity stock - quantity
          end in
        prisma.stock.update stockId newQuantity ;;;
        prisma.stockAdjustment.create stockId adjustmentType quantity reason approvedById
    end).

Definition transferStock (data : TransferStockData.t)
  : Prisma (option Stock.t * option Stock.t) :=
  let sourceStockId := TransferStockData.sourceStockId data in
  let targetLocationId := TransferStockData.targetLocationId data in
  let quantity := TransferStockData.quantity data in
  let reason := TransferStockData.reason data in
  transaction (
    sourceStock <- prisma.stock.findUnique sourceStockId ;;
    match sourceStock with
    | None => throw (AppError "Source stock not found" 404)
    | Some sourceStock =>
      if Stock.quantity sourceStock <? quantity
      then throw (AppError "Insufficient stock quantity" 400)
      else
        targetLocation <- prisma.location.findUnique targetLocationId ;;
        match targetLocation with
        | None => throw (AppError "Target location not found" 404)
        | Some targetLocation =>
          found <- prisma.stock.findFirst
            (fun s => (Stock.productId s =? Stock.productId sourceStock)
                      && (Stock.locationId s =? targetLocationId)) ;;
          targetStock <-
            match found with
            | Some t => ret t
            | None =>
                prisma.stock.create (Stock.productId sourceStock)
                  (Location.warehouseId targetLocation) targetLocationId 0
            end ;;
          prisma.stock.update sourceStockId (Stock.quantity sourceStock - quantity) ;;;
          prisma.stock.update (Stock.id targetStock) (Stock.quantity targetStock + quantity) ;;;
          prisma.stockMovement.createMany
            [ MovementInput.mk sourceStockId OUT quantity ("Transfer out: " ++ reason)%string;
              MovementInput.mk (Stock.id targetStock) IN quantity ("Transfer in: " ++ reason)%string ] ;;;
          s <- prisma.stock.findUnique sourceStockId ;;
          t <- prisma.stock.findUnique (Stock.id targetStock) ;;
          ret (s, t)
        end
    end).


(** What the list endpoints return. *)
Record Page (A : Type) := mkPage {
  data : list A; total : Z; page : Z; pageSize : Z; totalPages : Z }.
Arguments mkPage {A} data total page pageSize totalPages.
Arguments data {A} p.
Arguments total {A} p.
Arguments totalPages {A} p.

(** Math.ceil(total / pageSize), the quotient taken exactly. *)
Definition ceil_div (total pageSize : Z) : Z :=
  Qround.Qceiling
    (QArith_base.Qdiv (QArith_base.inject_Z total) (QArith_base.inject_Z pageSize)).

Definition getStocks (page pageSize : Z) : Prisma (Page Stock.t) :=
  let skip := (page - 1) * pageSize in
  let take := pageSize in
  stocks_ <- prisma.stock.findManyPage skip take ;;
  total <- prisma.stock.count ;;
  ret (mkPage stocks_ total page pageSize (ceil_div total pageSize)).

(** A Stock row with the movements and adjustments the query includes,
    [orderBy: { createdAt: 'desc' }]. The model has no createdAt: rows are
    taken to be created at different times, so that the latest first is the
    reverse of rowid order. The order the database gives rows created within
    the same millisecond is not modelled, and the properties of these lists
    are stated up to their order. *)
Record StockDetail := mkStockDetail {
  detail_stock : Stock.t;
  detail_movements : list StockMovement.t;
  detail_adjustments : list StockAdjustment.t }.

Definition getStockById (id : Z) : Prisma StockDetail :=
  stock <- prisma.stock.findUnique id ;;
  match stock with
  | None => throw (AppError "Stock not found" 404)
  | Some stock =>
      movements <- query (fun db =>
        rev (filter (fun m => StockMovement.stockId m =? Stock.id stock)
                    (rows (stockMovements db)))) ;;
      adjustments <- query (fun db =>
        rev (filter (fun a => StockAdjustment.stockId a =? Stock.id stock)
                    (rows (stockAdjustments db)))) ;;
      ret (mkStockDetail stock movements adjustments)
  end.
End StockService.

(** ** SalesOrderService *)

Module CreateSalesOrderData.
Record t := mk { customerId : Z; items : list ItemInput.t }.
End CreateSalesOrderData.

(** One entry of [stockChecks]. *)
Inductive StockCheck :=
| Available
| Unavailable (productName : string) (available requested : Z).

Definition isAvailable (c : StockCheck) : bool :=
  match c with Available => true | Unavailable _ _ _ => false end.

Module SalesOrderService.

(** The callback of [items.map] in the availability check. The selected
    [product.name] is read through the stock row's foreign key; the
    empty string is falsy under [||]. *)
Definition checkItem (item : ItemInput.t) : Prisma StockCheck :=
  stock <- prisma.stock.findFirst
    (fun s => Stock.productId s =? ItemInput.productId item) ;;
  match stock with
  | None => ret (Unavailable "Unknown product" 0 (ItemInput.quantity item))
  | Some stock =>
      if Stock.quantity stock <? ItemInput.quantity item
      then
        product <- prisma.product.findUnique (Stock.productId stock) ;;
        let name := match product with Some p => Product.name p | None => EmptyString end in
        ret (Unavailable (if (name =? EmptyString)%string then "Unknown product" else name)
                         (Stock.quantity stock) (ItemInput.quantity item))
      else ret Available
  end.

Definition describe (c : StockCheck) : string :=
  match c with
  | Available => EmptyString
  | Unavailable productName available requested =>
      (productName ++ " (requested: " ++ string_of_Z requested
         ++ ", available: " ++ string_of_Z available ++ ")")%string
  end.

(** The body of the loop that reduces the stock quantities. *)
Definition reduceItem (orderId : Z) (item : ItemInput.t) : Prisma unit :=
  stock <- prisma.stock.findFirst
    (fun s => Stock.productId s =? ItemInput.productId item) ;;
  match stock with
  | Some stock =>
      prisma.stock.update (Stock.id stock)
        (Stock.quantity stock - ItemInput.quantity item) ;;;
      prisma.stockMovement.create
        (MovementInput.mk (Stock.id stock) OUT (ItemInput.quantity item)
           ("Sales Order #" ++ string_of_Z orderId)%string) ;;;
      ret tt
  | None => ret tt
  end.

Definition createSalesOrder (data : CreateSalesOrderData.t) : Prisma SalesOrder.t :=
  let customerId := CreateSalesOrderData.customerId data in
  let items := CreateSalesOrderData.items data in
  if (List.length items =? 0)%nat
  then throw (AppError "Sales order must have at least one item" 400)
  else
    stockChecks <- mapAll checkItem items ;;
    let unavailableItems := filter (fun c => negb (isAvailable c)) stockChecks in
    if (0 <? List.length unavailableItems)%nat
    then throw (AppError
                  ("Insufficient stock for items: "
                     ++ String.concat ", " (map describe unavailableItems))%string
                  400)
    else
      transaction (
        order <- prisma.salesOrder.create customerId "open" items ;;
        forEach (reduceItem (SalesOrder.id order)) items ;;;
        ret order).

Definition updateSalesOrder (id : Z) (status : option string) : Prisma SalesOrder.t :=
  order <- prisma.salesOrder.findUnique id ;;
  match order with
  | None => throw (AppError "Sales order not found" 404)
  | Some order =>
      if (SalesOrder.status order =? "completed")%string
      then throw (AppError "Cannot update a completed sales order" 400)
      else prisma.salesOrder.update id status
  end.

(** The body of the loop that restores the stock quantities. *)
Definition restoreItem (orderId : Z) (item : OrderItem.t) : Prisma unit :=
  stock <- prisma.stock.findFirst
    (fun s => Stock.productId s =? OrderItem.productId item) ;;
  match stock with
  | Some stock =>
      prisma.stock.update (Stock.id stock)
        (Stock.quantity stock + OrderItem.quantity item) ;;;
      prisma.stockMovement.create
        (MovementInput.mk (Stock.id stock) IN (OrderItem.quantity item)
           ("Sales Order #" ++ string_of_Z orderId ++ " cancelled")%string) ;;;
      ret tt
  | None => ret tt
  end.

Definition cancelSalesOrder (id : Z) : Prisma SalesOrder.t :=
  transaction (
    order <- prisma.salesOrder.findUnique id ;;
    match order with
    | None => throw (AppError "Sales order not found" 404)
    | Some order =>
        if (SalesOrder.status order =? "cancelled")%string
        then throw (AppError "Order is already cancelled" 400)
        else if (SalesOrder.status order =? "completed")%string
        then throw (AppError "Cannot cancel a completed order" 400)
        else
          forEach (restoreItem (SalesOrder.id order)) (SalesOrder.items order) ;;;
          prisma.salesOrder.update id (Some "cancelled")
    end).

(** The order comes with its items; the product the query joins to each
    item is left out. *)
Definition getSalesOrderById (id : Z) : Prisma SalesOrder.t :=
  order <- prisma.salesOrder.findUnique id ;;
  match order with
  | None => throw (AppError "Sales order not found" 404)
  | Some order => ret order
  end.
End SalesOrderService.

(** ** PurchaseOrderService *)

Module PurchaseOrderService.

(** The body of the loop that updates the stock for each received item. *)
Definition receiveItem (orderId : Z) (item : OrderItem.t) : Prisma unit :=
  stock <- prisma.stock.findFirst
    (fun s => Stock.productId s =? OrderItem.productId item) ;;
  match stock with
  | Some stock =>
      prisma.stock.update (Stock.id stock)
        (Stock.quantity stock + OrderItem.quantity item) ;;;
      prisma.stockMovement.create
        (MovementInput.mk (Stock.id stock) IN (OrderItem.quantity item)
           ("Purchase Order #" ++ string_of_Z orderId ++ " received")%string) ;;;
      ret tt
  | None => ret tt
  end.

Definition receivePurchaseOrder (id : Z) : Prisma PurchaseOrder.t :=
  transaction (
    order <- prisma.purchaseOrder.findUnique id ;;
    match order with
    | None => throw (AppError "Purchase order not found" 404)
    | Some order =>
        if (PurchaseOrder.status order =? "received")%string
        then throw (AppError "Purchase order already received" 400)
        else
          forEach (receiveItem (PurchaseOrder.id order)) (PurchaseOrder.items order) ;;;
          prisma.purchaseOrder.update id (Some "received")
    end).

(** The order comes with its items; the supplier and the products the query
    joins in are left out. *)
Definition getPurchaseOrderById (id : Z) : Prisma PurchaseOrder.t :=
  order <- prisma.purchaseOrder.findUnique id ;;
  match order with
  | None => throw (AppError "Purchase order not found" 404)
  | Some order => ret order
  end.

Definition createPurchaseOrder (supplierId : Z) (items : list ItemInput.t)
  : Prisma PurchaseOrder.t :=
  if (List.length items =? 0)%nat
  then throw (AppError "Purchase order must have at least one item" 400)
  else
    supplier <- prisma.supplier.findUnique supplierId ;;
    match supplier with
    | None => throw (AppError "Supplier not found" 404)
    | Some _ =>
        let productIds := map ItemInput.productId items in
        products_ <- prisma.product.findManyIn productIds ;;
        if negb (List.length products_ =? List.length productIds)%nat
        then throw (AppError "One or more products not found" 400)
        else prisma.purchaseOrder.create supplierId "open" items
    end.

Definition updatePurchaseOrder (id : Z) (status : option string)
  : Prisma PurchaseOrder.t :=
  order <- prisma.purchaseOrder.findUnique id ;;
  match order with
  | None => throw (AppError "Purchase order not found" 404)
  | Some order =>
      if (PurchaseOrder.status order =? "received")%string
      then throw (AppError "Cannot update a received purchase order" 400)
      else prisma.purchaseOrder.update id status
  end.

Definition deletePurchaseOrder (id : Z) : Prisma unit :=
  order <- prisma.purchaseOrder.findUnique id ;;
  match order with
  | None => throw (AppError "Purchase order not found" 404)
  | Some order =>
      if (PurchaseOrder.status order =? "received")%string
      then throw (AppError "Cannot delete a received purchase order" 400)
      else prisma.purchaseOrder.delete id
  end.
End PurchaseOrderService.

(** ** ProductService *)

Module ProductService.

Definition createProduct (choose : Choice Product.t) (data : ProductData.t)
  : Prisma Product.t :=
  let sku := ProductData.sku data in
  let barcode := ProductData.barcode data in
  existing <- prisma.product.findFirst choose
    (fun p => (Product.sku p =? sku)%string || (Product.barcode p =? barcode)%string) ;;
  match existing with
  | Some existing =>
      throw (AppError
               ("Product with same "
                  ++ (if (Product.sku existing =? sku)%string then "SKU" else "barcode")
                  ++ " already exists")%string
               400)
  | None =>
      category <- prisma.category.findUnique (ProductData.categoryId data) ;;
      supplier <- prisma.supplier.findUnique (ProductData.supplierId data) ;;
      warehouse <- prisma.warehouse.findUnique (ProductData.warehouseId data) ;;
      match category, supplier, warehouse with
      | None, _, _ => throw (AppError "Category not found" 400)
      | Some _, None, _ => throw (AppError "Supplier not found" 400)
      | Some _, Some _, None => throw (AppError "Warehouse not found" 400)
      | Some _, Some _, Some _ => prisma.product.create data
      end
  end.

(** [if (data.categoryId) { ... }]: the check runs when the field is
    present and not 0. *)
Definition validate {A : Type} (field : option Z) (find : Z -> Prisma (option A))
    (message : string) : Prisma unit :=
  match field with
  | None => ret tt
  | Some i =>
      if i =? 0 then ret tt
      else
        found <- find i ;;
        match found with
        | None => throw (AppError message 400)
        | Some _ => ret tt
        end
  end.

Definition updateProduct (id : Z) (data : ProductUpdate.t) : Prisma Product.t :=
  product <- prisma.product.findUnique id ;;
  match product with
  | None => throw (AppError "Product not found" 404)
  | Some _ =>
      validate (ProductUpdate.categoryId data) prisma.category.findUnique
               "Category not found" ;;;
      validate (ProductUpdate.supplierId data) prisma.supplier.findUnique
               "Supplier not found" ;;;
      validate (ProductUpdate.warehouseId data) prisma.warehouse.findUnique
               "Warehouse not found" ;;;
      prisma.product.update id data
  end.

Definition deleteProduct (id : Z) : Prisma unit :=
  product <- prisma.product.findUnique id ;;
  match product with
  | None => throw (AppError "Product not found" 404)
  | Some _ =>
      stocks_ <- query (fun db =>
        existsb (fun s => Stock.productId s =? id) (rows (stocks db))) ;;
      purchaseItems <- query (fun db =>
        existsb (fun o => existsb (fun it => OrderItem.productId it =? id)
                                  (PurchaseOrder.items o))
                (rows (purchaseOrders db))) ;;
      salesItems <- query (fun db =>
        existsb (fun o => existsb (fun it => OrderItem.productId it =? id)
                                  (SalesOrder.items o))
                (rows (salesOrders db))) ;;
      if stocks_ || purchaseItems || salesItems
      then throw (AppError
                    "Cannot delete product with existing stock or order history" 400)
      else prisma.product.delete id
  end.

(** The result is the Product row; the category, supplier, warehouse and
    Stock rows the query joins in are left out. *)
Definition getProductById (id : Z) : Prisma Product.t :=
  product <- prisma.product.findUnique id ;;
  match product with
  | None => throw (AppError "Product not found" 404)
  | Some product => ret product
  end.

(** { totalQuantity: stocks.reduce((sum, stock) => sum + stock.quantity, 0),
      stocks } *)
Definition getProductStock (id : Z) : Prisma (Z * list Stock.t) :=
  stocks_ <- prisma.stock.findMany (fun s => Stock.productId s =? id) ;;
  ret (fold_left (fun sum stock => sum + Stock.quantity stock) stocks_ 0, stocks_).
End ProductService.

(** ** WarehouseService: location management *)

Module WarehouseService.

Definition addLocation (warehouseId : Z) (name : string) : Prisma Location.t :=
  warehouse <- prisma.warehouse.findUnique warehouseId ;;
  match warehouse with
  | None => throw (AppError "Warehouse not found" 404)
  | Some _ => prisma.location.create name warehouseId
  end.

Definition removeLocation (locationId : Z) : Prisma unit :=
  location <- prisma.location.findUnique locationId ;;
  match location with
  | None => throw (AppError "Location not found" 404)
  | Some _ =>
      stocks_ <- query (fun db =>
        existsb (fun s => Stock.locationId s =? locationId) (rows (stocks db))) ;;
      if stocks_
      then throw (AppError "Cannot delete location with existing stock" 400)
      else prisma.location.delete locationId
  end.

(** The result is the Warehouse row; the locations and products the query
    joins in are left out. *)
Definition getWarehouseById (id : Z) : Prisma Warehouse.t :=
  warehouse <- prisma.warehouse.findUnique id ;;
  match warehouse with
  | None => throw (AppError "Warehouse not found" 404)
  | Some warehouse => ret warehouse
  end.

(** [!name || !capacity || !address]: the empty string and 0 are falsy. *)
Definition createWarehouse (data : WarehouseData.t) : Prisma Warehouse.t :=
  if (WarehouseData.name data =? EmptyString)%string
     || (WarehouseData.capacity data =? 0)
     || (WarehouseData.address data =? EmptyString)%string
  then throw (AppError "Missing required fields" 400)
  else prisma.warehouse.create data.

Definition updateWarehouse (id : Z) (data : WarehouseUpdate.t) : Prisma Warehouse.t :=
  warehouse <- prisma.warehouse.findUnique id ;;
  match warehouse with
  | None => throw (AppError "Warehouse not found" 404)
  | Some _ => prisma.warehouse.update id data
  end.

Definition deleteWarehouse (id : Z) : Prisma unit :=
  warehouse <- prisma.warehouse.findUnique id ;;
  match warehouse with
  | None => throw (AppError "Warehouse not found" 404)
  | Some _ =>
      products_ <- query (fun db =>
        existsb (fun p => Product.warehouseId p =? id) (rows (products db))) ;;
      stocks_ <- query (fun db =>
        existsb (fun s => Stock.warehouseId s =? id) (rows (stocks db))) ;;
      if products_ || stocks_
      then throw (AppError "Cannot delete warehouse with existing products or stock" 400)
      else prisma.warehouse.delete id
  end.
End WarehouseService.

(** ** SupplierService *)

Module SupplierService.

(** The result is the Supplier row; the products and purchase orders the
    query joins in are left out. *)
Definition getSupplierById (id : Z) : Prisma Supplier.t :=
  supplier <- prisma.supplier.findUnique id ;;
  match supplier with
  | None => throw (AppError "Supplier not found" 404)
  | Some supplier => ret supplier
  end.

Definition createSupplier (data : SupplierData.t) : Prisma Supplier.t :=
  existing <- prisma.supplier.findUniqueByEmail (SupplierData.email data) ;;
  match existing with
  | Some _ => throw (AppError "Supplier with this email already exists" 400)
  | None => prisma.supplier.create data
  end.

(** [data.email && data.email !== supplier.email]: the empty string is
    falsy. *)
Definition updateSupplier (id : Z) (data : SupplierUpdate.t) : Prisma Supplier.t :=
  supplier <- prisma.supplier.findUnique id ;;
  match supplier with
  | None => throw (AppError "Supplier not found" 404)
  | Some supplier =>
      match SupplierUpdate.email data with
      | Some email =>
          if negb (email =? EmptyString)%string
             && negb (email =? Supplier.email supplier)%string
          then
            existing <- prisma.supplier.findUniqueByEmail email ;;
            match existing with
            | Some _ => throw (AppError "Email already in use by another supplier" 400)
            | None => ret tt
            end
          else ret tt
      | None => ret tt
      end ;;;
      prisma.supplier.update id data
  end.

Definition deleteSupplier (id : Z) : Prisma unit :=
  supplier <- prisma.supplier.findUnique id ;;
  match supplier with
  | None => throw (AppError "Supplier not found" 404)
  | Some _ =>
      products_ <- query (fun db =>
        existsb (fun p => Product.supplierId p =? id) (rows (products db))) ;;
      purchaseOrders_ <- query (fun db =>
        existsb (fun o => PurchaseOrder.supplierId o =? id) (rows (purchaseOrders db))) ;;
      if products_ || purchaseOrders_
      then throw (AppError
                    "Cannot delete supplier with existing products or purchase orders" 400)
      else prisma.supplier.delete id
  end.

End SupplierService.

(** ** Requests and reachable states

    The service calls that write to the database, and the database each
    leaves behind, whether it returns or throws. A createProduct call comes
    with the choice the database makes in its search. The calls of a
    sequence are run one after the other. *)

Inductive Call :=
| createStock (data : CreateStockData.t)
| recordMovement (data : MovementInput.t)
| adjustStock (data : AdjustStockData.t)
| transferStock (data : TransferStockData.t)
| createSalesOrder (data : CreateSalesOrderData.t)
| updateSalesOrder (id : Z) (status : option string)
| cancelSalesOrder (id : Z)
| receivePurchaseOrder (id : Z)
| createProduct (choose : Choice Product.t) (data : ProductData.t)
| updateProduct (id : Z) (data : ProductUpdate.t)
| deleteProduct (id : Z)
| addLocation (warehouseId : Z) (name : string)
| removeLocation (locationId : Z)
| createPurchaseOrder (supplierId : Z) (items : list ItemInput.t)
| updatePurchaseOrder (id : Z) (status : option string)
| deletePurchaseOrder (id : Z)
| createWarehouse (data : WarehouseData.t)
| updateWarehouse (id : Z) (data : WarehouseUpdate.t)
| deleteWarehouse (id : Z)
| createSupplier (data : SupplierData.t)
| updateSupplier (id : Z) (data : SupplierUpdate.t)
| deleteSupplier (id : Z).

Definition run (c : Call) (db : DB) : DB :=
  match c with
  | createStock data => snd (StockService.createStock data db)
  | recordMovement data => snd (StockService.recordMovement data db)
  | adjustStock data => snd (StockService.adjustStock data db)
  | transferStock data => snd (StockService.transferStock data db)
  | createSalesOrder data => snd (SalesOrderService.createSalesOrder data db)
  | updateSalesOrder id status => snd (SalesOrderService.updateSalesOrder id status db)
  | cancelSalesOrder id => snd (SalesOrderService.cancelSalesOrder id db)
  | receivePurchaseOrder id => snd (PurchaseOrderService.receivePurchaseOrder id db)
  | createProduct choose data => snd (ProductService.createProduct choose data db)
  | updateProduct id data => snd (ProductService.updateProduct id data db)
  | deleteProduct id => snd (ProductService.deleteProduct id db)
  | addLocation warehouseId name => snd (WarehouseService.addLocation warehouseId name db)
  | removeLocation locationId => snd (WarehouseService.removeLocation locationId db)
  | createPurchaseOrder supplierId items =>
      snd (PurchaseOrderService.createPurchaseOrder supplierId items db)
  | updatePurchaseOrder id status =>
      snd (PurchaseOrderService.updatePurchaseOrder id status db)
  | deletePurchaseOrder id => snd (PurchaseOrderService.deletePurchaseOrder id db)
  | createWarehouse data => snd (WarehouseService.createWarehouse data db)
  | updateWarehouse id data => snd (WarehouseService.updateWarehouse id data db)
  | deleteWarehouse id => snd (WarehouseService.deleteWarehouse id db)
  | createSupplier data => snd (SupplierService.createSupplier data db)
  | updateSupplier id data => snd (SupplierService.updateSupplier id data db)
  | deleteSupplier id => snd (SupplierService.deleteSupplier id db)
  end.

Inductive reachable (init : DB) : DB -> Prop :=
| reachable_init : reachable init init
| reachable_run db c : reachable init db -> reachable init (run c db).

(** ** State predicates *)

(** PRIMARY KEY of Stock. *)
Definition stock_ids_unique (db : DB) : Prop :=
  NoDup (map Stock.id (rows (stocks db))).

Definition stock_pairs_unique (db : DB) : Prop :=
  NoDup (map (fun s => (Stock.productId s, Stock.locationId s)) (rows (stocks db))).

Definition skus_unique (db : DB) : Prop :=
  NoDup (map Product.sku (rows (products db))).

Definition barcodes_unique (db : DB) : Prop :=
  NoDup (map Product.barcode (rows (products db))).

Definition stock_in_location_warehouse (db : DB) : Prop :=
  forall s, In s (rows (stocks db)) ->
    exists l, lookup (Stock.locationId s) (locations db) = Some l
              /\ Location.warehouseId l = Stock.warehouseId s.

Definition quantities_nonnegative (db : DB) : Prop :=
  Forall (fun s => 0 <= Stock.quantity s) (rows (stocks db)).

(** The units of a product over all its Stock rows. *)
Definition total_quantity (productId : Z) (l : list Stock.t) : Z :=
  fold_right Z.add 0
    (map Stock.quantity (filter (fun s => Stock.productId s =? productId) l)).

(** ** What the item loops do to the Stock table

    [bump p d l] adds [d] to the first row of product [p], which is the row
    [findFirst({ where: { productId: p } })] returns; a list without such a
    row is left as it is. *)

Fixpoint bump (p d : Z) (l : list Stock.t) : list Stock.t :=
  match l with
  | [] => []
  | s :: r =>
      if Stock.productId s =? p
      then Stock.set_quantity (Stock.quantity s + d) s :: r
      else s :: bump p d r
  end.

(** The movement the loop body records for one item, if the product has a
    Stock row. *)
Definition item_movement (p : Z) (movementType : MovementType) (q : Z)
    (reason : string) (l : list Stock.t) : list MovementInput.t :=
  match find (fun s => Stock.productId s =? p) l with
  | Some s => [MovementInput.mk (Stock.id s) movementType q reason]
  | None => []
  end.

Definition record (t : Table StockMovement.t) (m : MovementInput.t)
  : Table StockMovement.t :=
  snd (insert (fun i => StockMovement.mk i (MovementInput.stockId m)
                          (MovementInput.movementType m)
                          (MovementInput.quantity m)
                          (MovementInput.reason m)) t).

Definition record_all (ms : list MovementInput.t) (t : Table StockMovement.t)
  : Table StockMovement.t :=
  fold_left record ms t.

Definition received_rows (items : list OrderItem.t) (l : list Stock.t) : list Stock.t :=
  fold_left (fun l it => bump (OrderItem.productId it) (OrderItem.quantity it) l)
            items l.

Definition received_movements (orderId : Z) (items : list OrderItem.t)
    (l : list Stock.t) : list MovementInput.t :=
  flat_map (fun it =>
              item_movement (OrderItem.productId it) IN (OrderItem.quantity it)
                ("Purchase Order #" ++ string_of_Z orderId ++ " received")%string l)
           items.

(** ** Middleware *)

(** What a handler has sent: res.status(code).json({ status, message }). *)
Module Response.
Record t := mk { statusCode : Z; status : string; message : string }.
End Response.

Definition errorHandler (err : Error) : Response.t :=
  match err with
  | AppError message statusCode => Response.mk statusCode "error" message
  | PrismaClientKnownRequestError code _ =>
      if (code =? "P2002")%string
      then Response.mk 400 "error" "A unique constraint violation occurred"
      else Response.mk 400 "error" "Database operation failed"
  | OtherError _ _ => Response.mk 500 "error" "Internal server error"
  end.

Module User.
Record t := mk { userId : Z; role : string }.
End User.

Module Request.
Record t := mk { authorization : option string; user : option User.t }.
End Request.

(** How a middleware hands over: next() or next(err). *)
Inductive Next :=
| next
| next_error (e : Error).

(** allowedRoles.includes(role) *)
Definition includes (allowedRoles : list string) (role : string) : bool :=
  existsb (fun r => (r =? role)%string) allowedRoles.

(** A middleware leaves the request it was given (possibly changed) to the
    handlers after it, and calls next. *)
Definition authorize (allowedRoles : list string) (req : Request.t)
  : Request.t * Next :=
  match Request.user req with
  | None =>
      (req, next_error (AppError "Not authorized to access this resource" 403))
  | Some user =>
      if negb (includes allowedRoles (User.role user))
      then (req, next_error (AppError "Not authorized to access this resource" 403))
      else (req, next)
  end.

(** s.split(c) *)
Fixpoint split (c : Ascii.ascii) (s : string) : list string :=
  match s with
  | EmptyString => [EmptyString]
  | String a rest =>
      if Ascii.eqb a c
      then EmptyString :: split c rest
      else match split c rest with
           | w :: ws => String a w :: ws
           | [] => [String a EmptyString]
           end
  end.

Module JwtPayload.
Record t := mk { userId : Z; role : string }.
End JwtPayload.

Section Authenticate.

(** jwt.verify(token, process.env.JWT_SECRET) of the jsonwebtoken library:
    the decoded payload, or [None] when it throws. *)
Variable verify : string -> option JwtPayload.t.

(** Every throw inside the try block, the 'No token provided' AppError
    included, lands in the catch clause. *)
Definition authenticate (req : Request.t) : Request.t * Next :=
  let rejected := (req, next_error (AppError "Invalid or expired token" 401)) in
  match Request.authorization req with
  | None => rejected
  | Some authHeader =>
      if negb (String.prefix "Bearer " authHeader)
      then rejected
      else
        let token := nth 1 (split " "%char authHeader) EmptyString in
        match verify token with
        | None => rejected
        | Some decoded =>
            (Request.mk (Request.authorization req)
                        (Some (User.mk (JwtPayload.userId decoded)
                                       (JwtPayload.role decoded))),
             next)
        end
  end.

End Authenticate.

(** Two middlewares mounted one after the other: next() runs the second on
    the request the first left, next(err) skips it. *)
Definition chain (first second : Request.t -> Request.t * Next) (req : Request.t)
  : Request.t * Next :=
  match first req with
  | (req', next) => second req'
  | (req', next_error e) => (req', next_error e)
  end.

(** ** Sample data

    A small database used to run the services on concrete requests: one
    warehouse with two locations, one product, and five units of it in the
    first location. *)

Definition one : number := QArith_base.Qmake 1 1.

Definition sample : DB :=
  mkDB (mkTable [Category.mk 1 "Electronics"] 1)
       (mkTable [Supplier.mk 1 "Dell Inc" "dell@example.com"] 1)
       (mkTable [Warehouse.mk 1 "Main Warehouse" 1000 "123 Main St, City"] 1)
       (mkTable [Location.mk 1 "A1" 1; Location.mk 2 "A2" 1] 2)
       (mkTable [Product.mk 1 "Laptop" "LAP-001" "100001" 1 1 1 one one] 1)
       (mkTable [Stock.mk 1 1 1 1 5] 1)
       (mkTable [PurchaseOrder.mk 1 1 "open" [OrderItem.mk 1 1 4 one]] 1) 1
       emptyTable 0 emptyTable emptyTable.

Definition sample_order : CreateSalesOrderData.t :=
  CreateSalesOrderData.mk 7 [ItemInput.mk 1 3 one; ItemInput.mk 1 2 one].

Definition sample_sold : DB :=
  snd (SalesOrderService.createSalesOrder sample_order sample).

Definition sample_cancelled : DB :=
  snd (SalesOrderService.cancelSalesOrder 1 sample_sold).

(** A product whose sku and barcode are not in [sample]. *)
Definition new_product : ProductData.t :=
  ProductData.mk "Monitor" "MON-001" "100002" 1 1 1 one one.

(** [sample] with that product added: Laptop (LAP-001, 100001) first, then
    Monitor (MON-001, 100002). *)
Definition sample_two_products : DB :=
  snd (ProductService.createProduct first_row new_product sample).

(** A transfer of two units from Stock row 1 to location 2. *)
Definition sample_transfer : Call :=
  transferStock (TransferStockData.mk 1 2 2 "restock shelf").

(** An order that names product 1 twice, three units each time. *)
Definition repeated_order : CreateSalesOrderData.t :=
  CreateSalesOrderData.mk 7 [ItemInput.mk 1 3 one; ItemInput.mk 1 3 one].

(** A transfer of two units from Stock row 1 to location 1, where it is. *)
Definition transfer_in_place : TransferStockData.t :=
  TransferStockData.mk 1 1 2 "recount".

(** ** Predicates and functions used in the statements *)

(** [raises m Q]: every error [m] throws satisfies [Q]. *)
Definition raises {A : Type} (m : Prisma A) (Q : Error -> Prop) : Prop :=
  forall db e db', m db = (inl e, db') -> Q e.

(** The errors the ORM client throws. *)
Definition db_error (e : Error) : Prop :=
  match e with
  | PrismaClientKnownRequestError _ _ => True
  | _ => False
  end.

(** The error of the three guards on outgoing stock. *)
Definition insufficient : Error := AppError "Insufficient stock quantity" 400.

(** The request carries a user whose role is allowed. *)
Definition authorized (allowedRoles : list string) (req : Request.t) : Prop :=
  exists user, Request.user req = Some user /\ In (User.role user) allowedRoles.

(** The Stock row exists and holds less than [quantity]. *)
Definition short_of (stockId quantity : Z) (db : DB) : Prop :=
  exists s, lookup stockId (stocks db) = Some s /\ Stock.quantity s < quantity.

(** What transferStock can throw once the source row is found and covers
    the quantity. *)
Definition transfer_error (e : Error) : Prop :=
  db_error e \/ e = AppError "Target location not found" 404.

(** What a database's choice among the matching rows can be: one of them,
    and none only when there is none. *)
Definition database_choice {A : Type} (choose : Choice A) : Prop :=
  forall l, match choose l with
            | Some r => In r l
            | None => l = []
            end.

(** The [where] clause of createProduct's search: OR of sku and barcode. *)
Definition same_key (data : ProductData.t) (p : Product.t) : bool :=
  (Product.sku p =? ProductData.sku data)%string
  || (Product.barcode p =? ProductData.barcode data)%string.

Definition duplicate_error (which : string) : Error :=
  AppError ("Product with same " ++ which ++ " already exists")%string 400.

(** Some existing product has the sku or the barcode of the request. *)
Definition has_duplicate (data : ProductData.t) (db : DB) : Prop :=
  exists p, In p (rows (products db))
            /\ (Product.sku p = ProductData.sku data
                \/ Product.barcode p = ProductData.barcode data).

(** The errors of createProduct's relationship checks. *)
Definition reference_error (e : Error) : Prop :=
  e = AppError "Category not found" 400
  \/ e = AppError "Supplier not found" 400
  \/ e = AppError "Warehouse not found" 400.

(** The common shape of the three loop bodies over order items (reduce,
    restore, receive): find the first Stock row of the product, add [d] to
    its quantity, record a movement. *)
Definition step (p d : Z) (movementType : MovementType) (q : Z) (reason : string)
  : Prisma unit :=
  stock <- prisma.stock.findFirst (fun s => Stock.productId s =? p) ;;
  match stock with
  | Some stock =>
      prisma.stock.update (Stock.id stock) (Stock.quantity stock + d) ;;;
      prisma.stockMovement.create
        (MovementInput.mk (Stock.id stock) movementType q reason) ;;;
      ret tt
  | None => ret tt
  end.

(** A database that differs from [db] in the rows of Stock and in the
    StockMovement table only. *)
Definition touch (l : list Stock.t) (mv : Table StockMovement.t) (db : DB) : DB :=
  set_stockMovements mv (set_stocks (mkTable l (seq (stocks db))) db).

(** The Stock rows after a loop over [items] whose body adds [D x] to the
    first row of product [P x], and the movements the loop records. *)
Definition bump_all {A : Type} (P D : A -> Z) (items : list A) (l : list Stock.t)
  : list Stock.t :=
  fold_left (fun l x => bump (P x) (D x) l) items l.

Definition movements_of {A : Type} (P Q : A -> Z) (M : A -> MovementType)
    (R : A -> string) (items : list A) (l : list Stock.t) : list MovementInput.t :=
  flat_map (fun x => item_movement (P x) (M x) (Q x) (R x) l) items.

(** A computation that leaves the database as it found it. *)
Definition read_only {A : Type} (m : Prisma A) : Prop :=
  forall db, snd (m db) = db.

(** The Stock rows after createSalesOrder's loop, and after
    cancelSalesOrder's. *)
Definition reduced_rows (items : list ItemInput.t) (l : list Stock.t) : list Stock.t :=
  bump_all ItemInput.productId (fun it => - ItemInput.quantity it) items l.

Definition restored_rows (items : list OrderItem.t) (l : list Stock.t) : list Stock.t :=
  bump_all OrderItem.productId OrderItem.quantity items l.

(** The columns of a Stock row that no service updates. *)
Definition stock_key (s : Stock.t) : Z * Z * Z * Z :=
  (Stock.id s, Stock.productId s, Stock.warehouseId s, Stock.locationId s).

(** [r] is a row for the product and location of [s]. *)
Definition same_pair (s r : Stock.t) : bool :=
  (Stock.productId r =? Stock.productId s) && (Stock.locationId r =? Stock.locationId s).

Definition product_key (p : Product.t) : string * string :=
  (Product.sku p, Product.barcode p).

(** What one service call can do to the Location, Product and Stock
    tables: change quantities only, add one Stock row for a pair that had
    none in a location of the row's warehouse, keep every product's sku and
    barcode, add a product with a new sku and barcode, delete a product, add
    a location, or delete a location that holds no stock. *)
Inductive effect (db db' : DB) : Prop :=
| effect_quantities :
    locations db' = locations db ->
    products db' = products db ->
    map stock_key (rows (stocks db')) = map stock_key (rows (stocks db)) ->
    effect db db'
| effect_new_stock (s : Stock.t) (l : Location.t) :
    locations db' = locations db ->
    products db' = products db ->
    map stock_key (rows (stocks db')) = map stock_key (rows (stocks db)) ++ [stock_key s] ->
    find (fun r => Stock.id r =? Stock.id s) (rows (stocks db)) = None ->
    find (same_pair s) (rows (stocks db)) = None ->
    lookup (Stock.locationId s) (locations db) = Some l ->
    Location.warehouseId l = Stock.warehouseId s ->
    effect db db'
| effect_products_kept :
    locations db' = locations db ->
    stocks db' = stocks db ->
    map product_key (rows (products db')) = map product_key (rows (products db)) ->
    effect db db'
| effect_new_product (p : Product.t) :
    locations db' = locations db ->
    stocks db' = stocks db ->
    rows (products db') = rows (products db) ++ [p] ->
    (forall r, In r (rows (products db)) ->
               Product.sku r <> Product.sku p /\ Product.barcode r <> Product.barcode p) ->
    effect db db'
| effect_product_deleted (i : Z) :
    locations db' = locations db ->
    stocks db' = stocks db ->
    rows (products db') = filter (fun r => negb (id_of r =? i)) (rows (products db)) ->
    effect db db'
| effect_new_location (l : Location.t) :
    stocks db' = stocks db ->
    products db' = products db ->
    rows (locations db') = rows (locations db) ++ [l] ->
    effect db db'
| effect_location_deleted (i : Z) :
    stocks db' = stocks db ->
    products db' = products db ->
    rows (locations db') = filter (fun r => negb (id_of r =? i)) (rows (locations db)) ->
    existsb (fun s => Stock.locationId s =? i) (rows (stocks db)) = false ->
    effect db db'.

(** Calls that only change quantities, orders and the two journals. *)
Definition quiet (db db' : DB) : Prop :=
  locations db' = locations db
  /\ products db' = products db
  /\ map stock_key (rows (stocks db')) = map stock_key (rows (stocks db)).

Definition Quiet {A : Type} (m : Prisma A) : Prop :=
  forall db, quiet db (snd (m db)).

(** The row's quantity is not below zero. *)
Definition nonnegative (s : Stock.t) : Prop := 0 <= Stock.quantity s.

(** The availability check, as a function of the database. *)
Definition check (db : DB) (item : ItemInput.t) : StockCheck :=
  match find (fun s => Stock.productId s =? ItemInput.productId item) (rows (stocks db)) with
  | None => Unavailable "Unknown product" 0 (ItemInput.quantity item)
  | Some stock =>
      if Stock.quantity stock <? ItemInput.quantity item
      then
        let name := match lookup (Stock.productId stock) (products db) with
                    | Some p => Product.name p
                    | None => EmptyString
                    end in
        Unavailable (if (name =? EmptyString)%string then "Unknown product" else name)
                    (Stock.quantity stock) (ItemInput.quantity item)
      else Available
  end.

(** The first Stock row of the item's product holds at least the item's
    quantity. *)
Definition covered (l : list Stock.t) (item : ItemInput.t) : Prop :=
  exists s, find (fun s => Stock.productId s =? ItemInput.productId item) l = Some s
            /\ ItemInput.quantity item <= Stock.quantity s.

(** ** Further sample data *)

(** [sample] after a receipt of 4 units into Stock row 1. *)
Definition sample_restocked : DB :=
  snd (StockService.recordMovement (MovementInput.mk 1 IN 4 "delivery") sample).


(** The units of a product that the items of a request ask for. *)
Definition ordered (productId : Z) (items : list ItemInput.t) : Z :=
  fold_right Z.add 0
    (map ItemInput.quantity
         (filter (fun it => ItemInput.productId it =? productId) items)).

(** The message createSalesOrder throws for the items its check refuses. *)
Definition shortage_message (db : DB) (items : list ItemInput.t) : string :=
  ("Insufficient stock for items: "
     ++ String.concat ", "
          (map SalesOrderService.describe
               (filter (fun c => negb (isAvailable c)) (map (check db) items))))%string.


(** PRIMARY KEY of Product. *)
Definition product_ids_unique (db : DB) : Prop :=
  NoDup (map Product.id (rows (products db))).

(** Every item names a product of the Product table. *)
Definition products_exist (db : DB) (items : list ItemInput.t) : Prop :=
  Forall (fun it => lookup (ItemInput.productId it) (products db) <> None) items.


(** The three counts deleteProduct selects: Stock rows, purchase order items
    and sales order items of the product. *)
Definition product_in_use (id : Z) (db : DB) : bool :=
  existsb (fun s => Stock.productId s =? id) (rows (stocks db))
  || existsb (fun o => existsb (fun it => OrderItem.productId it =? id)
                               (PurchaseOrder.items o))
             (rows (purchaseOrders db))
  || existsb (fun o => existsb (fun it => OrderItem.productId it =? id)
                               (SalesOrder.items o))
             (rows (salesOrders db)).

(** An update that sets the category only. *)
Definition set_category (categoryId : Z) : ProductUpdate.t :=
  ProductUpdate.mk None None None (Some categoryId) None None.


(** PRIMARY KEY of Supplier, and the unique index Supplier_email_key. *)
Definition supplier_ids_unique (db : DB) : Prop :=
  NoDup (map Supplier.id (rows (suppliers db))).

Definition emails_unique (db : DB) : Prop :=
  NoDup (map Supplier.email (rows (suppliers db))).

(** Some supplier has the email. *)
Definition email_taken (email : string) (db : DB) : Prop :=
  exists s, In s (rows (suppliers db)) /\ Supplier.email s = email.

(** The two counts deleteSupplier selects: products and purchase orders of
    the supplier. *)
Definition supplier_in_use (id : Z) (db : DB) : bool :=
  existsb (fun p => Product.supplierId p =? id) (rows (products db))
  || existsb (fun o => PurchaseOrder.supplierId o =? id) (rows (purchaseOrders db)).



(** The two counts deleteWarehouse looks at (products and stocks), and the
    one it selects but does not look at (locations). *)
Definition warehouse_in_use (id : Z) (db : DB) : bool :=
  existsb (fun p => Product.warehouseId p =? id) (rows (products db))
  || existsb (fun s => Stock.warehouseId s =? id) (rows (stocks db)).

Definition has_locations (id : Z) (db : DB) : bool :=
  existsb (fun l => Location.warehouseId l =? id) (rows (locations db)).

(** [!name || !capacity || !address] *)
Definition missing_fields (data : WarehouseData.t) : Prop :=
  WarehouseData.name data = EmptyString
  \/ WarehouseData.capacity data = 0
  \/ WarehouseData.address data = EmptyString.


(** authHeader.split(' ')[1], the token authenticate verifies. *)
Definition bearer_token (authHeader : string) : string :=
  nth 1 (split " "%char authHeader) EmptyString.

(** The header carries a token that verifies to [payload]. *)
Definition valid_token (verify : string -> option JwtPayload.t) (req : Request.t)
    (payload : JwtPayload.t) : Prop :=
  exists authHeader,
    Request.authorization req = Some authHeader
    /\ String.prefix "Bearer " authHeader = true
    /\ verify (bearer_token authHeader) = Some payload.

Definition unauthenticated : Error := AppError "Invalid or expired token" 401.
Definition forbidden : Error := AppError "Not authorized to access this resource" 403.

(** [c] occurs in [s]. *)
Fixpoint contains (c : Ascii.ascii) (s : string) : bool :=
  match s with
  | EmptyString => false
  | String a rest => Ascii.eqb a c || contains c rest
  end.

(** A verifier that accepts one token, for an admin. *)
Definition sample_verify (token : string) : option JwtPayload.t :=
  if (token =? "abc.def.ghi")%string then Some (JwtPayload.mk 1 "admin") else None.


(** The rows getStocks returns for a page; none when the call throws. *)
Definition page_rows (db : DB) (pageSize page : Z) : list Stock.t :=
  match fst (StockService.getStocks page pageSize db) with
  | inr p => StockService.data p
  | inl _ => []
  end.

(** The page numbers 1, ..., n. *)
Definition pages (n : Z) : list Z := map Z.of_nat (List.seq 1 (Z.to_nat n)).


(** createStock is three statements in a row, outside any transaction: two
    reads (the location, then a row of the pair) and the insert. These are
    the reads, which let the request pass or throw, and the insert. The
    database can serve another request between them. *)
Definition createStock_check (data : CreateStockData.t) : Prisma unit :=
  location <- prisma.location.findUnique (CreateStockData.locationId data) ;;
  match location with
  | None => throw (AppError "Invalid location for warehouse" 400)
  | Some l =>
    if negb (Location.warehouseId l =? CreateStockData.warehouseId data)
    then throw (AppError "Invalid location for warehouse" 400)
    else
      existingStock <- prisma.stock.findFirst
        (fun s => (Stock.productId s =? CreateStockData.productId data)
                  && (Stock.locationId s =? CreateStockData.locationId data)) ;;
      match existingStock with
      | Some _ =>
          throw (AppError "Stock already exists for this product in this location" 400)
      | None => ret tt
      end
  end.

Definition createStock_insert (data : CreateStockData.t) : Prisma Stock.t :=
  prisma.stock.create (CreateStockData.productId data) (CreateStockData.warehouseId data)
    (CreateStockData.locationId data) (CreateStockData.quantity data).

(** Two createStock requests served at the same time, in the order in which
    the reads of both come before the insert of either. *)
Definition createStock_overlapped (a b : CreateStockData.t) : Prisma (Stock.t * Stock.t) :=
  createStock_check a ;;;
  createStock_check b ;;;
  first <- createStock_insert a ;;
  second <- createStock_insert b ;;
  ret (first, second).


(** ** Quantities within the column's range

    A quantity is a Prisma [Int]. Within the range of a 32-bit signed
    integer the sums and differences the services compute on JavaScript
    numbers are exact and the column takes the result. *)
Definition Int_range (z : Z) : Prop := -2147483648 <= z <= 2147483647.

(** ** The two phases of createSalesOrder

    The availability check reads through [prisma], before [$transaction] is
    entered; the transaction does not check again. The database can serve
    another request between the two. *)
Definition createSalesOrder_check (data : CreateSalesOrderData.t) : Prisma unit :=
  let items := CreateSalesOrderData.items data in
  if (List.length items =? 0)%nat
  then throw (AppError "Sales order must have at least one item" 400)
  else
    stockChecks <- mapAll SalesOrderService.checkItem items ;;
    let unavailableItems :=
      filter (fun c => negb (isAvailable c)) stockChecks in
    if (0 <? List.length unavailableItems)%nat
    then throw (AppError
                  ("Insufficient stock for items: "
                     ++ String.concat ", "
                          (map SalesOrderService.describe unavailableItems))%string
                  400)
    else ret tt.

Definition createSalesOrder_transaction (data : CreateSalesOrderData.t)
  : Prisma SalesOrder.t :=
  let customerId := CreateSalesOrderData.customerId data in
  let items := CreateSalesOrderData.items data in
  transaction (
    order <- prisma.salesOrder.create customerId "open" items ;;
    forEach (SalesOrderService.reduceItem (SalesOrder.id order)) items ;;;
    ret order).

(** Two createSalesOrder requests served at the same time, in the order in
    which the checks of both come before the transaction of either. *)
Definition createSalesOrder_overlapped (a b : CreateSalesOrderData.t)
  : Prisma (SalesOrder.t * SalesOrder.t) :=
  createSalesOrder_check a ;;;
  createSalesOrder_check b ;;;
  first <- createSalesOrder_transaction a ;;
  second <- createSalesOrder_transaction b ;;
  ret (first, second).

(** An order of three units of product 1, of which [sample] holds five. *)
Definition three_laptops : CreateSalesOrderData.t :=
  CreateSalesOrderData.mk 7 [ItemInput.mk 1 3 one].

(** [sample_two_products] with 4 units of the second product in location 2:
    Stock rows (1: product 1, location 1, 5 units) and (2: product 2,
    location 2, 4 units). *)
Definition sample_two_stocks : DB :=
  snd (StockService.createStock (CreateStockData.mk 2 1 2 4) sample_two_products).

(** An order of both products of [sample_two_stocks], all units of each. *)
Definition two_product_order : CreateSalesOrderData.t :=
  CreateSalesOrderData.mk 7 [ItemInput.mk 1 5 one; ItemInput.mk 2 4 one].


(** * Properties *)

(** ** Running the monad *)

Lemma bind_ok {A B : Type} (m : Prisma A) (k : A -> Prisma B) db a db' :
  m db = (inr a, db') -> bind m k db = k a db'.
Proof. intros H. unfold bind. now rewrite H. Qed.

Lemma bind_err {A B : Type} (m : Prisma A) (k : A -> Prisma B) db e db' :
  m db = (inl e, db') -> bind m k db = (inl e, db').
Proof. intros H. unfold bind. now rewrite H. Qed.

Lemma transaction_err {A : Type} (body : Prisma A) db e :
  fst (transaction body db) = inl e -> snd (transaction body db) = db.
Proof.
  unfold transaction. destruct (body db) as [[e'|a] db']; simpl; congruence.
Qed.

Lemma raises_ret {A : Type} (a : A) Q : raises (ret a) Q.
Proof. intros db e db' H. discriminate H. Qed.

Lemma raises_query {A : Type} (f : DB -> A) Q : raises (query f) Q.
Proof. intros db e db' H. discriminate H. Qed.

Lemma raises_throw {A : Type} (e : Error) (Q : Error -> Prop) :
  Q e -> raises (@throw A e) Q.
Proof. intros HQ db e' db' H. inversion H; subst. exact HQ. Qed.

Lemma raises_bind {A B : Type} (m : Prisma A) (k : A -> Prisma B) Q :
  raises m Q -> (forall a, raises (k a) Q) -> raises (bind m k) Q.
Proof.
  intros Hm Hk db e db' H. unfold bind in H.
  destruct (m db) as [[e0|a] db0] eqn:E.
  - inversion H; subst. eapply Hm; eauto.
  - eapply Hk; eauto.
Qed.

Lemma raises_weaken {A : Type} (m : Prisma A) (Q Q' : Error -> Prop) :
  raises m Q -> (forall e, Q e -> Q' e) -> raises m Q'.
Proof. intros H HQ db e db' E. apply HQ. eapply H; eauto. Qed.

Lemma raises_forEach {A : Type} (body : A -> Prisma unit) (l : list A) Q :
  (forall x, raises (body x) Q) -> raises (forEach body l) Q.
Proof.
  intros Hb. induction l as [|x l IH]; simpl.
  - apply raises_ret.
  - apply raises_bind; auto.
Qed.

Lemma raises_stock_create p w l q : raises (prisma.stock.create p w l q) db_error.
Proof.
  intros db e db' H. unfold prisma.stock.create in H.
  destruct (negb _); [inversion H; subst; exact I | discriminate H].
Qed.

Lemma raises_stock_update i q : raises (prisma.stock.update i q) db_error.
Proof.
  intros db e db' H. unfold prisma.stock.update in H.
  destruct (lookup i (stocks db)); [discriminate H | inversion H; subst; exact I].
Qed.

Lemma raises_stockMovement_create d : raises (prisma.stockMovement.create d) db_error.
Proof.
  intros db e db' H. unfold prisma.stockMovement.create in H.
  destruct (negb _); [inversion H; subst; exact I | discriminate H].
Qed.

Lemma raises_stockAdjustment_create s a q r u :
  raises (prisma.stockAdjustment.create s a q r u) db_error.
Proof.
  intros db e db' H. unfold prisma.stockAdjustment.create in H.
  destruct (negb _); [inversion H; subst; exact I | discriminate H].
Qed.

Lemma raises_stockMovement_createMany ds :
  raises (prisma.stockMovement.createMany ds) db_error.
Proof.
  apply raises_forEach. intros d. apply raises_bind.
  - apply raises_stockMovement_create.
  - intros _. apply raises_ret.
Qed.

Create HintDb raises.

#[local] Hint Resolve raises_ret raises_query raises_stock_create
  raises_stock_update raises_stockMovement_create
  raises_stockAdjustment_create raises_stockMovement_createMany : raises.

Lemma db_error_not_insufficient e : db_error e -> e <> insufficient.
Proof. destruct e; simpl; intros H; try contradiction; discriminate. Qed.

(** ** errorHandler *)

(** C6. The error middleware answers an AppError with its own statusCode and
    message, a Prisma known-request error with 400 and a generic message
    (one for code P2002, another for every other code), and any other error
    with 500 and 'Internal server error'. *)
Theorem errorHandler_maps_errors :
  (forall message statusCode,
      errorHandler (AppError message statusCode)
      = Response.mk statusCode "error" message)
  /\ (forall code message,
         errorHandler (PrismaClientKnownRequestError code message)
         = Response.mk 400 "error"
             (if string_dec code "P2002"
              then "A unique constraint violation occurred"
              else "Database operation failed"))
  /\ (forall name message,
         errorHandler (OtherError name message)
         = Response.mk 500 "error" "Internal server error").
Proof.
  repeat split; intros; try reflexivity.
  simpl. destruct (string_dec code "P2002") as [->|Hne].
  - reflexivity.
  - apply String.eqb_neq in Hne. now rewrite Hne.
Qed.

(** ** authorize *)

Lemma includes_In allowedRoles role :
  includes allowedRoles role = true <-> In role allowedRoles.
Proof.
  unfold includes. rewrite existsb_exists. split.
  - intros [r [Hin Heq]]. apply String.eqb_eq in Heq. now subst.
  - intros Hin. exists role. split; [assumption | apply String.eqb_refl].
Qed.

(** C7. The middleware made by authorize lets a request through, unchanged,
    exactly when it carries a user whose role is among the allowed ones;
    every other request, and so every request without a user, is rejected
    with the 403 AppError. *)
Theorem authorize_passes_iff_role_allowed :
  forall (allowedRoles : list string) (req : Request.t),
    (authorize allowedRoles req = (req, next) <-> authorized allowedRoles req)
    /\ (authorize allowedRoles req
        = (req, next_error (AppError "Not authorized to access this resource" 403))
        <-> ~ authorized allowedRoles req)
    /\ (Request.user req = None ->
        authorize allowedRoles req
        = (req, next_error (AppError "Not authorized to access this resource" 403))).
Proof.
  intros allowedRoles req. unfold authorize, authorized.
  destruct (Request.user req) as [user|] eqn:Eu.
  - destruct (includes allowedRoles (User.role user)) eqn:Ei; simpl.
    + apply includes_In in Ei.
      split; [|split].
      * split; [intros _; eauto | reflexivity].
      * split; [discriminate |].
        intros H. exfalso. apply H. eauto.
      * discriminate.
    + assert (Hn : ~ In (User.role user) allowedRoles).
      { intros Hin. apply includes_In in Hin. congruence. }
      split; [|split].
      * split; [discriminate |].
        intros [u [Hu Hin]]. inversion Hu; subst. contradiction.
      * split; [| reflexivity].
        intros _ [u [Hu Hin]]. inversion Hu; subst. contradiction.
      * discriminate.
  - split; [|split].
    + split; [discriminate |]. intros [u [Hu _]]. discriminate Hu.
    + split; [| reflexivity]. intros _ [u [Hu _]]. discriminate Hu.
    + reflexivity.
Qed.

Lemma authorize_passes_iff_role_allowed_witness :
  authorize ["admin"; "manager"] (Request.mk None None)
  = (Request.mk None None,
     next_error (AppError "Not authorized to access this resource" 403)).
Proof.
  exact (proj2 (proj2 (authorize_passes_iff_role_allowed
                         ["admin"; "manager"] (Request.mk None None)))
               eq_refl).
Defined.

(** ** Insufficient stock *)

Lemma raises_fst {A : Type} (m : Prisma A) Q db e :
  raises m Q -> fst (m db) = inl e -> Q e.
Proof.
  intros H E. destruct (m db) as [r db'] eqn:Em. simpl in E. subst r.
  eapply H; eauto.
Qed.

Lemma raises_transaction {A : Type} (m : Prisma A) Q :
  raises m Q -> raises (transaction m) Q.
Proof.
  intros H db e db' E. unfold transaction in E.
  destruct (m db) as [[e0|a] db0] eqn:Em; inversion E; subst.
  eapply H; eauto.
Qed.

Lemma recordMovement_insufficient stockId quantity reason db :
  fst (StockService.recordMovement (MovementInput.mk stockId OUT quantity reason) db)
  = inl insufficient
  <-> short_of stockId quantity db.
Proof.
  unfold short_of, StockService.recordMovement. simpl.
  split.
  - intros H.
    destruct (lookup stockId (stocks db)) as [s|] eqn:El.
    + exists s. split; [reflexivity|].
      destruct (Stock.quantity s <? quantity) eqn:Eq; [now apply Z.ltb_lt in Eq|].
      exfalso. revert H. unfold transaction, bind at 1, prisma.stock.findUnique, query.
      rewrite El, Eq. intros H.
      match type of H with
      | fst (match ?m db with _ => _ end) = _ =>
          pose proof (@raises_fst _ m db_error db insufficient) as R;
          destruct (m db) as [[e|a] d] eqn:Em
      end.
      * simpl in H, R. inversion H; subst.
        apply (db_error_not_insufficient insufficient); [|reflexivity].
        apply R; [|reflexivity].
        apply raises_bind; auto with raises.
      * discriminate H.
    + exfalso. revert H. unfold transaction, bind, prisma.stock.findUnique, query.
      rewrite El. simpl. discriminate.
  - intros [s [El Hlt]]. apply Z.ltb_lt in Hlt.
    unfold transaction, bind, prisma.stock.findUnique, query.
    rewrite El, Hlt. reflexivity.
Qed.

Lemma adjustStock_insufficient stockId quantity reason approvedById db :
  fst (StockService.adjustStock
         (AdjustStockData.mk stockId REMOVE quantity reason approvedById) db)
  = inl insufficient
  <-> short_of stockId quantity db.
Proof.
  unfold short_of, StockService.adjustStock. simpl.
  split.
  - intros H.
    destruct (lookup stockId (stocks db)) as [s|] eqn:El.
    + exists s. split; [reflexivity|].
      destruct (Stock.quantity s <? quantity) eqn:Eq; [now apply Z.ltb_lt in Eq|].
      exfalso. revert H. unfold transaction, bind at 1, prisma.stock.findUnique, query.
      rewrite El, Eq. intros H.
      match type of H with
      | fst (match ?m db with _ => _ end) = _ =>
          pose proof (@raises_fst _ m db_error db insufficient) as R;
          destruct (m db) as [[e|a] d] eqn:Em
      end.
      * simpl in H, R. inversion H; subst.
        apply (db_error_not_insufficient insufficient); [|reflexivity].
        apply R; [|reflexivity].
        apply raises_bind; auto with raises.
      * discriminate H.
    + exfalso. revert H. unfold transaction, bind, prisma.stock.findUnique, query.
      rewrite El. simpl. discriminate.
  - intros [s [El Hlt]]. apply Z.ltb_lt in Hlt.
    unfold transaction, bind, prisma.stock.findUnique, query.
    rewrite El, Hlt. reflexivity.
Qed.

Lemma transfer_error_not_insufficient e : transfer_error e -> e <> insufficient.
Proof.
  intros [H | ->]; [now apply db_error_not_insufficient | discriminate].
Qed.

Lemma transferStock_insufficient sourceStockId targetLocationId quantity reason db :
  fst (StockService.transferStock
         (TransferStockData.mk sourceStockId targetLocationId quantity reason) db)
  = inl insufficient
  <-> short_of sourceStockId quantity db.
Proof.
  unfold short_of, StockService.transferStock. simpl.
  split.
  - intros H.
    destruct (lookup sourceStockId (stocks db)) as [s|] eqn:El.
    + exists s. split; [reflexivity|].
      destruct (Stock.quantity s <? quantity) eqn:Eq; [now apply Z.ltb_lt in Eq|].
      exfalso. revert H. unfold transaction, bind at 1, prisma.stock.findUnique at 1, query.
      rewrite El, Eq. intros H.
      match type of H with
      | fst (match ?m db with _ => _ end) = _ =>
          pose proof (@raises_fst _ m transfer_error db insufficient) as R;
          destruct (m db) as [[e|a] d] eqn:Em
      end.
      * simpl in H, R. inversion H; subst.
        apply (transfer_error_not_insufficient insufficient); [|reflexivity].
        apply R; [|reflexivity].
        apply raises_bind; [apply raises_query|].
        intros [loc|]; [|apply raises_throw; now right].
        assert (W : forall B (m : Prisma B), raises m db_error -> raises m transfer_error).
        { intros B m Hm. eapply raises_weaken; [exact Hm | intros e He; now left]. }
        apply raises_bind; [apply raises_query|]. intros found.
        apply raises_bind.
        { destruct found; apply W; auto with raises. }
        intros t.
        repeat first
          [ apply W; solve [auto with raises]
          | apply raises_ret
          | apply raises_query
          | apply raises_bind; [|intros ?] ].
      * discriminate H.
    + exfalso. revert H. unfold transaction, bind, prisma.stock.findUnique, query.
      rewrite El. simpl. discriminate.
  - intros [s [El Hlt]]. apply Z.ltb_lt in Hlt.
    unfold transaction, bind, prisma.stock.findUnique, query.
    rewrite El, Hlt. reflexivity.
Qed.

(** C2. Taking stock out with recordMovement ('OUT'), adjustStock ('REMOVE')
    or transferStock throws AppError('Insufficient stock quantity', 400)
    exactly when the stock row exists and holds less than the requested
    quantity, and a call that throws it leaves the whole database (every
    Stock row, and the StockMovement and StockAdjustment tables) as it was. *)
Theorem insufficient_stock_rejected_without_effect :
  forall (db : DB) (stockId quantity : Z) (reason : string),
    (let r := StockService.recordMovement
                (MovementInput.mk stockId OUT quantity reason) db in
     (fst r = inl insufficient <-> short_of stockId quantity db)
     /\ (fst r = inl insufficient -> snd r = db))
    /\ (forall approvedById,
           let r := StockService.adjustStock
                      (AdjustStockData.mk stockId REMOVE quantity reason approvedById) db in
           (fst r = inl insufficient <-> short_of stockId quantity db)
           /\ (fst r = inl insufficient -> snd r = db))
    /\ (forall targetLocationId,
           let r := StockService.transferStock
                      (TransferStockData.mk stockId targetLocationId quantity reason) db in
           (fst r = inl insufficient <-> short_of stockId quantity db)
           /\ (fst r = inl insufficient -> snd r = db)).
Proof.
  intros db stockId quantity reason. split; [|split].
  - intros r. split.
    + apply recordMovement_insufficient.
    + apply transaction_err.
  - intros approvedById r. split.
    + apply adjustStock_insufficient.
    + apply transaction_err.
  - intros targetLocationId r. split.
    + apply transferStock_insufficient.
    + apply transaction_err.
Qed.

Lemma insufficient_stock_rejected_without_effect_witness :
  snd (StockService.recordMovement (MovementInput.mk 1 OUT 6 "sold") sample) = sample
  /\ snd (StockService.adjustStock (AdjustStockData.mk 1 REMOVE 6 "sold" 1) sample)
     = sample
  /\ snd (StockService.transferStock (TransferStockData.mk 1 2 6 "sold") sample)
     = sample.
Proof.
  pose proof (insufficient_stock_rejected_without_effect sample 1 6 "sold")
    as [H1 [H2 H3]].
  split; [|split].
  - exact (proj2 H1 eq_refl).
  - exact (proj2 (H2 1) eq_refl).
  - exact (proj2 (H3 2) eq_refl).
Defined.

(** ** createProduct *)

Lemma exists_id_lookup {A : Type} `{HasId A} (i : Z) (t : Table A) :
  exists_id i t = match lookup i t with Some _ => true | None => false end.
Proof.
  unfold exists_id, lookup. induction (rows t) as [|r l IH]; simpl.
  - reflexivity.
  - destruct (id_of r =? i); simpl; [reflexivity | exact IH].
Qed.

Lemma same_key_true data p :
  same_key data p = true
  <-> Product.sku p = ProductData.sku data
      \/ Product.barcode p = ProductData.barcode data.
Proof.
  unfold same_key. rewrite orb_true_iff, !String.eqb_eq. reflexivity.
Qed.

Lemma find_same_key_none data db :
  find (same_key data) (rows (products db)) = None <-> ~ has_duplicate data db.
Proof.
  split.
  - intros Hn [p [Hin Hk]]. apply same_key_true in Hk.
    pose proof (find_none _ _ Hn p Hin). congruence.
  - intros Hn. destruct (find (same_key data) (rows (products db))) as [p|] eqn:E.
    + exfalso. apply Hn. apply find_some in E as [Hin Hk].
      exists p. split; [assumption | now apply same_key_true].
    + reflexivity.
Qed.

Lemma no_duplicate_passes_unique_index data db :
  find (same_key data) (rows (products db)) = None ->
  existsb (fun r => (Product.sku r =? ProductData.sku data)%string) (rows (products db))
  || existsb (fun r => (Product.barcode r =? ProductData.barcode data)%string)
             (rows (products db))
  = false.
Proof.
  intros Hn. apply orb_false_iff.
  pose proof (find_none _ _ Hn) as Hall.
  split; apply not_true_is_false; intros He;
    apply existsb_exists in He as [r [Hin Hr]];
    specialize (Hall r Hin); unfold same_key in Hall;
    apply orb_false_iff in Hall as [H1 H2]; congruence.
Qed.

Lemma first_row_choice {A : Type} : database_choice (@first_row A).
Proof. intros [|r l]; simpl; [reflexivity | now left]. Qed.

Lemma last_row_choice {A : Type} : database_choice (@last_row A).
Proof.
  intros l. unfold last_row.
  destruct (rev l) as [|r l'] eqn:E; simpl.
  - apply (f_equal (@rev A)) in E. now rewrite rev_involutive in E.
  - apply in_rev. rewrite E. now left.
Qed.

(** What the search of createProduct finds, for a choice of the database. *)
Lemma choice_of_duplicates choose data db :
  database_choice choose ->
  match choose (filter (same_key data) (rows (products db))) with
  | Some existing =>
      In existing (rows (products db))
      /\ (Product.sku existing = ProductData.sku data
          \/ Product.barcode existing = ProductData.barcode data)
  | None => ~ has_duplicate data db
  end.
Proof.
  intros Hc. specialize (Hc (filter (same_key data) (rows (products db)))).
  destruct (choose _) as [existing|].
  - apply filter_In in Hc. destruct Hc as [Hin Hk].
    split; [exact Hin | now apply same_key_true].
  - intros [p [Hin Hk]]. apply same_key_true in Hk.
    assert (Hp : In p (filter (same_key data) (rows (products db))))
      by (apply filter_In; now split).
    rewrite Hc in Hp. destruct Hp.
Qed.

Lemma createProduct_found choose data db existing :
  choose (filter (same_key data) (rows (products db))) = Some existing ->
  ProductService.createProduct choose data db
  = (inl (duplicate_error
            (if string_dec (Product.sku existing) (ProductData.sku data)
             then "SKU" else "barcode")), db).
Proof.
  intros Hf. unfold ProductService.createProduct, bind, prisma.product.findFirst, query.
  change (fun p : Product.t =>
            (Product.sku p =? ProductData.sku data)%string
            || (Product.barcode p =? ProductData.barcode data)%string)
    with (same_key data).
  rewrite Hf. unfold throw, duplicate_error.
  destruct (string_dec (Product.sku existing) (ProductData.sku data)) as [E|E].
  - apply String.eqb_eq in E. now rewrite E.
  - apply String.eqb_neq in E. now rewrite E.
Qed.

Lemma createProduct_not_found choose data db :
  choose (filter (same_key data) (rows (products db))) = None ->
  ~ has_duplicate data db ->
  match lookup (ProductData.categoryId data) (categories db),
        lookup (ProductData.supplierId data) (suppliers db),
        lookup (ProductData.warehouseId data) (warehouses db) with
  | Some _, Some _, Some _ =>
      let p := ProductData.row data (next_id (seq (products db)) (rows (products db))) in
      ProductService.createProduct choose data db
      = (inr p, set_products (mkTable (rows (products db) ++ [p]) (Product.id p)) db)
  | _, _, _ =>
      exists e, reference_error e
                /\ ProductService.createProduct choose data db = (inl e, db)
  end.
Proof.
  intros Hn Hnd. apply find_same_key_none in Hnd.
  unfold ProductService.createProduct, bind, prisma.product.findFirst, query.
  change (fun p : Product.t =>
            (Product.sku p =? ProductData.sku data)%string
            || (Product.barcode p =? ProductData.barcode data)%string)
    with (same_key data).
  rewrite Hn.
  unfold prisma.category.findUnique, prisma.supplier.findUnique,
    prisma.warehouse.findUnique, query.
  destruct (lookup (ProductData.categoryId data) (categories db)) eqn:Ec;
    [| eexists; split; [left; reflexivity | reflexivity]].
  destruct (lookup (ProductData.supplierId data) (suppliers db)) eqn:Es;
    [| eexists; split; [right; left; reflexivity | reflexivity]].
  destruct (lookup (ProductData.warehouseId data) (warehouses db)) eqn:Ew;
    [| eexists; split; [right; right; reflexivity | reflexivity]].
  unfold prisma.product.create.
  rewrite (no_duplicate_passes_unique_index _ _ Hnd).
  rewrite !exists_id_lookup, Ec, Es, Ew. reflexivity.
Qed.

Lemma duplicate_error_which which e :
  which = "SKU" \/ which = "barcode" -> reference_error e ->
  duplicate_error which <> e.
Proof.
  intros [-> | ->] [-> | [-> | ->]]; discriminate.
Qed.

(** C5, as the code has it. createProduct throws the 400 AppError 'Product
    with same SKU already exists' or '... barcode ...' exactly when some
    existing product has the sku or the barcode of the request, and then
    nothing is created. The message is about the product the search
    returned: 'SKU' when that product has the request's sku and 'barcode'
    otherwise; so it is 'barcode' when no product has the request's sku and
    'SKU' when no product has the request's barcode. When no product matches
    but the category, the supplier or the warehouse is missing it throws
    another 400 AppError ('Category not found', 'Supplier not found',
    'Warehouse not found'), again without creating anything. When no product
    matches and all three exist, the product is created. This holds for
    every choice the database can make among the matching products. *)
Theorem createProduct_rejects_duplicates :
  forall (choose : Choice Product.t) (data : ProductData.t) (db : DB),
    database_choice choose ->
    let r := ProductService.createProduct choose data db in
    ((exists which, (which = "SKU" \/ which = "barcode")
                    /\ fst r = inl (duplicate_error which))
     <-> has_duplicate data db)
    /\ (has_duplicate data db -> snd r = db)
    /\ (forall existing,
           choose (filter (same_key data) (rows (products db))) = Some existing ->
           r = (inl (duplicate_error
                       (if string_dec (Product.sku existing) (ProductData.sku data)
                        then "SKU" else "barcode")), db))
    /\ (has_duplicate data db ->
        (forall p, In p (rows (products db)) -> Product.sku p <> ProductData.sku data) ->
        r = (inl (duplicate_error "barcode"), db))
    /\ (has_duplicate data db ->
        (forall p, In p (rows (products db)) ->
                   Product.barcode p <> ProductData.barcode data) ->
        r = (inl (duplicate_error "SKU"), db))
    /\ (~ has_duplicate data db ->
        lookup (ProductData.categoryId data) (categories db) = None
        \/ lookup (ProductData.supplierId data) (suppliers db) = None
        \/ lookup (ProductData.warehouseId data) (warehouses db) = None ->
        exists e, reference_error e /\ r = (inl e, db))
    /\ (~ has_duplicate data db ->
        lookup (ProductData.categoryId data) (categories db) <> None ->
        lookup (ProductData.supplierId data) (suppliers db) <> None ->
        lookup (ProductData.warehouseId data) (warehouses db) <> None ->
        let p := ProductData.row data (next_id (seq (products db)) (rows (products db))) in
        r = (inr p, set_products (mkTable (rows (products db) ++ [p]) (Product.id p)) db)).
Proof.
  intros choose data db Hchoice r. subst r.
  pose proof (choice_of_duplicates choose data db Hchoice) as Hfound.
  assert (Hdup : has_duplicate data db ->
                 exists existing,
                   choose (filter (same_key data) (rows (products db))) = Some existing
                   /\ In existing (rows (products db))
                   /\ (Product.sku existing = ProductData.sku data
                       \/ Product.barcode existing = ProductData.barcode data)).
  { intros Hd. destruct (choose _) as [existing|]; [|contradiction].
    exists existing. now split. }
  assert (Hnone : ~ has_duplicate data db ->
                  choose (filter (same_key data) (rows (products db))) = None).
  { intros Hn. destruct (choose _) as [existing|]; [|reflexivity].
    exfalso. apply Hn. exists existing. exact Hfound. }
  split; [|split; [|split; [|split; [|split; [|split]]]]].
  - split.
    + intros [which [Hw He]].
      destruct (choose (filter (same_key data) (rows (products db))))
        as [existing|] eqn:Ef.
      * exists existing. exact Hfound.
      * exfalso. pose proof (createProduct_not_found choose data db Ef Hfound) as Hc.
        destruct (lookup (ProductData.categoryId data) (categories db));
          [destruct (lookup (ProductData.supplierId data) (suppliers db));
           [destruct (lookup (ProductData.warehouseId data) (warehouses db))|]|].
        2-4: destruct Hc as [e [Hr Hc]]; rewrite Hc in He; simpl in He;
          inversion He as [Heq];
          exact (duplicate_error_which which e Hw Hr (eq_sym Heq)).
        simpl in Hc. rewrite Hc in He. discriminate He.
    + intros Hd. destruct (Hdup Hd) as [existing [Ef _]].
      rewrite (createProduct_found _ _ _ _ Ef). simpl.
      destruct (string_dec (Product.sku existing) (ProductData.sku data));
        eexists; (split; [|reflexivity]); auto.
  - intros Hd. destruct (Hdup Hd) as [existing [Ef _]].
    now rewrite (createProduct_found _ _ _ _ Ef).
  - apply createProduct_found.
  - intros Hd Hsku. destruct (Hdup Hd) as [existing [Ef [Hin _]]].
    rewrite (createProduct_found _ _ _ _ Ef).
    destruct (string_dec (Product.sku existing) (ProductData.sku data)) as [E|E];
      [|reflexivity].
    exfalso. exact (Hsku existing Hin E).
  - intros Hd Hbar. destruct (Hdup Hd) as [existing [Ef [Hin Hk]]].
    rewrite (createProduct_found _ _ _ _ Ef).
    destruct (string_dec (Product.sku existing) (ProductData.sku data)) as [E|E];
      [reflexivity|].
    exfalso. destruct Hk as [Hk|Hk]; [exact (E Hk) | exact (Hbar existing Hin Hk)].
  - intros Hn Hmiss.
    pose proof (createProduct_not_found choose data db (Hnone Hn) Hn) as Hc.
    destruct (lookup (ProductData.categoryId data) (categories db));
      [destruct (lookup (ProductData.supplierId data) (suppliers db));
       [destruct (lookup (ProductData.warehouseId data) (warehouses db))|]|];
      try exact Hc.
    destruct Hmiss as [H|[H|H]]; discriminate H.
  - intros Hn Hc Hs Hw.
    pose proof (createProduct_not_found choose data db (Hnone Hn) Hn) as Hp.
    destruct (lookup (ProductData.categoryId data) (categories db)); [|congruence].
    destruct (lookup (ProductData.supplierId data) (suppliers db)); [|congruence].
    destruct (lookup (ProductData.warehouseId data) (warehouses db)); [|congruence].
    exact Hp.
Qed.

Lemma createProduct_rejects_duplicates_witness :
  ProductService.createProduct first_row
    (ProductData.mk "Laptop 2" "LAP-001" "100009" 1 1 1 one one) sample
  = (inl (duplicate_error "SKU"), sample)
  /\ ProductService.createProduct last_row
       (ProductData.mk "Monitor 2" "MON-002" "100001" 1 1 1 one one) sample_two_products
     = (inl (duplicate_error "barcode"), sample_two_products)
  /\ (exists e,
         reference_error e
         /\ ProductService.createProduct first_row
              (ProductData.mk "Monitor" "MON-001" "100002" 9 1 1 one one) sample
            = (inl e, sample))
  /\ ProductService.createProduct first_row new_product sample
     = (inr (Product.mk 2 "Monitor" "MON-001" "100002" 1 1 1 one one),
        set_products
          (mkTable [Product.mk 1 "Laptop" "LAP-001" "100001" 1 1 1 one one;
                    Product.mk 2 "Monitor" "MON-001" "100002" 1 1 1 one one] 2)
          sample)
  /\ ProductService.createProduct last_row
       (ProductData.mk "Monitor 2" "MON-001" "100001" 1 1 1 one one) sample_two_products
     = (inl (duplicate_error "SKU"), sample_two_products)
  /\ ProductService.createProduct first_row
       (ProductData.mk "Monitor 2" "MON-001" "100001" 1 1 1 one one) sample_two_products
     = (inl (duplicate_error "barcode"), sample_two_products).
Proof.
  split; [|split; [|split; [|split; [|split]]]].
  5:{ exact (proj1 (proj2 (proj2
               (createProduct_rejects_duplicates last_row
                  (ProductData.mk "Monitor 2" "MON-001" "100001" 1 1 1 one one)
                  sample_two_products last_row_choice)))
               (Product.mk 2 "Monitor" "MON-001" "100002" 1 1 1 one one) eq_refl). }
  5:{ exact (proj1 (proj2 (proj2
               (createProduct_rejects_duplicates first_row
                  (ProductData.mk "Monitor 2" "MON-001" "100001" 1 1 1 one one)
                  sample_two_products first_row_choice)))
               (Product.mk 1 "Laptop" "LAP-001" "100001" 1 1 1 one one) eq_refl). }
  - refine (proj1 (proj2 (proj2 (proj2 (proj2
              (createProduct_rejects_duplicates first_row
                 (ProductData.mk "Laptop 2" "LAP-001" "100009" 1 1 1 one one)
                 sample first_row_choice))))) _ _).
    + exists (Product.mk 1 "Laptop" "LAP-001" "100001" 1 1 1 one one).
      split; [now left | now left].
    + intros p [<-|[]]. discriminate.
  - refine (proj1 (proj2 (proj2 (proj2
              (createProduct_rejects_duplicates last_row
                 (ProductData.mk "Monitor 2" "MON-002" "100001" 1 1 1 one one)
                 sample_two_products last_row_choice)))) _ _).
    + exists (Product.mk 1 "Laptop" "LAP-001" "100001" 1 1 1 one one).
      split; [now left | now right].
    + intros p [<-|[<-|[]]]; discriminate.
  - refine (proj1 (proj2 (proj2 (proj2 (proj2 (proj2
              (createProduct_rejects_duplicates first_row
                 (ProductData.mk "Monitor" "MON-001" "100002" 9 1 1 one one)
                 sample first_row_choice)))))) _ _).
    + apply find_same_key_none. reflexivity.
    + left. reflexivity.
  - refine (proj2 (proj2 (proj2 (proj2 (proj2 (proj2
              (createProduct_rejects_duplicates first_row new_product sample
                 first_row_choice)))))) _ _ _ _).
    + apply find_same_key_none. reflexivity.
    + discriminate.
    + discriminate.
    + discriminate.
Defined.

(** C5, as stated, fails: status 400 does not single out duplicates. A
    request whose sku and barcode are new but whose category does not exist
    is answered with a 400 AppError as well, whatever the database's choice
    in the search. *)
Lemma createProduct_400_without_duplicate :
  let data := ProductData.mk "Monitor" "MON-001" "100002" 9 1 1 one one in
  ~ has_duplicate data sample
  /\ (forall choose,
         database_choice choose ->
         ProductService.createProduct choose data sample
         = (inl (AppError "Category not found" 400), sample)).
Proof.
  cbv zeta. split.
  - apply find_same_key_none. reflexivity.
  - intros choose Hc.
    unfold ProductService.createProduct, bind, prisma.product.findFirst, query.
    specialize (Hc (filter (fun p : Product.t =>
                              (Product.sku p =? "MON-001")%string
                              || (Product.barcode p =? "100002")%string)
                           (rows (products sample)))).
    cbn [ProductData.sku ProductData.barcode].
    destruct (choose _) as [p|]; [destruct Hc|reflexivity].
Qed.

(** ** Tables *)

Lemma table_eta {A : Type} (t : Table A) : mkTable (rows t) (seq t) = t.
Proof. now destruct t. Qed.

Lemma find_app {A : Type} (f : A -> bool) (l l' : list A) :
  find f (l ++ l') = match find f l with Some x => Some x | None => find f l' end.
Proof.
  induction l as [|x l IH]; simpl; [reflexivity|].
  destruct (f x); [reflexivity | exact IH].
Qed.

Lemma max_id_bound {A : Type} `{HasId A} (l : list A) (r : A) :
  In r l -> id_of r <= max_id l.
Proof.
  induction l as [|x l IH]; simpl; [contradiction|].
  intros [-> | Hin]; [lia | specialize (IH Hin); lia].
Qed.

Lemma next_id_fresh {A : Type} `{HasId A} (s : Z) (l : list A) :
  find (fun r => id_of r =? next_id s l) l = None.
Proof.
  destruct (find (fun r => id_of r =? next_id s l) l) as [r|] eqn:E; [|reflexivity].
  apply find_some in E as [Hin Heq]. apply Z.eqb_eq in Heq.
  pose proof (max_id_bound l r Hin). unfold next_id in Heq. lia.
Qed.

Lemma lookup_insert {A : Type} `{HasId A} (mk : Z -> A) (t : Table A) :
  (forall i, id_of (mk i) = i) ->
  lookup (id_of (fst (insert mk t))) (snd (insert mk t)) = Some (fst (insert mk t)).
Proof.
  intros Hmk. unfold insert, lookup. simpl. rewrite Hmk, find_app, next_id_fresh.
  simpl. now rewrite Hmk, Z.eqb_refl.
Qed.

Lemma lookup_appended {A : Type} `{HasId A} (l : list A) (r : A) (s : Z) :
  find (fun x => id_of x =? id_of r) l = None ->
  lookup (id_of r) (mkTable (l ++ [r]) s) = Some r.
Proof.
  intros Hn. unfold lookup. cbn [rows]. rewrite find_app, Hn. simpl.
  now rewrite Z.eqb_refl.
Qed.

Lemma lookup_update {A : Type} `{HasId A} (i : Z) (f : A -> A) (t : Table A) (r : A) :
  (forall x, id_of (f x) = id_of x) ->
  lookup i t = Some r ->
  lookup i (update_where_id i f t) = Some (f r).
Proof.
  intros Hf. unfold lookup, update_where_id, update_rows. simpl.
  induction (rows t) as [|x l IH]; simpl; [discriminate|].
  destruct (id_of x =? i) eqn:E.
  - intros Hx. inversion Hx; subst x. now rewrite Hf, E.
  - rewrite E. exact IH.
Qed.

Lemma lookup_In {A : Type} `{HasId A} (r : A) (t : Table A) :
  In r (rows t) -> exists r', lookup (id_of r) t = Some r'.
Proof.
  intros Hin. unfold lookup.
  destruct (find (fun x => id_of x =? id_of r) (rows t)) as [r'|] eqn:E; [eauto|].
  pose proof (find_none _ _ E r Hin) as Hn. simpl in Hn.
  rewrite Z.eqb_refl in Hn. discriminate.
Qed.

Lemma update_rows_ids {A : Type} `{HasId A} (i : Z) (f : A -> A) (l : list A) :
  (forall x, id_of (f x) = id_of x) ->
  map id_of (update_rows i f l) = map id_of l.
Proof.
  intros Hf. unfold update_rows. rewrite map_map. apply map_ext.
  intros x. destruct (id_of x =? i); [apply Hf | reflexivity].
Qed.

Lemma exists_id_ids {A : Type} `{HasId A} (i : Z) (t t' : Table A) :
  map id_of (rows t') = map id_of (rows t) -> exists_id i t' = exists_id i t.
Proof.
  unfold exists_id. intros Hm.
  assert (E : forall l : list A,
             existsb (fun r => id_of r =? i) l = existsb (fun z => z =? i) (map id_of l)).
  { induction l as [|x l IH]; simpl; [reflexivity | now rewrite IH]. }
  now rewrite !E, Hm.
Qed.

(** ** The Stock table under [bump] *)

Lemma set_quantity_same (s : Stock.t) : Stock.set_quantity (Stock.quantity s) s = s.
Proof. now destruct s. Qed.

Lemma bump_ids p d l : map Stock.id (bump p d l) = map Stock.id l.
Proof.
  induction l as [|s r IH]; simpl; [reflexivity|].
  destruct (Stock.productId s =? p); simpl; [reflexivity | now rewrite IH].
Qed.

Lemma bump_absent p d l :
  find (fun s => Stock.productId s =? p) l = None -> bump p d l = l.
Proof.
  induction l as [|s r IH]; simpl; [reflexivity|].
  destruct (Stock.productId s =? p); [discriminate|].
  intros H. now rewrite IH.
Qed.

Lemma bump_present p d l s :
  find (fun s => Stock.productId s =? p) l = Some s ->
  exists before after,
    l = before ++ s :: after
    /\ bump p d l = before ++ Stock.set_quantity (Stock.quantity s + d) s :: after.
Proof.
  induction l as [|x r IH]; simpl; [discriminate|].
  destruct (Stock.productId x =? p) eqn:E.
  - intros H. inversion H; subst x. exists [], r. split; reflexivity.
  - intros H. destruct (IH H) as [before [after [-> Hb]]].
    exists (x :: before), after. simpl. now rewrite Hb.
Qed.

Lemma bump_zero p l : bump p 0 l = l.
Proof.
  induction l as [|s r IH]; simpl; [reflexivity|].
  destruct (Stock.productId s =? p).
  - now rewrite Z.add_0_r, set_quantity_same.
  - now rewrite IH.
Qed.

Lemma bump_bump p d d' l : bump p d (bump p d' l) = bump p (d' + d) l.
Proof.
  induction l as [|s r IH]; simpl; [reflexivity|].
  destruct (Stock.productId s =? p) eqn:E; simpl; rewrite E.
  - unfold Stock.set_quantity. simpl. now rewrite Z.add_assoc.
  - now rewrite IH.
Qed.

Lemma bump_comm p d p' d' l :
  bump p d (bump p' d' l) = bump p' d' (bump p d l).
Proof.
  induction l as [|s r IH]; simpl; [reflexivity|].
  destruct (Stock.productId s =? p) eqn:E; destruct (Stock.productId s =? p') eqn:E';
    simpl; rewrite ?E, ?E'; try reflexivity.
  - unfold Stock.set_quantity. simpl. f_equal. f_equal. lia.
  - now rewrite IH.
Qed.

Lemma find_product_bump p p' d l :
  option_map Stock.id (find (fun s => Stock.productId s =? p) (bump p' d l))
  = option_map Stock.id (find (fun s => Stock.productId s =? p) l).
Proof.
  induction l as [|s r IH]; simpl; [reflexivity|].
  destruct (Stock.productId s =? p') eqn:E'; simpl.
  - destruct (Stock.productId s =? p); reflexivity.
  - destruct (Stock.productId s =? p); [reflexivity | exact IH].
Qed.

Lemma item_movement_bump p mt q reason p' d l :
  item_movement p mt q reason (bump p' d l) = item_movement p mt q reason l.
Proof.
  unfold item_movement. pose proof (find_product_bump p p' d l) as H.
  destruct (find _ (bump p' d l)); destruct (find _ l); simpl in H;
    try discriminate; [|reflexivity].
  inversion H. now subst.
Qed.

(** With ids unique, updating the row that findFirst returned is [bump]. *)
Lemma update_found_is_bump p d l s :
  NoDup (map Stock.id l) ->
  find (fun s => Stock.productId s =? p) l = Some s ->
  update_rows (Stock.id s) (Stock.set_quantity (Stock.quantity s + d)) l = bump p d l.
Proof.
  unfold update_rows. induction l as [|x r IH]; simpl; [discriminate|].
  intros Hnd Hf. inversion Hnd as [|? ? Hx Hr]; subst.
  destruct (Stock.productId x =? p) eqn:E.
  - inversion Hf; subst x. unfold id_of, Stock_HasId. rewrite Z.eqb_refl.
    f_equal. rewrite <- (map_id r) at 2. apply map_ext_in.
    intros y Hy. destruct (Stock.id y =? Stock.id s) eqn:Ey; [|reflexivity].
    exfalso. apply Hx. apply Z.eqb_eq in Ey. rewrite <- Ey. now apply in_map.
  - assert (Hs : In s r) by (apply find_some in Hf; tauto).
    unfold id_of, Stock_HasId in *.
    destruct (Stock.id x =? Stock.id s) eqn:Ex.
    + exfalso. apply Hx. apply Z.eqb_eq in Ex. rewrite Ex. now apply in_map.
    + f_equal. now apply IH.
Qed.

(** ** The item loops *)

Lemma touch_same db : touch (rows (stocks db)) (stockMovements db) db = db.
Proof. unfold touch. rewrite table_eta. now destruct db. Qed.

Lemma touch_touch l mv l' mv' db : touch l' mv' (touch l mv db) = touch l' mv' db.
Proof. reflexivity. Qed.

Lemma step_run p d mt q reason db :
  stock_ids_unique db ->
  step p d mt q reason db
  = (inr tt,
     touch (bump p d (rows (stocks db)))
           (record_all (item_movement p mt q reason (rows (stocks db)))
                       (stockMovements db))
           db).
Proof.
  intros Hpk. unfold step, bind at 1, prisma.stock.findFirst, query, item_movement.
  destruct (find (fun s => Stock.productId s =? p) (rows (stocks db))) as [s|] eqn:Ef.
  - assert (Hin : In s (rows (stocks db))) by (apply find_some in Ef; tauto).
    destruct (lookup_In s (stocks db) Hin) as [s' Hl].
    unfold bind, prisma.stock.update. change (id_of s) with (Stock.id s) in Hl.
    rewrite Hl. unfold prisma.stockMovement.create. simpl MovementInput.stockId.
    unfold update_where_id. rewrite (update_found_is_bump p d _ s Hpk Ef).
    rewrite (exists_id_ids (Stock.id s) (stocks db)).
    + rewrite exists_id_lookup, Hl. reflexivity.
    + apply bump_ids.
  - rewrite (bump_absent _ _ _ Ef). simpl. now rewrite touch_same.
Qed.

Lemma touch_ids_unique l mv db :
  map Stock.id l = map Stock.id (rows (stocks db)) ->
  stock_ids_unique db -> stock_ids_unique (touch l mv db).
Proof. unfold stock_ids_unique. simpl. now intros ->. Qed.

Section ItemLoop.

Context {A : Type}.
Variables (P D Q : A -> Z) (M : A -> MovementType) (R : A -> string).

Lemma bump_all_ids items l : map Stock.id (bump_all P D items l) = map Stock.id l.
Proof.
  revert l. induction items as [|x items IH]; intros l; simpl; [reflexivity|].
  unfold bump_all in *. simpl. now rewrite IH, bump_ids.
Qed.

Lemma movements_of_bump items p d l :
  movements_of P Q M R items (bump p d l) = movements_of P Q M R items l.
Proof.
  unfold movements_of. induction items as [|x items IH]; simpl; [reflexivity|].
  now rewrite IH, item_movement_bump.
Qed.

Lemma bump_all_bump items p d l :
  bump_all P D items (bump p d l) = bump p d (bump_all P D items l).
Proof.
  revert l. unfold bump_all.
  induction items as [|x items IH]; intros l; simpl; [reflexivity|].
  now rewrite <- IH, bump_comm.
Qed.

Lemma forEach_step items db :
  stock_ids_unique db ->
  forEach (fun x => step (P x) (D x) (M x) (Q x) (R x)) items db
  = (inr tt,
     touch (bump_all P D items (rows (stocks db)))
           (record_all (movements_of P Q M R items (rows (stocks db))) (stockMovements db))
           db).
Proof.
  revert db. induction items as [|x items IH]; intros db Hpk.
  - simpl. unfold ret. now rewrite touch_same.
  - cbn [forEach]. erewrite bind_ok; [|now apply step_run].
    rewrite IH.
    + rewrite touch_touch. cbn [bump_all movements_of fold_left flat_map].
      change (rows (stocks (touch ?l ?mv db))) with l.
      change (stockMovements (touch ?l ?mv db)) with mv.
      fold (movements_of P Q M R items (bump (P x) (D x) (rows (stocks db)))).
      rewrite movements_of_bump. unfold record_all. now rewrite fold_left_app.
    + apply touch_ids_unique; [apply bump_ids | assumption].
Qed.

End ItemLoop.

(** ** Sales orders: create, then cancel *)

Lemma read_only_ret {A : Type} (a : A) : read_only (ret a).
Proof. intros db. reflexivity. Qed.

Lemma read_only_query {A : Type} (f : DB -> A) : read_only (query f).
Proof. intros db. reflexivity. Qed.

Lemma read_only_bind {A B : Type} (m : Prisma A) (k : A -> Prisma B) :
  read_only m -> (forall a, read_only (k a)) -> read_only (bind m k).
Proof.
  intros Hm Hk db. unfold bind. specialize (Hm db).
  destruct (m db) as [[e|a] db']; simpl in Hm; subst db'; [reflexivity | apply Hk].
Qed.

Lemma read_only_mapAll {A B : Type} (f : A -> Prisma B) (l : list A) :
  (forall x, read_only (f x)) -> read_only (mapAll f l).
Proof.
  intros Hf. induction l as [|x l IH]; simpl.
  - apply read_only_ret.
  - apply read_only_bind; [apply Hf|]. intros y.
    apply read_only_bind; [apply IH|]. intros ys. apply read_only_ret.
Qed.

Lemma read_only_checkItem item : read_only (SalesOrderService.checkItem item).
Proof.
  unfold SalesOrderService.checkItem.
  apply read_only_bind; [apply read_only_query|]. intros [stock|].
  - destruct (Stock.quantity stock <? ItemInput.quantity item).
    + apply read_only_bind; [apply read_only_query|]. intros product.
      apply read_only_ret.
    + apply read_only_ret.
  - apply read_only_ret.
Qed.

Lemma forEach_reduceItem orderId items db :
  stock_ids_unique db ->
  exists mv,
    forEach (SalesOrderService.reduceItem orderId) items db
    = (inr tt, touch (reduced_rows items (rows (stocks db))) mv db).
Proof.
  intros Hpk. eexists.
  exact (forEach_step ItemInput.productId (fun it => - ItemInput.quantity it)
           ItemInput.quantity (fun _ => OUT)
           (fun _ => ("Sales Order #" ++ string_of_Z orderId)%string) items db Hpk).
Qed.

Lemma forEach_restoreItem orderId items db :
  stock_ids_unique db ->
  exists mv,
    forEach (SalesOrderService.restoreItem orderId) items db
    = (inr tt, touch (restored_rows items (rows (stocks db))) mv db).
Proof.
  intros Hpk. eexists.
  exact (forEach_step OrderItem.productId OrderItem.quantity
           OrderItem.quantity (fun _ => IN)
           (fun _ => ("Sales Order #" ++ string_of_Z orderId ++ " cancelled")%string)
           items db Hpk).
Qed.

Lemma restored_numbered start items l :
  restored_rows (prisma.number_items start items) l
  = bump_all ItemInput.productId ItemInput.quantity items l.
Proof.
  revert start l. unfold restored_rows, bump_all.
  induction items as [|it items IH]; intros start l; simpl; [reflexivity|].
  apply IH.
Qed.

Lemma restore_after_reduce items l :
  bump_all ItemInput.productId ItemInput.quantity items (reduced_rows items l) = l.
Proof.
  revert l. unfold reduced_rows.
  induction items as [|it items IH]; intros l; [reflexivity|].
  unfold bump_all at 1 2. cbn [fold_left].
  fold (bump_all ItemInput.productId (fun it => - ItemInput.quantity it) items
          (bump (ItemInput.productId it) (- ItemInput.quantity it) l)).
  rewrite bump_all_bump.
  match goal with
  | |- fold_left ?f items ?x = _ =>
      change (bump_all ItemInput.productId ItemInput.quantity items x = l)
  end.
  rewrite bump_all_bump, bump_all_bump, IH, bump_bump.
  replace (- ItemInput.quantity it + ItemInput.quantity it) with 0 by lia.
  apply bump_zero.
Qed.

(** What a successful createSalesOrder returns and leaves behind. *)
Lemma createSalesOrder_ok data db order db1 :
  stock_ids_unique db ->
  SalesOrderService.createSalesOrder data db = (inr order, db1) ->
  exists start mv,
    order = SalesOrder.mk (next_id (seq (salesOrders db)) (rows (salesOrders db)))
              (CreateSalesOrderData.customerId data) "open"
              (prisma.number_items start (CreateSalesOrderData.items data))
    /\ db1 = touch (reduced_rows (CreateSalesOrderData.items data) (rows (stocks db))) mv
               (set_salesOrders
                  (mkTable (rows (salesOrders db) ++ [order]) (SalesOrder.id order))
                  (start + Z.of_nat (List.length (CreateSalesOrderData.items data)))
                  db).
Proof.
  intros Hpk. unfold SalesOrderService.createSalesOrder.
  destruct (List.length (CreateSalesOrderData.items data) =? 0)%nat; [discriminate|].
  unfold bind at 1.
  pose proof (read_only_mapAll SalesOrderService.checkItem
                (CreateSalesOrderData.items data) read_only_checkItem db) as Hro.
  destruct (mapAll SalesOrderService.checkItem (CreateSalesOrderData.items data) db)
    as [[e|checks] dbc]; [discriminate|].
  simpl in Hro. subst dbc.
  destruct (0 <? List.length (filter (fun c => negb (isAvailable c)) checks))%nat;
    [discriminate|].
  unfold transaction, bind at 1, prisma.salesOrder.create.
  destruct (negb (forallb _ (CreateSalesOrderData.items data))); [discriminate|].
  unfold insert. cbv zeta.
  match goal with
  | |- context [bind (forEach (SalesOrderService.reduceItem ?i) ?items) ?k ?d] =>
      destruct (forEach_reduceItem i items d Hpk) as [mv Hloop];
      rewrite (bind_ok _ k d tt _ Hloop)
  end.
  unfold ret. intros H. inversion H; subst. clear H.
  eexists. exists mv. split; reflexivity.
Qed.

Lemma cancelSalesOrder_open id order db :
  stock_ids_unique db ->
  lookup id (salesOrders db) = Some order ->
  SalesOrder.status order <> "cancelled" ->
  SalesOrder.status order <> "completed" ->
  exists mv,
    SalesOrderService.cancelSalesOrder id db
    = (inr (SalesOrder.set_status "cancelled" order),
       set_salesOrders
         (update_where_id id (SalesOrder.set_status "cancelled") (salesOrders db))
         (salesOrderItemSeq db)
         (touch (restored_rows (SalesOrder.items order) (rows (stocks db))) mv db)).
Proof.
  intros Hpk Hl Hst1 Hst2.
  destruct (forEach_restoreItem (SalesOrder.id order) (SalesOrder.items order) db Hpk)
    as [mv Hloop].
  exists mv. apply String.eqb_neq in Hst1, Hst2.
  unfold SalesOrderService.cancelSalesOrder, transaction, bind at 1,
    prisma.salesOrder.findUnique, query.
  rewrite Hl, Hst1, Hst2.
  erewrite bind_ok; [|exact Hloop].
  unfold prisma.salesOrder.update.
  change (salesOrders (touch ?l ?m db)) with (salesOrders db).
  rewrite Hl. reflexivity.
Qed.

Lemma cancelSalesOrder_closed id order db :
  lookup id (salesOrders db) = Some order ->
  SalesOrder.status order = "cancelled" \/ SalesOrder.status order = "completed" ->
  exists message,
    SalesOrderService.cancelSalesOrder id db = (inl (AppError message 400), db).
Proof.
  intros Hl Hst.
  unfold SalesOrderService.cancelSalesOrder, transaction, bind,
    prisma.salesOrder.findUnique, query.
  rewrite Hl. destruct Hst as [-> | ->]; eexists; reflexivity.
Qed.

(** C4. Whenever createSalesOrder succeeds, cancelling the order it created
    succeeds too, puts every Stock row back to what it was before the order
    (the quantities with it) and leaves the order with status 'cancelled';
    cancelling an order that is already 'cancelled' or 'completed' throws a
    400 AppError and changes nothing. Stock ids are unique, as the primary
    key has it. *)
Theorem cancel_undoes_create :
  (forall (data : CreateSalesOrderData.t) (db db1 : DB) (order : SalesOrder.t),
      stock_ids_unique db ->
      SalesOrderService.createSalesOrder data db = (inr order, db1) ->
      exists cancelled db2,
        SalesOrderService.cancelSalesOrder (SalesOrder.id order) db1
        = (inr cancelled, db2)
        /\ stocks db2 = stocks db
        /\ SalesOrder.status cancelled = "cancelled"
        /\ lookup (SalesOrder.id order) (salesOrders db2) = Some cancelled)
  /\ (forall (id : Z) (db : DB) (order : SalesOrder.t),
         lookup id (salesOrders db) = Some order ->
         SalesOrder.status order = "cancelled" \/ SalesOrder.status order = "completed" ->
         exists message,
           SalesOrderService.cancelSalesOrder id db = (inl (AppError message 400), db)).
Proof.
  split; [|intros id db order; apply cancelSalesOrder_closed].
  intros data db db1 order Hpk Hc.
  destruct (createSalesOrder_ok data db order db1 Hpk Hc) as [start [mv [Ho Hdb1]]].
  assert (Hl : lookup (SalesOrder.id order) (salesOrders db1) = Some order).
  { assert (Hid : SalesOrder.id order
                  = next_id (seq (salesOrders db)) (rows (salesOrders db)))
      by (rewrite Ho; reflexivity).
    rewrite Hdb1. cbn [salesOrders touch set_stockMovements set_stocks set_salesOrders].
    apply (lookup_appended (rows (salesOrders db)) order).
    change (id_of order) with (SalesOrder.id order). rewrite Hid.
    apply next_id_fresh. }
  assert (Hpk1 : stock_ids_unique db1).
  { rewrite Hdb1. apply touch_ids_unique; [|exact Hpk].
    unfold reduced_rows. apply bump_all_ids. }
  assert (Hst : SalesOrder.status order = "open") by (now rewrite Ho).
  assert (Hst1 : SalesOrder.status order <> "cancelled") by (rewrite Hst; discriminate).
  assert (Hst2 : SalesOrder.status order <> "completed") by (rewrite Hst; discriminate).
  destruct (cancelSalesOrder_open _ order db1 Hpk1 Hl Hst1 Hst2) as [mv' Hcancel].
  do 2 eexists. split; [exact Hcancel|]. split; [|split].
  - cbn [stocks set_salesOrders touch set_stockMovements set_stocks].
    rewrite Hdb1 at 1 2. cbn [stocks touch set_stockMovements set_stocks rows seq set_salesOrders].
    rewrite Ho at 1. cbn [SalesOrder.items].
    rewrite restored_numbered, restore_after_reduce. apply table_eta.
  - reflexivity.
  - cbn [salesOrders set_salesOrders].
    apply lookup_update; [intros x; reflexivity | exact Hl].
Qed.

Lemma sample_ids_unique : stock_ids_unique sample.
Proof. unfold stock_ids_unique. simpl. repeat constructor. intros []. Defined.

Lemma cancel_undoes_create_witness :
  (exists cancelled db2,
      SalesOrderService.cancelSalesOrder 1 sample_sold = (inr cancelled, db2)
      /\ stocks db2 = stocks sample
      /\ SalesOrder.status cancelled = "cancelled"
      /\ lookup 1 (salesOrders db2) = Some cancelled)
  /\ (exists message,
         SalesOrderService.cancelSalesOrder 1 sample_cancelled
         = (inl (AppError message 400), sample_cancelled)).
Proof.
  split.
  - apply (proj1 cancel_undoes_create sample_order sample sample_sold
             (SalesOrder.mk 1 7 "open" [OrderItem.mk 1 1 3 one; OrderItem.mk 2 1 2 one])).
    + exact sample_ids_unique.
    + reflexivity.
  - apply (proj2 cancel_undoes_create 1 sample_cancelled
             (SalesOrder.mk 1 7 "cancelled"
                [OrderItem.mk 1 1 3 one; OrderItem.mk 2 1 2 one])).
    + reflexivity.
    + left. reflexivity.
Defined.

(** ** Receiving a purchase order *)

Lemma forEach_receiveItem orderId items db :
  stock_ids_unique db ->
  forEach (PurchaseOrderService.receiveItem orderId) items db
  = (inr tt,
     touch (received_rows items (rows (stocks db)))
           (record_all (received_movements orderId items (rows (stocks db)))
                       (stockMovements db))
           db).
Proof.
  intros Hpk.
  exact (forEach_step OrderItem.productId OrderItem.quantity
           OrderItem.quantity (fun _ => IN)
           (fun _ => ("Purchase Order #" ++ string_of_Z orderId ++ " received")%string)
           items db Hpk).
Qed.

Lemma item_movement_absent p mt q reason l :
  find (fun s => Stock.productId s =? p) l = None ->
  item_movement p mt q reason l = [].
Proof. unfold item_movement. now intros ->. Qed.

Lemma item_movement_present p mt q reason l s :
  find (fun s => Stock.productId s =? p) l = Some s ->
  item_movement p mt q reason l = [MovementInput.mk (Stock.id s) mt q reason].
Proof. unfold item_movement. now intros ->. Qed.

Lemma receivePurchaseOrder_open id order db :
  stock_ids_unique db ->
  lookup id (purchaseOrders db) = Some order ->
  PurchaseOrder.status order <> "received" ->
  PurchaseOrderService.receivePurchaseOrder id db
  = (inr (PurchaseOrder.set_status "received" order),
     set_purchaseOrders
       (update_where_id id (PurchaseOrder.set_status "received") (purchaseOrders db))
       (touch (received_rows (PurchaseOrder.items order) (rows (stocks db)))
              (record_all (received_movements (PurchaseOrder.id order)
                             (PurchaseOrder.items order) (rows (stocks db)))
                          (stockMovements db))
              db)).
Proof.
  intros Hpk Hl Hst. apply String.eqb_neq in Hst.
  unfold PurchaseOrderService.receivePurchaseOrder, transaction, bind at 1,
    prisma.purchaseOrder.findUnique, query.
  rewrite Hl, Hst.
  rewrite (bind_ok _ _ db tt _ (forEach_receiveItem _ _ db Hpk)).
  unfold prisma.purchaseOrder.update.
  change (purchaseOrders (touch ?l ?m db)) with (purchaseOrders db).
  now rewrite Hl.
Qed.

(** C9. Receiving a purchase order whose status is not 'received' succeeds
    and sets the status to 'received'. The Stock table it leaves is the one
    obtained by going through the items in order: an item whose product has
    no Stock row changes nothing and records no movement; an item whose
    product has one adds its quantity to the first such row, leaves the
    other rows alone, and records one 'IN' movement for that row and
    quantity. Stock ids are unique, as the primary key has it. *)
Theorem receivePurchaseOrder_skips_products_without_stock :
  (forall (id : Z) (db : DB) (order : PurchaseOrder.t),
      stock_ids_unique db ->
      lookup id (purchaseOrders db) = Some order ->
      PurchaseOrder.status order <> "received" ->
      exists received db',
        PurchaseOrderService.receivePurchaseOrder id db = (inr received, db')
        /\ PurchaseOrder.status received = "received"
        /\ lookup id (purchaseOrders db') = Some received
        /\ rows (stocks db')
           = received_rows (PurchaseOrder.items order) (rows (stocks db))
        /\ stockMovements db'
           = record_all (received_movements (PurchaseOrder.id order)
                           (PurchaseOrder.items order) (rows (stocks db)))
                        (stockMovements db))
  /\ (forall (item : OrderItem.t) (items : list OrderItem.t) (orderId : Z)
             (l : list Stock.t),
         find (fun s => Stock.productId s =? OrderItem.productId item) l = None ->
         received_rows (item :: items) l = received_rows items l
         /\ received_movements orderId (item :: items) l
            = received_movements orderId items l)
  /\ (forall (item : OrderItem.t) (items : list OrderItem.t) (orderId : Z)
             (l : list Stock.t) (s : Stock.t),
         find (fun s => Stock.productId s =? OrderItem.productId item) l = Some s ->
         exists before after,
           l = before ++ s :: after
           /\ received_rows (item :: items) l
              = received_rows items
                  (before
                     ++ Stock.set_quantity (Stock.quantity s + OrderItem.quantity item) s
                     :: after)
           /\ received_movements orderId (item :: items) l
              = MovementInput.mk (Stock.id s) IN (OrderItem.quantity item)
                  ("Purchase Order #" ++ string_of_Z orderId ++ " received")%string
                :: received_movements orderId items l).
Proof.
  split; [|split].
  - intros id db order Hpk Hl Hst.
    rewrite (receivePurchaseOrder_open id order db Hpk Hl Hst).
    do 2 eexists. split; [reflexivity|].
    split; [reflexivity|]. split; [|split; reflexivity].
    cbn [purchaseOrders set_purchaseOrders].
    apply lookup_update; [intros x; reflexivity | exact Hl].
  - intros item items orderId l Hf. split.
    + unfold received_rows. cbn [fold_left]. now rewrite (bump_absent _ _ _ Hf).
    + unfold received_movements. cbn [flat_map].
      now rewrite (item_movement_absent _ _ _ _ _ Hf).
  - intros item items orderId l s Hf.
    destruct (bump_present _ (OrderItem.quantity item) _ _ Hf) as [before [after [Hl Hb]]].
    exists before, after. split; [exact Hl|]. split.
    + unfold received_rows. cbn [fold_left]. now rewrite Hb.
    + unfold received_movements. cbn [flat_map].
      now rewrite (item_movement_present _ _ _ _ _ _ Hf).
Qed.

Lemma receivePurchaseOrder_skips_products_without_stock_witness :
  (exists received db',
      PurchaseOrderService.receivePurchaseOrder 1 sample = (inr received, db')
      /\ PurchaseOrder.status received = "received"
      /\ lookup 1 (purchaseOrders db') = Some received
      /\ rows (stocks db') = [Stock.mk 1 1 1 1 9]
      /\ stockMovements db'
         = mkTable [StockMovement.mk 1 1 IN 4 "Purchase Order #1 received"] 1)
  /\ (received_rows [OrderItem.mk 1 8 4 one] [Stock.mk 1 1 1 1 5] = [Stock.mk 1 1 1 1 5]
      /\ received_movements 1 [OrderItem.mk 1 8 4 one] [Stock.mk 1 1 1 1 5] = [])
  /\ (exists before after,
         [Stock.mk 1 1 1 1 5] = before ++ Stock.mk 1 1 1 1 5 :: after
         /\ received_rows [OrderItem.mk 1 1 4 one] [Stock.mk 1 1 1 1 5]
            = received_rows [] (before ++ Stock.mk 1 1 1 1 9 :: after)
         /\ received_movements 1 [OrderItem.mk 1 1 4 one] [Stock.mk 1 1 1 1 5]
            = MovementInput.mk 1 IN 4 "Purchase Order #1 received"
              :: received_movements 1 [] [Stock.mk 1 1 1 1 5]).
Proof.
  split; [|split].
  - apply (proj1 receivePurchaseOrder_skips_products_without_stock 1 sample
             (PurchaseOrder.mk 1 1 "open" [OrderItem.mk 1 1 4 one])).
    + exact sample_ids_unique.
    + reflexivity.
    + discriminate.
  - apply (proj1 (proj2 receivePurchaseOrder_skips_products_without_stock)
             (OrderItem.mk 1 8 4 one) [] 1 [Stock.mk 1 1 1 1 5]).
    reflexivity.
  - apply (proj2 (proj2 receivePurchaseOrder_skips_products_without_stock)
             (OrderItem.mk 1 1 4 one) [] 1 [Stock.mk 1 1 1 1 5] (Stock.mk 1 1 1 1 5)).
    reflexivity.
Defined.

(** ** What a service call can do to the Stock, Product and Location tables *)

Lemma effect_refl db : effect db db.
Proof. now apply effect_quantities. Qed.

Lemma NoDup_snoc {A : Type} (l : list A) (x : A) :
  NoDup l -> ~ In x l -> NoDup (l ++ [x]).
Proof.
  intros Hl Hx. induction Hl as [|y l Hy Hl IH]; simpl.
  - constructor; [intros [] | constructor].
  - constructor.
    + rewrite in_app_iff. intros [H | [H | []]]; [contradiction|].
      subst. apply Hx. now left.
    + apply IH. intros H. apply Hx. now right.
Qed.

Lemma NoDup_map_filter {A B : Type} (f : A -> B) (g : A -> bool) (l : list A) :
  NoDup (map f l) -> NoDup (map f (filter g l)).
Proof.
  induction l as [|x l IH]; simpl; [trivial|].
  intros H. inversion H as [|? ? Hx Hl]; subst.
  destruct (g x); simpl; [|now apply IH].
  constructor; [|now apply IH].
  intros Hin. apply Hx. apply in_map_iff in Hin as [y [Hy Hin]].
  apply filter_In in Hin as [Hin _]. rewrite <- Hy. now apply in_map.
Qed.

Lemma map_stock_key_proj {B : Type} (g : Z * Z * Z * Z -> B) (l l' : list Stock.t) :
  map stock_key l' = map stock_key l ->
  map (fun s => g (stock_key s)) l' = map (fun s => g (stock_key s)) l.
Proof. intros H. rewrite <- !(map_map stock_key g). now rewrite H. Qed.

Lemma effect_ids_unique db db' :
  effect db db' -> stock_ids_unique db -> stock_ids_unique db'.
Proof.
  unfold stock_ids_unique.
  intros [Hl Hp Hk | s l Hl Hp Hk Hid Hpair Hloc Hw | Hl Hs Hp | p Hl Hs Hp Hn
          | i Hl Hs Hp | l Hs Hp Hl | i Hs Hp Hl Hn] H;
    try (rewrite Hs; exact H).
  - assert (E : map Stock.id (rows (stocks db')) = map Stock.id (rows (stocks db)))
      by exact (map_stock_key_proj (fun k => fst (fst (fst k))) _ _ Hk).
    now rewrite E.
  - assert (E : map Stock.id (rows (stocks db'))
                = map Stock.id (rows (stocks db)) ++ [Stock.id s]).
    { change (map Stock.id (rows (stocks db')))
        with (map (fun s => fst (fst (fst (stock_key s)))) (rows (stocks db'))).
      rewrite <- (map_map stock_key (fun k => fst (fst (fst k)))).
      rewrite Hk, map_app, map_map. reflexivity. }
    rewrite E. apply NoDup_snoc; [exact H|].
    intros Hin. apply in_map_iff in Hin as [r [Hr Hin]].
    pose proof (find_none _ _ Hid r Hin) as Hf. simpl in Hf.
    rewrite Hr, Z.eqb_refl in Hf. discriminate.
Qed.

Lemma effect_pairs_unique db db' :
  effect db db' -> stock_pairs_unique db -> stock_pairs_unique db'.
Proof.
  unfold stock_pairs_unique.
  intros [Hl Hp Hk | s l Hl Hp Hk Hid Hpair Hloc Hw | Hl Hs Hp | p Hl Hs Hp Hn
          | i Hl Hs Hp | l Hs Hp Hl | i Hs Hp Hl Hn] H;
    try (rewrite Hs; exact H).
  - assert (E : map (fun s => (Stock.productId s, Stock.locationId s)) (rows (stocks db'))
                = map (fun s => (Stock.productId s, Stock.locationId s)) (rows (stocks db)))
      by exact (map_stock_key_proj (fun k => (snd (fst (fst k)), snd k)) _ _ Hk).
    now rewrite E.
  - assert (E : map (fun s => (Stock.productId s, Stock.locationId s)) (rows (stocks db'))
                = map (fun s => (Stock.productId s, Stock.locationId s)) (rows (stocks db))
                  ++ [(Stock.productId s, Stock.locationId s)]).
    { change (map (fun s => (Stock.productId s, Stock.locationId s)) (rows (stocks db')))
        with (map (fun s => (fun k : Z * Z * Z * Z => (snd (fst (fst k)), snd k)) (stock_key s))
                  (rows (stocks db'))).
      rewrite <- (map_map stock_key (fun k => (snd (fst (fst k)), snd k))).
      rewrite Hk, map_app, map_map. reflexivity. }
    rewrite E. apply NoDup_snoc; [exact H|].
    intros Hin. apply in_map_iff in Hin as [r [Hr Hin]].
    pose proof (find_none _ _ Hpair r Hin) as Hf. unfold same_pair in Hf.
    inversion Hr as [[H1 H2]]. rewrite H1, H2, !Z.eqb_refl in Hf. discriminate.
Qed.

Lemma effect_skus_barcodes_unique db db' :
  effect db db' ->
  skus_unique db /\ barcodes_unique db -> skus_unique db' /\ barcodes_unique db'.
Proof.
  unfold skus_unique, barcodes_unique.
  intros [Hl Hp Hk | s l Hl Hp Hk Hid Hpair Hloc Hw | Hl Hs Hp | p Hl Hs Hp Hn
          | i Hl Hs Hp | l Hs Hp Hl | i Hs Hp Hl Hn] [H1 H2];
    try (rewrite Hp; now split).
  - split.
    + change (map Product.sku (rows (products db')))
        with (map (fun p => fst (product_key p)) (rows (products db'))).
      rewrite <- (map_map product_key fst), Hp, map_map. exact H1.
    + change (map Product.barcode (rows (products db')))
        with (map (fun p => snd (product_key p)) (rows (products db'))).
      rewrite <- (map_map product_key snd), Hp, map_map. exact H2.
  - rewrite Hp, !map_app. simpl. split; apply NoDup_snoc; trivial;
      intros Hin; apply in_map_iff in Hin as [r [Hr Hin]];
      destruct (Hn r Hin); congruence.
  - rewrite Hp. split; now apply NoDup_map_filter.
Qed.

Lemma find_filter_other {A : Type} `{HasId A} (i j : Z) (l : list A) :
  i <> j ->
  find (fun r => id_of r =? i) (filter (fun r => negb (id_of r =? j)) l)
  = find (fun r => id_of r =? i) l.
Proof.
  intros Hij. induction l as [|x l IH]; simpl; [reflexivity|].
  destruct (id_of x =? j) eqn:Ej; simpl.
  - apply Z.eqb_eq in Ej. destruct (id_of x =? i) eqn:Ei; [|exact IH].
    apply Z.eqb_eq in Ei. congruence.
  - destruct (id_of x =? i); [reflexivity | exact IH].
Qed.

Lemma effect_location_warehouse db db' :
  effect db db' -> stock_in_location_warehouse db -> stock_in_location_warehouse db'.
Proof.
  unfold stock_in_location_warehouse.
  intros [Hl Hp Hk | s l Hl Hp Hk Hid Hpair Hloc Hw | Hl Hs Hp | p Hl Hs Hp Hn
          | i Hl Hs Hp | l Hs Hp Hl | i Hs Hp Hl Hn] H s' Hin.
  - rewrite Hl. apply (in_map stock_key) in Hin. rewrite Hk in Hin.
    apply in_map_iff in Hin as [r [Hr Hin]].
    destruct (H r Hin) as [loc [H1 H2]]. exists loc.
    unfold stock_key in Hr. injection Hr as E1 E2 E3 E4.
    split; congruence.
  - rewrite Hl. apply (in_map stock_key) in Hin. rewrite Hk in Hin.
    apply in_app_iff in Hin as [Hin | [Hr | []]].
    + apply in_map_iff in Hin as [r [Hr Hin]].
      destruct (H r Hin) as [loc [H1 H2]]. exists loc.
      unfold stock_key in Hr. injection Hr as E1 E2 E3 E4.
      split; congruence.
    + exists l. unfold stock_key in Hr. injection Hr as E1 E2 E3 E4.
      split; congruence.
  - rewrite Hl. rewrite Hs in Hin. now apply H.
  - rewrite Hl. rewrite Hs in Hin. now apply H.
  - rewrite Hl. rewrite Hs in Hin. now apply H.
  - rewrite Hs in Hin. destruct (H s' Hin) as [loc [H1 H2]]. exists loc.
    split; [|exact H2]. unfold lookup in *. now rewrite Hl, find_app, H1.
  - rewrite Hs in Hin. destruct (H s' Hin) as [loc [H1 H2]]. exists loc.
    split; [|exact H2]. unfold lookup in *. rewrite Hl, find_filter_other; [exact H1|].
    intros E. assert (Hf : existsb (fun s => Stock.locationId s =? i) (rows (stocks db)) = true).
    { apply existsb_exists. exists s'. split; [exact Hin | now apply Z.eqb_eq]. }
    congruence.
Qed.

Lemma update_rows_keys i q l :
  map stock_key (update_rows i (Stock.set_quantity q) l) = map stock_key l.
Proof.
  unfold update_rows. rewrite map_map. apply map_ext. intros s.
  now destruct (id_of s =? i).
Qed.

Lemma bump_keys p d l : map stock_key (bump p d l) = map stock_key l.
Proof.
  induction l as [|s r IH]; simpl; [reflexivity|].
  destruct (Stock.productId s =? p); simpl; [reflexivity | now rewrite IH].
Qed.

Lemma bump_all_keys {A : Type} (P D : A -> Z) items l :
  map stock_key (bump_all P D items l) = map stock_key l.
Proof.
  revert l. unfold bump_all.
  induction items as [|x items IH]; intros l; simpl; [reflexivity|].
  now rewrite IH, bump_keys.
Qed.

(** Case analysis on a scrutinee that has no match inside it. *)
Ltac split_case :=
  match goal with
  | |- context [match ?x with _ => _ end] =>
      lazymatch x with
      | context [match _ with _ => _ end] => fail
      | _ => destruct x eqn:?
      end
  end.

Ltac split_cases := repeat (split_case; cbn beta iota zeta delta [fst snd]).

Lemma recordMovement_effect data db :
  effect db (snd (StockService.recordMovement data db)).
Proof.
  unfold StockService.recordMovement, transaction, bind, prisma.stock.findUnique,
    query, prisma.stock.update, prisma.stockMovement.create, throw, insert.
  split_cases; try apply effect_refl.
  all: apply effect_quantities; try reflexivity; apply update_rows_keys.
Qed.

Lemma adjustStock_effect data db :
  effect db (snd (StockService.adjustStock data db)).
Proof.
  unfold StockService.adjustStock, transaction, bind, prisma.stock.findUnique,
    query, prisma.stock.update, prisma.stockAdjustment.create, throw, insert.
  split_cases; try apply effect_refl.
  all: apply effect_quantities; try reflexivity; apply update_rows_keys.
Qed.

Lemma createStock_effect data db :
  effect db (snd (StockService.createStock data db)).
Proof.
  unfold StockService.createStock, bind, prisma.location.findUnique,
    prisma.stock.findFirst, query, prisma.stock.create, throw, insert.
  split_cases; try apply effect_refl.
  match goal with
  | Hl : lookup _ (locations db) = Some ?l |- effect db (set_stocks (mkTable (_ ++ [?s]) _) db) =>
      apply (effect_new_stock db _ s l); try reflexivity
  end.
  - cbn [stocks set_stocks rows]. now rewrite map_app.
  - apply (next_id_fresh (seq (stocks db)) (rows (stocks db))).
  - assumption.
  - assumption.
  - apply negb_false_iff in Heqb. now apply Z.eqb_eq in Heqb.
Qed.

Lemma transferStock_effect data db :
  effect db (snd (StockService.transferStock data db)).
Proof.
  unfold StockService.transferStock, transaction, bind, prisma.location.findUnique,
    prisma.stock.findUnique, prisma.stock.findFirst, query, prisma.stock.create,
    prisma.stock.update, prisma.stockMovement.createMany, forEach, bind,
    prisma.stockMovement.create, throw, ret, insert.
  split_cases; try apply effect_refl.
  - apply effect_quantities; try reflexivity.
    cbn [stocks set_stocks set_stockMovements update_where_id rows].
    now rewrite !update_rows_keys.
  - apply (effect_new_stock db _
             (Stock.mk (next_id (seq (stocks db)) (rows (stocks db)))
                (Stock.productId t) (Location.warehouseId t0)
                (TransferStockData.targetLocationId data) 0) t0);
      try reflexivity; try assumption.
    + cbn [stocks set_stocks set_stockMovements update_where_id rows].
      now rewrite !update_rows_keys, map_app.
    + apply (next_id_fresh (seq (stocks db)) (rows (stocks db))).
Qed.

Lemma quiet_refl db : quiet db db.
Proof. repeat split. Qed.

Lemma quiet_trans a b c : quiet a b -> quiet b c -> quiet a c.
Proof. intros [H1 [H2 H3]] [K1 [K2 K3]]. repeat split; congruence. Qed.

Lemma quiet_effect db db' : quiet db db' -> effect db db'.
Proof. intros [H1 [H2 H3]]. now apply effect_quantities. Qed.

Lemma Quiet_ret {A : Type} (a : A) : Quiet (ret a).
Proof. intros db. apply quiet_refl. Qed.

Lemma Quiet_throw {A : Type} (e : Error) : Quiet (@throw A e).
Proof. intros db. apply quiet_refl. Qed.

Lemma Quiet_query {A : Type} (f : DB -> A) : Quiet (query f).
Proof. intros db. apply quiet_refl. Qed.

Lemma Quiet_bind {A B : Type} (m : Prisma A) (k : A -> Prisma B) :
  Quiet m -> (forall a, Quiet (k a)) -> Quiet (bind m k).
Proof.
  intros Hm Hk db. unfold bind. specialize (Hm db).
  destruct (m db) as [[e|a] db1]; simpl in *; [exact Hm|].
  eapply quiet_trans; [exact Hm | apply Hk].
Qed.

Lemma Quiet_transaction {A : Type} (m : Prisma A) : Quiet m -> Quiet (transaction m).
Proof.
  intros Hm db. unfold transaction. specialize (Hm db).
  destruct (m db) as [[e|a] db1]; simpl in *; [apply quiet_refl | exact Hm].
Qed.

Lemma Quiet_forEach {A : Type} (body : A -> Prisma unit) (l : list A) :
  (forall x, Quiet (body x)) -> Quiet (forEach body l).
Proof.
  intros Hb. induction l as [|x l IH]; simpl.
  - apply Quiet_ret.
  - apply Quiet_bind; [apply Hb | intros _; exact IH].
Qed.

Lemma Quiet_mapAll {A B : Type} (f : A -> Prisma B) (l : list A) :
  (forall x, Quiet (f x)) -> Quiet (mapAll f l).
Proof.
  intros Hf. induction l as [|x l IH]; simpl.
  - apply Quiet_ret.
  - apply Quiet_bind; [apply Hf | intros y].
    apply Quiet_bind; [exact IH | intros ys; apply Quiet_ret].
Qed.

Lemma Quiet_stock_update i q : Quiet (prisma.stock.update i q).
Proof.
  intros db. unfold prisma.stock.update.
  destruct (lookup i (stocks db)); simpl; [|apply quiet_refl].
  repeat split. apply update_rows_keys.
Qed.

Lemma Quiet_stockMovement_create d : Quiet (prisma.stockMovement.create d).
Proof.
  intros db. unfold prisma.stockMovement.create.
  destruct (negb _); simpl; repeat split.
Qed.

Lemma Quiet_salesOrder_create c st items : Quiet (prisma.salesOrder.create c st items).
Proof.
  intros db. unfold prisma.salesOrder.create.
  destruct (negb _); simpl; repeat split.
Qed.

Lemma Quiet_salesOrder_update i st : Quiet (prisma.salesOrder.update i st).
Proof.
  intros db. unfold prisma.salesOrder.update.
  destruct (lookup i (salesOrders db)); simpl; repeat split.
Qed.

Lemma Quiet_purchaseOrder_update i st : Quiet (prisma.purchaseOrder.update i st).
Proof.
  intros db. unfold prisma.purchaseOrder.update.
  destruct (lookup i (purchaseOrders db)); simpl; repeat split.
Qed.

Create HintDb quiet.

#[local] Hint Resolve Quiet_ret Quiet_throw Quiet_query Quiet_stock_update
  Quiet_stockMovement_create Quiet_salesOrder_create Quiet_salesOrder_update
  Quiet_purchaseOrder_update : quiet.

Ltac quiet_steps :=
  repeat first
    [ solve [auto with quiet]
    | apply Quiet_transaction
    | apply Quiet_forEach; intros ?
    | apply Quiet_mapAll; intros ?
    | apply Quiet_bind; [|intros ?]
    | match goal with
      | |- Quiet (match ?x with _ => _ end) => destruct x
      end ].

Lemma Quiet_step p d mt q reason : Quiet (step p d mt q reason).
Proof. unfold step, prisma.stock.findFirst. quiet_steps. Qed.

Lemma Quiet_createSalesOrder data : Quiet (SalesOrderService.createSalesOrder data).
Proof.
  unfold SalesOrderService.createSalesOrder, SalesOrderService.checkItem,
    SalesOrderService.reduceItem, prisma.stock.findFirst, prisma.product.findUnique.
  quiet_steps.
Qed.

Lemma Quiet_updateSalesOrder id status :
  Quiet (SalesOrderService.updateSalesOrder id status).
Proof.
  unfold SalesOrderService.updateSalesOrder, prisma.salesOrder.findUnique.
  quiet_steps.
Qed.

Lemma Quiet_cancelSalesOrder id : Quiet (SalesOrderService.cancelSalesOrder id).
Proof.
  unfold SalesOrderService.cancelSalesOrder, SalesOrderService.restoreItem,
    prisma.salesOrder.findUnique, prisma.stock.findFirst.
  quiet_steps.
Qed.

Lemma Quiet_receivePurchaseOrder id :
  Quiet (PurchaseOrderService.receivePurchaseOrder id).
Proof.
  unfold PurchaseOrderService.receivePurchaseOrder, PurchaseOrderService.receiveItem,
    prisma.purchaseOrder.findUnique, prisma.stock.findFirst.
  quiet_steps.
Qed.

Lemma createProduct_effect choose data db :
  effect db (snd (ProductService.createProduct choose data db)).
Proof.
  unfold ProductService.createProduct, bind, prisma.product.findFirst,
    prisma.category.findUnique, prisma.supplier.findUnique,
    prisma.warehouse.findUnique, query, throw.
  destruct (choose _) as [existing|]; [apply effect_refl|].
  destruct (lookup (ProductData.categoryId data) (categories db));
    [|apply effect_refl].
  destruct (lookup (ProductData.supplierId data) (suppliers db));
    [|apply effect_refl].
  destruct (lookup (ProductData.warehouseId data) (warehouses db));
    [|apply effect_refl].
  unfold prisma.product.create.
  destruct (existsb _ _ || existsb _ _) eqn:Hu; [apply effect_refl|].
  destruct (negb _); [apply effect_refl|].
  unfold insert. cbv zeta. cbn [snd].
  eapply effect_new_product; try reflexivity.
  apply orb_false_iff in Hu. destruct Hu as [H1 H2].
  intros r Hin. cbn [ProductData.row Product.sku Product.barcode]. split.
  - intros E. apply String.eqb_eq in E.
    assert (Ht : existsb (fun r => (Product.sku r =? ProductData.sku data)%string)
                         (rows (products db)) = true)
      by (apply existsb_exists; now exists r).
    congruence.
  - intros E. apply String.eqb_eq in E.
    assert (Ht : existsb (fun r => (Product.barcode r =? ProductData.barcode data)%string)
                         (rows (products db)) = true)
      by (apply existsb_exists; now exists r).
    congruence.
Qed.

Lemma Quiet_purchaseOrder_create s st items : Quiet (prisma.purchaseOrder.create s st items).
Proof.
  intros db. unfold prisma.purchaseOrder.create.
  destruct (negb _); [apply quiet_refl|].
  unfold insert. cbv zeta. cbn [snd]. repeat split.
Qed.

Lemma Quiet_purchaseOrder_delete i : Quiet (prisma.purchaseOrder.delete i).
Proof.
  intros db. unfold prisma.purchaseOrder.delete.
  destruct (lookup i (purchaseOrders db)) as [o|]; [|apply quiet_refl].
  destruct (PurchaseOrder.items o); [|apply quiet_refl].
  cbn [snd]. repeat split.
Qed.

Lemma Quiet_createPurchaseOrder s items :
  Quiet (PurchaseOrderService.createPurchaseOrder s items).
Proof.
  unfold PurchaseOrderService.createPurchaseOrder, prisma.supplier.findUnique,
    prisma.product.findManyIn.
  destruct (List.length items =? 0)%nat; [apply Quiet_throw|].
  apply Quiet_bind; [apply Quiet_query|]. intros [supplier|]; [|apply Quiet_throw].
  apply Quiet_bind; [apply Quiet_query|]. intros products_.
  destruct (negb _); [apply Quiet_throw | apply Quiet_purchaseOrder_create].
Qed.

Lemma Quiet_updatePurchaseOrder id status :
  Quiet (PurchaseOrderService.updatePurchaseOrder id status).
Proof.
  unfold PurchaseOrderService.updatePurchaseOrder, prisma.purchaseOrder.findUnique.
  apply Quiet_bind; [apply Quiet_query|]. intros [order|]; [|apply Quiet_throw].
  destruct (_ =? _)%string; [apply Quiet_throw | apply Quiet_purchaseOrder_update].
Qed.

Lemma Quiet_deletePurchaseOrder id :
  Quiet (PurchaseOrderService.deletePurchaseOrder id).
Proof.
  unfold PurchaseOrderService.deletePurchaseOrder, prisma.purchaseOrder.findUnique.
  apply Quiet_bind; [apply Quiet_query|]. intros [order|]; [|apply Quiet_throw].
  destruct (_ =? _)%string; [apply Quiet_throw | apply Quiet_purchaseOrder_delete].
Qed.

Lemma Quiet_warehouse_create data : Quiet (prisma.warehouse.create data).
Proof. intros db. unfold prisma.warehouse.create, insert. cbv zeta. repeat split. Qed.

Lemma Quiet_warehouse_update i data : Quiet (prisma.warehouse.update i data).
Proof.
  intros db. unfold prisma.warehouse.update.
  destruct (lookup i (warehouses db)); [repeat split | apply quiet_refl].
Qed.

Lemma Quiet_warehouse_delete i : Quiet (prisma.warehouse.delete i).
Proof.
  intros db. unfold prisma.warehouse.delete.
  destruct (lookup i (warehouses db)); [|apply quiet_refl].
  destruct (_ || _ || _); [apply quiet_refl | repeat split].
Qed.

Lemma Quiet_supplier_create data : Quiet (prisma.supplier.create data).
Proof.
  intros db. unfold prisma.supplier.create.
  destruct (existsb _ _); [apply quiet_refl|].
  unfold insert. cbv zeta. repeat split.
Qed.

Lemma Quiet_supplier_update i data : Quiet (prisma.supplier.update i data).
Proof.
  intros db. unfold prisma.supplier.update.
  destruct (lookup i (suppliers db)); [|apply quiet_refl].
  destruct (existsb _ _); [apply quiet_refl | repeat split].
Qed.

Lemma Quiet_supplier_delete i : Quiet (prisma.supplier.delete i).
Proof.
  intros db. unfold prisma.supplier.delete.
  destruct (lookup i (suppliers db)); [|apply quiet_refl].
  destruct (_ || _); [apply quiet_refl | repeat split].
Qed.

Lemma Quiet_createWarehouse data : Quiet (WarehouseService.createWarehouse data).
Proof.
  unfold WarehouseService.createWarehouse.
  destruct (_ || _ || _); [apply Quiet_throw | apply Quiet_warehouse_create].
Qed.

Lemma Quiet_updateWarehouse id data : Quiet (WarehouseService.updateWarehouse id data).
Proof.
  unfold WarehouseService.updateWarehouse, prisma.warehouse.findUnique.
  apply Quiet_bind; [apply Quiet_query|]. intros [w|]; [|apply Quiet_throw].
  apply Quiet_warehouse_update.
Qed.

Lemma Quiet_deleteWarehouse id : Quiet (WarehouseService.deleteWarehouse id).
Proof.
  unfold WarehouseService.deleteWarehouse, prisma.warehouse.findUnique.
  apply Quiet_bind; [apply Quiet_query|]. intros [w|]; [|apply Quiet_throw].
  apply Quiet_bind; [apply Quiet_query|]. intros products_.
  apply Quiet_bind; [apply Quiet_query|]. intros stocks_.
  destruct (_ || _); [apply Quiet_throw | apply Quiet_warehouse_delete].
Qed.

Lemma Quiet_createSupplier data : Quiet (SupplierService.createSupplier data).
Proof.
  unfold SupplierService.createSupplier, prisma.supplier.findUniqueByEmail.
  apply Quiet_bind; [apply Quiet_query|]. intros [existing|];
    [apply Quiet_throw | apply Quiet_supplier_create].
Qed.

Lemma Quiet_updateSupplier id data : Quiet (SupplierService.updateSupplier id data).
Proof.
  unfold SupplierService.updateSupplier, prisma.supplier.findUnique,
    prisma.supplier.findUniqueByEmail.
  apply Quiet_bind; [apply Quiet_query|]. intros [supplier|]; [|apply Quiet_throw].
  apply Quiet_bind; [|intros _; apply Quiet_supplier_update].
  destruct (SupplierUpdate.email data) as [email|]; [|apply Quiet_ret].
  destruct (_ && _); [|apply Quiet_ret].
  apply Quiet_bind; [apply Quiet_query|]. intros [existing|];
    [apply Quiet_throw | apply Quiet_ret].
Qed.

Lemma Quiet_deleteSupplier id : Quiet (SupplierService.deleteSupplier id).
Proof.
  unfold SupplierService.deleteSupplier, prisma.supplier.findUnique.
  apply Quiet_bind; [apply Quiet_query|]. intros [supplier|]; [|apply Quiet_throw].
  apply Quiet_bind; [apply Quiet_query|]. intros products_.
  apply Quiet_bind; [apply Quiet_query|]. intros purchaseOrders_.
  destruct (_ || _); [apply Quiet_throw | apply Quiet_supplier_delete].
Qed.

Lemma updateProduct_effect id data db :
  effect db (snd (ProductService.updateProduct id data db)).
Proof.
  unfold ProductService.updateProduct, ProductService.validate, bind,
    prisma.product.findUnique, prisma.category.findUnique,
    prisma.supplier.findUnique, prisma.warehouse.findUnique,
    prisma.product.update, query, throw, ret.
  split_cases; try apply effect_refl.
  all: apply effect_products_kept; try reflexivity;
    cbn [products set_products update_where_id rows];
    unfold update_rows; rewrite map_map; apply map_ext;
    intros r; destruct (id_of r =? id); reflexivity.
Qed.

Lemma deleteProduct_effect id db :
  effect db (snd (ProductService.deleteProduct id db)).
Proof.
  unfold ProductService.deleteProduct, bind, prisma.product.findUnique,
    prisma.product.delete, query, throw.
  split_cases; try apply effect_refl.
  all: eapply effect_product_deleted; reflexivity.
Qed.

Lemma addLocation_effect warehouseId name db :
  effect db (snd (WarehouseService.addLocation warehouseId name db)).
Proof.
  unfold WarehouseService.addLocation, bind, prisma.warehouse.findUnique,
    prisma.location.create, query, throw, insert.
  split_cases; try apply effect_refl.
  all: eapply effect_new_location; reflexivity.
Qed.

Lemma removeLocation_effect locationId db :
  effect db (snd (WarehouseService.removeLocation locationId db)).
Proof.
  unfold WarehouseService.removeLocation, bind, prisma.location.findUnique,
    prisma.location.delete, query, throw.
  split_cases; try apply effect_refl.
  all: eapply effect_location_deleted; try reflexivity; assumption.
Qed.

Lemma run_effect c db : effect db (run c db).
Proof.
  destruct c; simpl.
  - apply createStock_effect.
  - apply recordMovement_effect.
  - apply adjustStock_effect.
  - apply transferStock_effect.
  - apply quiet_effect, Quiet_createSalesOrder.
  - apply quiet_effect, Quiet_updateSalesOrder.
  - apply quiet_effect, Quiet_cancelSalesOrder.
  - apply quiet_effect, Quiet_receivePurchaseOrder.
  - apply createProduct_effect.
  - apply updateProduct_effect.
  - apply deleteProduct_effect.
  - apply addLocation_effect.
  - apply removeLocation_effect.
  - apply quiet_effect, Quiet_createPurchaseOrder.
  - apply quiet_effect, Quiet_updatePurchaseOrder.
  - apply quiet_effect, Quiet_deletePurchaseOrder.
  - apply quiet_effect, Quiet_createWarehouse.
  - apply quiet_effect, Quiet_updateWarehouse.
  - apply quiet_effect, Quiet_deleteWarehouse.
  - apply quiet_effect, Quiet_createSupplier.
  - apply quiet_effect, Quiet_updateSupplier.
  - apply quiet_effect, Quiet_deleteSupplier.
Qed.

(** ** Invariants of the reachable states *)

Lemma reachable_invariant (I : DB -> Prop) :
  (forall db db', effect db db' -> I db -> I db') ->
  forall init db, I init -> reachable init db -> I db.
Proof.
  intros Hstep init db Hinit Hr. induction Hr as [|db c Hr IH].
  - exact Hinit.
  - apply (Hstep db); [apply run_effect | exact IH].
Qed.

(** The primary key of Stock holds in every reachable state: ids are handed
    out by the AUTOINCREMENT counter and never updated. *)
Lemma stock_ids_unique_reachable init db :
  stock_ids_unique init -> reachable init db -> stock_ids_unique db.
Proof. apply (reachable_invariant stock_ids_unique). exact effect_ids_unique. Qed.

Lemma createStock_existing data db l existing :
  lookup (CreateStockData.locationId data) (locations db) = Some l ->
  Location.warehouseId l = CreateStockData.warehouseId data ->
  find (fun s => (Stock.productId s =? CreateStockData.productId data)
                 && (Stock.locationId s =? CreateStockData.locationId data))
       (rows (stocks db)) = Some existing ->
  StockService.createStock data db
  = (inl (AppError "Stock already exists for this product in this location" 400), db).
Proof.
  intros Hl Hw Hf.
  unfold StockService.createStock, bind, prisma.location.findUnique,
    prisma.stock.findFirst, query.
  rewrite Hl, Hw, Z.eqb_refl. cbn [negb]. now rewrite Hf.
Qed.

Lemma createStock_invalid_location data db :
  match lookup (CreateStockData.locationId data) (locations db) with
  | Some l => Location.warehouseId l <> CreateStockData.warehouseId data
  | None => True
  end ->
  StockService.createStock data db
  = (inl (AppError "Invalid location for warehouse" 400), db).
Proof.
  unfold StockService.createStock, bind, prisma.location.findUnique, query.
  destruct (lookup (CreateStockData.locationId data) (locations db)) as [l|];
    [|reflexivity].
  intros Hne. apply Z.eqb_neq in Hne. now rewrite Hne.
Qed.

Lemma createStock_phases data db :
  StockService.createStock data db
  = bind (createStock_check data) (fun _ => createStock_insert data) db.
Proof.
  unfold StockService.createStock, createStock_check, createStock_insert, bind,
    prisma.location.findUnique, prisma.stock.findFirst, query, throw, ret.
  destruct (lookup (CreateStockData.locationId data) (locations db)) as [l|];
    [|reflexivity].
  destruct (negb _); [reflexivity|].
  destruct (find _ _); reflexivity.
Qed.

Lemma createStock_check_reads data db :
  snd (createStock_check data db) = db.
Proof.
  unfold createStock_check, bind, prisma.location.findUnique, prisma.stock.findFirst,
    query, throw, ret.
  destruct (lookup (CreateStockData.locationId data) (locations db)) as [l|];
    [|reflexivity].
  destruct (negb _); [reflexivity|].
  destruct (find _ _); reflexivity.
Qed.

Lemma NoDup_repeated_last {A : Type} (l : list A) (x : A) : ~ NoDup (l ++ [x; x]).
Proof.
  intros H. apply NoDup_remove_2 in H. apply H.
  apply in_or_app. right. now left.
Qed.

(** Whenever one createStock request would succeed, two of them served at
    the same time both succeed. *)
Lemma createStock_overlapped_twice data db stock db1 :
  StockService.createStock data db = (inr stock, db1) ->
  exists first second db',
    createStock_overlapped data data db = (inr (first, second), db')
    /\ rows (stocks db') = rows (stocks db) ++ [first; second]
    /\ Stock.productId first = CreateStockData.productId data
    /\ Stock.locationId first = CreateStockData.locationId data
    /\ Stock.productId second = CreateStockData.productId data
    /\ Stock.locationId second = CreateStockData.locationId data.
Proof.
  intros Hc. rewrite createStock_phases in Hc. unfold bind in Hc.
  pose proof (createStock_check_reads data db) as Hro.
  destruct (createStock_check data db) as [[e|[]] d] eqn:Hck; [discriminate Hc|].
  cbn [snd] in Hro. subst d.
  unfold createStock_overlapped.
  rewrite (bind_ok _ _ db tt db Hck), (bind_ok _ _ db tt db Hck).
  unfold createStock_insert, prisma.stock.create in *.
  destruct (negb _) eqn:Hfk; [discriminate Hc|].
  unfold insert in *. cbv zeta in *. inversion Hc; subst. clear Hc.
  unfold bind at 1. rewrite Hfk. unfold bind.
  cbn [products warehouses locations set_stocks]. rewrite Hfk.
  unfold ret. do 3 eexists. split; [reflexivity|].
  cbn [stocks set_stocks rows]. rewrite <- app_assoc. repeat split.
Qed.

(** C8, as the code has it. The database keeps Product.sku and
    Product.barcode unique: the insert of a product whose sku or barcode is
    taken fails with P2002, whatever the application checked. It does not
    keep (productId, locationId) of Stock unique: the insert of a row for a
    pair that has one succeeds. The application checks both itself:
    createStock, once it has found the location in the given warehouse,
    looks for a row of the pair and throws a 400 AppError when it finds one,
    and createProduct throws its own 400 AppError for a taken sku or
    barcode, so that the insert is never reached. With these checks,
    when the writing service calls are run one after the other from a state
    where Stock pairs, skus and barcodes are unique, they stay unique. The
    search and the insert of createStock are separate statements, not a
    transaction: when two createStock requests that would each succeed are
    served so that the searches of both come before the insert of either,
    both succeed and the pair has two rows. *)
Theorem uniqueness_kept_in_reachable_states :
  (forall (data : ProductData.t) (db : DB),
      has_duplicate data db ->
      prisma.product.create data db = (inl P2002, db))
  /\ (forall (productId warehouseId locationId quantity : Z) (db : DB),
         lookup productId (products db) <> None ->
         lookup warehouseId (warehouses db) <> None ->
         lookup locationId (locations db) <> None ->
         exists row db',
           prisma.stock.create productId warehouseId locationId quantity db
           = (inr row, db')
           /\ rows (stocks db') = rows (stocks db) ++ [row]
           /\ Stock.productId row = productId
           /\ Stock.locationId row = locationId)
  /\ (forall (data : CreateStockData.t) (db : DB) (l : Location.t) (existing : Stock.t),
         lookup (CreateStockData.locationId data) (locations db) = Some l ->
         Location.warehouseId l = CreateStockData.warehouseId data ->
         find (fun s => (Stock.productId s =? CreateStockData.productId data)
                        && (Stock.locationId s =? CreateStockData.locationId data))
              (rows (stocks db)) = Some existing ->
         StockService.createStock data db
         = (inl (AppError "Stock already exists for this product in this location" 400),
            db))
  /\ (forall (choose : Choice Product.t) (data : ProductData.t) (db : DB),
         database_choice choose ->
         has_duplicate data db ->
         exists which,
           (which = "SKU" \/ which = "barcode")
           /\ ProductService.createProduct choose data db
              = (inl (duplicate_error which), db))
  /\ (forall (init db : DB),
         stock_pairs_unique init -> skus_unique init -> barcodes_unique init ->
         reachable init db ->
         stock_pairs_unique db /\ skus_unique db /\ barcodes_unique db)
  /\ (forall (data : CreateStockData.t) (db db1 : DB) (stock : Stock.t),
         StockService.createStock data db = (inr stock, db1) ->
         exists first second db',
           createStock_overlapped data data db = (inr (first, second), db')
           /\ ~ stock_pairs_unique db').
Proof.
  split; [|split; [|split; [|split; [|split]]]].
  - intros data db [p [Hin Hk]]. unfold prisma.product.create.
    replace (existsb _ _ || existsb _ _) with true; [reflexivity|].
    symmetry. apply orb_true_iff.
    destruct Hk as [Hk|Hk]; [left | right];
      apply existsb_exists; exists p; (split; [exact Hin | now apply String.eqb_eq]).
  - intros productId warehouseId locationId quantity db Hp Hw Hl.
    unfold prisma.stock.create. rewrite !exists_id_lookup.
    destruct (lookup productId (products db)); [|congruence].
    destruct (lookup warehouseId (warehouses db)); [|congruence].
    destruct (lookup locationId (locations db)); [|congruence].
    cbn [andb negb]. unfold insert. cbv zeta.
    do 2 eexists. split; [reflexivity|]. repeat split.
  - exact createStock_existing.
  - intros choose data db Hchoice Hd.
    pose proof (choice_of_duplicates choose data db Hchoice) as Hfound.
    destruct (choose (filter (same_key data) (rows (products db))))
      as [existing|] eqn:Ef; [|contradiction].
    rewrite (createProduct_found _ _ _ _ Ef).
    destruct (string_dec (Product.sku existing) (ProductData.sku data));
      eexists; (split; [|reflexivity]); auto.
  - intros init db Hp Hs Hb Hr.
    apply (reachable_invariant
             (fun db => stock_pairs_unique db /\ skus_unique db /\ barcodes_unique db))
      with (init := init); [|tauto|exact Hr].
    intros d d' He [H1 H23]. split.
    + now apply (effect_pairs_unique d d').
    + now apply (effect_skus_barcodes_unique d d').
  - intros data db db1 stock Hc.
    destruct (createStock_overlapped_twice data db stock db1 Hc)
      as [first [second [db' [Hrun [Hrows [Hp1 [Hl1 [Hp2 Hl2]]]]]]]].
    exists first, second, db'. split; [exact Hrun|].
    unfold stock_pairs_unique. rewrite Hrows, map_app. cbn [map].
    rewrite Hp1, Hl1, Hp2, Hl2. apply NoDup_repeated_last.
Qed.

Lemma sample_pairs_unique : stock_pairs_unique sample.
Proof. unfold stock_pairs_unique. simpl. repeat constructor. intros []. Defined.

Lemma sample_skus_unique : skus_unique sample.
Proof. unfold skus_unique. simpl. repeat constructor. intros []. Defined.

Lemma sample_barcodes_unique : barcodes_unique sample.
Proof. unfold barcodes_unique. simpl. repeat constructor. intros []. Defined.

Lemma uniqueness_kept_in_reachable_states_witness :
  StockService.createStock (CreateStockData.mk 1 1 1 3) sample
  = (inl (AppError "Stock already exists for this product in this location" 400),
     sample)
  /\ (stock_pairs_unique
        (run (createSupplier (SupplierData.mk "HP Inc" "hp@example.com"))
             (run sample_transfer sample))
      /\ skus_unique
           (run (createSupplier (SupplierData.mk "HP Inc" "hp@example.com"))
                (run sample_transfer sample))
      /\ barcodes_unique
           (run (createSupplier (SupplierData.mk "HP Inc" "hp@example.com"))
                (run sample_transfer sample)))
  /\ (exists first second db',
         createStock_overlapped (CreateStockData.mk 1 1 2 3) (CreateStockData.mk 1 1 2 3)
           sample
         = (inr (first, second), db')
         /\ ~ stock_pairs_unique db')
  /\ prisma.product.create (ProductData.mk "Laptop 2" "LAP-001" "100009" 1 1 1 one one)
       sample
     = (inl P2002, sample)
  /\ (exists row db',
         prisma.stock.create 1 1 1 3 sample = (inr row, db')
         /\ rows (stocks db') = rows (stocks sample) ++ [row]
         /\ Stock.productId row = 1
         /\ Stock.locationId row = 1)
  /\ (exists which,
         (which = "SKU" \/ which = "barcode")
         /\ ProductService.createProduct last_row
              (ProductData.mk "Laptop 2" "LAP-001" "100009" 1 1 1 one one) sample
            = (inl (duplicate_error which), sample)).
Proof.
  split; [|split; [|split; [|split; [|split]]]].
  4:{ apply (proj1 uniqueness_kept_in_reachable_states).
      exists (Product.mk 1 "Laptop" "LAP-001" "100001" 1 1 1 one one).
      split; [now left | now left]. }
  4:{ apply (proj1 (proj2 uniqueness_kept_in_reachable_states) 1 1 1 3 sample);
        discriminate. }
  4:{ apply (proj1 (proj2 (proj2 (proj2 uniqueness_kept_in_reachable_states)))
               last_row
               (ProductData.mk "Laptop 2" "LAP-001" "100009" 1 1 1 one one) sample
               last_row_choice).
      exists (Product.mk 1 "Laptop" "LAP-001" "100001" 1 1 1 one one).
      split; [now left | now left]. }
  - apply (proj1 (proj2 (proj2 uniqueness_kept_in_reachable_states))
             (CreateStockData.mk 1 1 1 3) sample (Location.mk 1 "A1" 1)
             (Stock.mk 1 1 1 1 5)); reflexivity.
  - apply (proj1 (proj2 (proj2 (proj2 (proj2 uniqueness_kept_in_reachable_states))))
             sample).
    + exact sample_pairs_unique.
    + exact sample_skus_unique.
    + exact sample_barcodes_unique.
    + apply reachable_run. apply reachable_run. apply reachable_init.
  - apply (proj2 (proj2 (proj2 (proj2 (proj2 uniqueness_kept_in_reachable_states))))
             (CreateStockData.mk 1 1 2 3) sample
             (snd (StockService.createStock (CreateStockData.mk 1 1 2 3) sample))
             (Stock.mk 2 1 1 2 3)).
    reflexivity.
Defined.

(** C8, as stated, fails: no unique index covers Stock (productId,
    locationId), the database accepts a second row for a pair that has one,
    and it is createStock's own search that rejects the request; createProduct
    likewise rejects a known sku with its own AppError before the unique
    index is consulted, whatever the database's choice in its search. *)
Lemma uniqueness_checked_by_application :
  ~ In ("Stock", ["productId"; "locationId"]) unique_indexes
  /\ (exists row db',
         prisma.stock.create 1 1 1 3 sample = (inr row, db')
         /\ ~ stock_pairs_unique db')
  /\ StockService.createStock (CreateStockData.mk 1 1 1 3) sample
     = (inl (AppError "Stock already exists for this product in this location" 400),
        sample)
  /\ (forall choose,
         database_choice choose ->
         ProductService.createProduct choose
           (ProductData.mk "Laptop 2" "LAP-001" "100009" 1 1 1 one one) sample
         = (inl (AppError "Product with same SKU already exists" 400), sample)).
Proof.
  split; [|split; [|split]].
  - simpl. intros H. repeat destruct H as [H|H]; try discriminate H. exact H.
  - do 2 eexists. split; [reflexivity|].
    unfold stock_pairs_unique. simpl. intros H.
    inversion H as [|x l Hx Hl]; subst. apply Hx. now left.
  - reflexivity.
  - intros choose Hchoice.
    pose proof (choice_of_duplicates choose
                  (ProductData.mk "Laptop 2" "LAP-001" "100009" 1 1 1 one one)
                  sample Hchoice) as Hfound.
    destruct (choose _) as [existing|] eqn:Ef.
    + rewrite (createProduct_found _ _ _ _ Ef).
      destruct Hfound as [[<-|[]] _]. reflexivity.
    + exfalso. apply Hfound.
      exists (Product.mk 1 "Laptop" "LAP-001" "100001" 1 1 1 one one).
      split; [now left | now left].
Qed.

Lemma sample_in_location_warehouse : stock_in_location_warehouse sample.
Proof.
  intros s [<- | []]. exists (Location.mk 1 "A1" 1). split; reflexivity.
Defined.

(** ** Stock quantities below zero *)

(** C1 fails on the code: from a database whose only Stock row holds 5
    units, createSalesOrder with two items of 3 units of the same product
    passes the availability check (each item alone is covered), succeeds,
    and leaves the row at -1. *)
Theorem createSalesOrder_repeated_product_overdraws :
  quantities_nonnegative sample
  /\ Forall (fun it => 1 <= ItemInput.quantity it)
            (CreateSalesOrderData.items repeated_order)
  /\ (exists order db',
         SalesOrderService.createSalesOrder repeated_order sample = (inr order, db')
         /\ rows (stocks db') = [Stock.mk 1 1 1 1 (-1)])
  /\ ~ quantities_nonnegative (run (createSalesOrder repeated_order) sample).
Proof.
  split; [|split; [|split]].
  - unfold quantities_nonnegative. simpl. repeat constructor. discriminate.
  - simpl. repeat constructor; discriminate.
  - destruct (SalesOrderService.createSalesOrder repeated_order sample)
      as [r d] eqn:E.
    vm_compute in E. inversion E; subst. do 2 eexists. split; reflexivity.
  - unfold quantities_nonnegative, run.
    destruct (SalesOrderService.createSalesOrder repeated_order sample)
      as [r d] eqn:E.
    vm_compute in E. inversion E; subst. cbn [snd stocks rows]. intros H.
    inversion H as [|x l Hx Hl]; subst. simpl in Hx. lia.
Qed.

(** ** Transfers *)

(** C3 fails on the code: a transfer of 2 units from a Stock row to the
    location the row is in finds that same row as its target, writes
    5 - 2 to it and then 5 + 2 from the quantity read before; the product's
    total goes from 5 to 7. *)
Theorem transferStock_in_place_adds_stock :
  total_quantity 1 (rows (stocks sample)) = 5
  /\ (exists result db',
         StockService.transferStock transfer_in_place sample = (inr result, db')
         /\ rows (stocks db') = [Stock.mk 1 1 1 1 7]
         /\ total_quantity 1 (rows (stocks db')) = 7).
Proof.
  split; [reflexivity|].
  destruct (StockService.transferStock transfer_in_place sample) as [r d] eqn:E.
  vm_compute in E. inversion E; subst.
  do 2 eexists. split; [reflexivity|]. split; reflexivity.
Qed.

(** ** Where quantities do stay non-negative *)

Lemma update_rows_nonnegative i q l :
  0 <= q -> Forall nonnegative l ->
  Forall nonnegative (update_rows i (Stock.set_quantity q) l).
Proof.
  intros Hq Hl. unfold update_rows. apply Forall_map.
  apply (Forall_impl _ (P := nonnegative)); [|exact Hl].
  intros s Hs. now destruct (id_of s =? i).
Qed.

Lemma lookup_nonnegative i db s :
  quantities_nonnegative db -> lookup i (stocks db) = Some s -> 0 <= Stock.quantity s.
Proof.
  intros Hq Hl. apply find_some in Hl as [Hin _].
  unfold quantities_nonnegative in Hq. rewrite Forall_forall in Hq. now apply Hq.
Qed.

Lemma find_nonnegative f db s :
  quantities_nonnegative db -> find f (rows (stocks db)) = Some s -> 0 <= Stock.quantity s.
Proof.
  intros Hq Hl. apply find_some in Hl as [Hin _].
  unfold quantities_nonnegative in Hq. rewrite Forall_forall in Hq. now apply Hq.
Qed.

Lemma recordMovement_nonnegative data db :
  0 <= MovementInput.quantity data ->
  quantities_nonnegative db ->
  quantities_nonnegative (snd (StockService.recordMovement data db)).
Proof.
  intros Hq Hdb.
  unfold StockService.recordMovement, transaction, bind, prisma.stock.findUnique,
    query, prisma.stock.update, prisma.stockMovement.create, throw, insert.
  split_cases; try assumption.
  all: unfold quantities_nonnegative;
    cbn [stocks set_stocks set_stockMovements update_where_id rows];
    apply update_rows_nonnegative; [|exact Hdb].
  all: repeat match goal with
              | H : Some _ = Some _ |- _ => inversion H; subst; clear H
              end.
  all: match goal with
       | H : lookup _ (stocks _) = Some _ |- _ =>
           pose proof (lookup_nonnegative _ _ _ Hdb H)
       end.
  all: try match goal with H : (_ <? _) = false |- _ => apply Z.ltb_ge in H end.
  all: lia.
Qed.

Lemma adjustStock_nonnegative data db :
  0 <= AdjustStockData.quantity data ->
  quantities_nonnegative db ->
  quantities_nonnegative (snd (StockService.adjustStock data db)).
Proof.
  intros Hq Hdb.
  unfold StockService.adjustStock, transaction, bind, prisma.stock.findUnique,
    query, prisma.stock.update, prisma.stockAdjustment.create, throw, insert.
  split_cases; try assumption.
  all: unfold quantities_nonnegative;
    cbn [stocks set_stocks set_stockAdjustments update_where_id rows];
    apply update_rows_nonnegative; [|exact Hdb].
  all: repeat match goal with
              | H : Some _ = Some _ |- _ => inversion H; subst; clear H
              end.
  all: match goal with
       | H : lookup _ (stocks _) = Some _ |- _ =>
           pose proof (lookup_nonnegative _ _ _ Hdb H)
       end.
  all: try match goal with H : (_ <? _) = false |- _ => apply Z.ltb_ge in H end.
  all: lia.
Qed.

Lemma transferStock_nonnegative data db :
  0 <= TransferStockData.quantity data ->
  quantities_nonnegative db ->
  quantities_nonnegative (snd (StockService.transferStock data db)).
Proof.
  intros Hq Hdb.
  unfold StockService.transferStock, transaction, bind, prisma.location.findUnique,
    prisma.stock.findUnique, prisma.stock.findFirst, query, prisma.stock.create,
    prisma.stock.update, prisma.stockMovement.createMany, forEach, bind,
    prisma.stockMovement.create, throw, ret, insert.
  split_cases; try assumption.
  all: unfold quantities_nonnegative;
    cbn [stocks set_stocks set_stockMovements update_where_id rows].
  all: repeat match goal with
              | H : Some _ = Some _ |- _ => inversion H; subst; clear H
              end.
  all: match goal with
       | H : lookup _ (stocks _) = Some _ |- _ =>
           pose proof (lookup_nonnegative _ _ _ Hdb H)
       end.
  all: match goal with H : (_ <? _) = false |- _ => apply Z.ltb_ge in H end.
  - match goal with
    | H : find _ (rows (stocks _)) = Some _ |- _ =>
        pose proof (find_nonnegative _ _ _ Hdb H)
    end.
    apply update_rows_nonnegative; [lia|].
    apply update_rows_nonnegative; [lia | exact Hdb].
  - apply update_rows_nonnegative; [simpl; lia|].
    apply update_rows_nonnegative; [lia|].
    apply Forall_app. split; [exact Hdb|]. repeat constructor.
    unfold nonnegative. simpl. lia.
Qed.

Lemma bump_nonnegative p d l :
  0 <= d -> Forall nonnegative l -> Forall nonnegative (bump p d l).
Proof.
  intros Hd Hl. induction Hl as [|s r Hs Hr IH]; simpl; [constructor|].
  destruct (Stock.productId s =? p); constructor; trivial.
  unfold nonnegative in *. simpl. lia.
Qed.

Lemma bump_all_nonnegative {A : Type} (P D : A -> Z) items l :
  Forall (fun x => 0 <= D x) items ->
  Forall nonnegative l -> Forall nonnegative (bump_all P D items l).
Proof.
  intros Hi. revert l. unfold bump_all.
  induction Hi as [|x items Hx Hi IH]; intros l Hl; simpl; [exact Hl|].
  apply IH. now apply bump_nonnegative.
Qed.

Lemma cancelSalesOrder_nonnegative id db :
  stock_ids_unique db ->
  (forall order, lookup id (salesOrders db) = Some order ->
                 Forall (fun it => 0 <= OrderItem.quantity it) (SalesOrder.items order)) ->
  quantities_nonnegative db ->
  quantities_nonnegative (snd (SalesOrderService.cancelSalesOrder id db)).
Proof.
  intros Hpk Hitems Hdb.
  destruct (lookup id (salesOrders db)) as [order|] eqn:Hl.
  - destruct (string_dec (SalesOrder.status order) "cancelled") as [E1|E1].
    { destruct (cancelSalesOrder_closed id order db Hl (or_introl E1)) as [m Hm].
      now rewrite Hm. }
    destruct (string_dec (SalesOrder.status order) "completed") as [E2|E2].
    { destruct (cancelSalesOrder_closed id order db Hl (or_intror E2)) as [m Hm].
      now rewrite Hm. }
    destruct (cancelSalesOrder_open id order db Hpk Hl E1 E2) as [mv Hc].
    rewrite Hc. unfold quantities_nonnegative. cbn [snd stocks set_salesOrders touch
      set_stockMovements set_stocks rows].
    apply bump_all_nonnegative; [now apply Hitems | exact Hdb].
  - unfold SalesOrderService.cancelSalesOrder, transaction, bind,
      prisma.salesOrder.findUnique, query. now rewrite Hl.
Qed.

Lemma receivePurchaseOrder_nonnegative id db :
  stock_ids_unique db ->
  (forall order, lookup id (purchaseOrders db) = Some order ->
                 Forall (fun it => 0 <= OrderItem.quantity it) (PurchaseOrder.items order)) ->
  quantities_nonnegative db ->
  quantities_nonnegative (snd (PurchaseOrderService.receivePurchaseOrder id db)).
Proof.
  intros Hpk Hitems Hdb.
  destruct (lookup id (purchaseOrders db)) as [order|] eqn:Hl.
  - destruct (string_dec (PurchaseOrder.status order) "received") as [E|E].
    + unfold PurchaseOrderService.receivePurchaseOrder, transaction, bind,
        prisma.purchaseOrder.findUnique, query. rewrite Hl, E. exact Hdb.
    + rewrite (receivePurchaseOrder_open id order db Hpk Hl E).
      unfold quantities_nonnegative. cbn [snd stocks set_purchaseOrders touch
        set_stockMovements set_stocks rows].
      apply bump_all_nonnegative; [now apply Hitems | exact Hdb].
  - unfold PurchaseOrderService.receivePurchaseOrder, transaction, bind,
      prisma.purchaseOrder.findUnique, query. now rewrite Hl.
Qed.

Lemma checkItem_run item db :
  SalesOrderService.checkItem item db = (inr (check db item), db).
Proof.
  unfold SalesOrderService.checkItem, check, bind, prisma.stock.findFirst,
    prisma.product.findUnique, query, ret.
  destruct (find _ (rows (stocks db))) as [stock|]; [|reflexivity].
  now destruct (Stock.quantity stock <? ItemInput.quantity item).
Qed.

Lemma mapAll_checkItem items db :
  mapAll SalesOrderService.checkItem items db = (inr (map (check db) items), db).
Proof.
  induction items as [|it items IH]; [reflexivity|].
  cbn [mapAll map]. unfold bind at 1. rewrite checkItem_run.
  unfold bind at 1. now rewrite IH.
Qed.

Lemma check_available db item :
  isAvailable (check db item) = true -> covered (rows (stocks db)) item.
Proof.
  unfold check, covered.
  destruct (find _ (rows (stocks db))) as [stock|]; [|discriminate].
  destruct (Stock.quantity stock <? ItemInput.quantity item) eqn:E; [discriminate|].
  intros _. exists stock. split; [reflexivity | now apply Z.ltb_ge].
Qed.

Lemma createSalesOrder_checked data db order db1 :
  SalesOrderService.createSalesOrder data db = (inr order, db1) ->
  Forall (covered (rows (stocks db))) (CreateSalesOrderData.items data).
Proof.
  unfold SalesOrderService.createSalesOrder.
  destruct (List.length (CreateSalesOrderData.items data) =? 0)%nat; [discriminate|].
  unfold bind at 1. rewrite mapAll_checkItem.
  destruct (0 <? List.length _)%nat eqn:E; [discriminate|]. intros _.
  apply Nat.ltb_ge in E. apply Nat.le_0_r, length_zero_iff_nil in E.
  apply Forall_forall. intros it Hin. apply check_available.
  destruct (isAvailable (check db it)) eqn:Ea; [reflexivity|].
  assert (Hf : In (check db it)
                 (filter (fun c => negb (isAvailable c))
                         (map (check db) (CreateSalesOrderData.items data)))).
  { apply filter_In. split; [now apply in_map | now rewrite Ea]. }
  rewrite E in Hf. contradiction.
Qed.

Lemma find_product_bump_other p p' d l :
  p' <> p ->
  find (fun s => Stock.productId s =? p') (bump p d l)
  = find (fun s => Stock.productId s =? p') l.
Proof.
  intros Hne. induction l as [|s r IH]; simpl; [reflexivity|].
  destruct (Stock.productId s =? p) eqn:E; simpl.
  - apply Z.eqb_eq in E.
    assert (E' : (Stock.productId s =? p') = false) by (apply Z.eqb_neq; congruence).
    now rewrite E'.
  - destruct (Stock.productId s =? p'); [reflexivity | exact IH].
Qed.

Lemma bump_covered_nonnegative item l :
  covered l item -> Forall nonnegative l ->
  Forall nonnegative (bump (ItemInput.productId item) (- ItemInput.quantity item) l).
Proof.
  intros [s [Hf Hq]] Hl. revert Hf.
  induction Hl as [|x r Hx Hr IH]; simpl; [discriminate|].
  destruct (Stock.productId x =? ItemInput.productId item).
  - intros E. inversion E; subst x. constructor; [|exact Hr].
    unfold nonnegative. simpl. lia.
  - intros E. constructor; [exact Hx | now apply IH].
Qed.

Lemma reduced_rows_nonnegative items l :
  NoDup (map ItemInput.productId items) ->
  Forall (covered l) items ->
  Forall nonnegative l ->
  Forall nonnegative (reduced_rows items l).
Proof.
  unfold reduced_rows, bump_all. revert l.
  induction items as [|it items IH]; intros l Hnd Hc Hl; simpl; [exact Hl|].
  inversion Hnd as [|? ? Hit Hnd']; subst.
  inversion Hc as [|? ? Hcit Hc']; subst.
  apply IH; [exact Hnd' | | now apply bump_covered_nonnegative].
  rewrite Forall_forall in *. intros it' Hin.
  destruct (Hc' it' Hin) as [s [Hf Hq]]. exists s. split; [|exact Hq].
  rewrite find_product_bump_other; [exact Hf|].
  intros E. apply Hit. rewrite <- E. now apply in_map.
Qed.

(** createSalesOrder keeps quantities non-negative when no product is named
    twice in the order. *)
Lemma createSalesOrder_distinct_products_nonnegative data db :
  stock_ids_unique db ->
  NoDup (map ItemInput.productId (CreateSalesOrderData.items data)) ->
  quantities_nonnegative db ->
  quantities_nonnegative (snd (SalesOrderService.createSalesOrder data db)).
Proof.
  intros Hpk Hnd Hdb.
  destruct (SalesOrderService.createSalesOrder data db) as [[e|order] db1] eqn:E.
  - pose proof (Quiet_createSalesOrder data db) as Hq. rewrite E in Hq.
    cbn [snd]. revert Hq E. unfold SalesOrderService.createSalesOrder.
    destruct (List.length (CreateSalesOrderData.items data) =? 0)%nat.
    { intros _ E. inversion E; subst. exact Hdb. }
    unfold bind at 1. rewrite mapAll_checkItem.
    destruct (0 <? List.length _)%nat.
    { intros _ E. inversion E; subst. exact Hdb. }
    intros _ E.
    match type of E with
    | transaction ?m db = _ =>
        pose proof (transaction_err m db e) as Ht; rewrite E in Ht
    end.
    cbn [fst snd] in Ht. now rewrite (Ht eq_refl).
  - pose proof (createSalesOrder_checked data db order db1 E) as Hc.
    destruct (createSalesOrder_ok data db order db1 Hpk E) as [start [mv [_ Hdb1]]].
    cbn [snd]. rewrite Hdb1. unfold quantities_nonnegative.
    cbn [stocks touch set_stockMovements set_stocks rows].
    now apply reduced_rows_nonnegative.
Qed.

(** ** Where transfers do conserve the total *)

Lemma total_quantity_app p l l' :
  total_quantity p (l ++ l') = total_quantity p l + total_quantity p l'.
Proof.
  unfold total_quantity. rewrite filter_app, map_app.
  induction (map Stock.quantity (filter (fun s => Stock.productId s =? p) l))
    as [|x xs IH]; simpl; [reflexivity | lia].
Qed.

Lemma update_rows_absent {A : Type} `{HasId A} (i : Z) (f : A -> A) (l : list A) :
  ~ In i (map id_of l) -> update_rows i f l = l.
Proof.
  intros Hn. unfold update_rows. rewrite <- (map_id l) at 2. apply map_ext_in.
  intros x Hx. destruct (id_of x =? i) eqn:E; [|reflexivity].
  exfalso. apply Hn. apply Z.eqb_eq in E. rewrite <- E. now apply in_map.
Qed.

Lemma total_quantity_update p i q l s :
  NoDup (map Stock.id l) ->
  find (fun r => Stock.id r =? i) l = Some s ->
  total_quantity p (update_rows i (Stock.set_quantity q) l)
  = total_quantity p l + (if Stock.productId s =? p then q - Stock.quantity s else 0).
Proof.
  induction l as [|x r IH]; [discriminate|].
  intros Hnd Hf. inversion Hnd as [|? ? Hx Hr]; subst. simpl in Hf.
  change (update_rows i (Stock.set_quantity q) (x :: r))
    with ((if Stock.id x =? i then Stock.set_quantity q x else x)
            :: update_rows i (Stock.set_quantity q) r).
  destruct (Stock.id x =? i) eqn:E.
  - inversion Hf; subst x. apply Z.eqb_eq in E. subst i.
    rewrite (update_rows_absent (Stock.id s) _ r Hx).
    unfold total_quantity. simpl.
    destruct (Stock.productId s =? p); simpl; lia.
  - specialize (IH Hr Hf).
    change (total_quantity p (x :: update_rows i (Stock.set_quantity q) r))
      with (total_quantity p ([x] ++ update_rows i (Stock.set_quantity q) r)).
    change (total_quantity p (x :: r)) with (total_quantity p ([x] ++ r)).
    rewrite !total_quantity_app, IH. lia.
Qed.

Lemma find_id_unique l (s : Stock.t) :
  NoDup (map Stock.id l) -> In s l ->
  find (fun r => Stock.id r =? Stock.id s) l = Some s.
Proof.
  induction l as [|x r IH]; [contradiction|].
  intros Hnd Hin. inversion Hnd as [|? ? Hx Hr]; subst. simpl.
  destruct Hin as [-> | Hin].
  - now rewrite Z.eqb_refl.
  - destruct (Stock.id x =? Stock.id s) eqn:E; [|now apply IH].
    exfalso. apply Hx. apply Z.eqb_eq in E. rewrite E. now apply in_map.
Qed.

Lemma find_id_update_other i j q l :
  i <> j ->
  find (fun r => Stock.id r =? i) (update_rows j (Stock.set_quantity q) l)
  = find (fun r => Stock.id r =? i) l.
Proof.
  intros Hij. induction l as [|x r IH]; [reflexivity|].
  change (update_rows j (Stock.set_quantity q) (x :: r))
    with ((if Stock.id x =? j then Stock.set_quantity q x else x)
            :: update_rows j (Stock.set_quantity q) r).
  simpl. destruct (Stock.id x =? j) eqn:Ej; simpl.
  - apply Z.eqb_eq in Ej.
    assert (Ei : (Stock.id x =? i) = false) by (apply Z.eqb_neq; congruence).
    now rewrite Ei.
  - destruct (Stock.id x =? i); [reflexivity | exact IH].
Qed.

(** A transfer to a location other than the source row's own conserves the
    units of the product. *)
Lemma transferStock_elsewhere_conserves_total data db src :
  stock_ids_unique db ->
  lookup (TransferStockData.sourceStockId data) (stocks db) = Some src ->
  Stock.locationId src <> TransferStockData.targetLocationId data ->
  (exists result, fst (StockService.transferStock data db) = inr result) ->
  total_quantity (Stock.productId src)
                 (rows (stocks (snd (StockService.transferStock data db))))
  = total_quantity (Stock.productId src) (rows (stocks db)).
Proof.
  intros Hpk Hsrc Hloc [result Hres]. revert Hres.
  assert (Hsid : Stock.id src = TransferStockData.sourceStockId data).
  { apply find_some in Hsrc as [_ E]. now apply Z.eqb_eq in E. }
  assert (Hin : In src (rows (stocks db))) by (apply find_some in Hsrc; tauto).
  assert (Hfresh : find (fun r => Stock.id r =? next_id (seq (stocks db)) (rows (stocks db)))
                     (rows (stocks db)) = None)
    by apply (next_id_fresh (seq (stocks db)) (rows (stocks db))).
  unfold StockService.transferStock, transaction, bind, prisma.location.findUnique,
    prisma.stock.findUnique, prisma.stock.findFirst, query, prisma.stock.create,
    prisma.stock.update, prisma.stockMovement.createMany, forEach, bind,
    prisma.stockMovement.create, throw, ret, insert.
  assert (Hsrc' : find (fun r => Stock.id r =? TransferStockData.sourceStockId data)
                    (rows (stocks db)) = Some src) by exact Hsrc.
  rewrite Hsrc.
  split_cases; try (intros H; discriminate H); intros _; try reflexivity.
  all: repeat match goal with
              | H : Some _ = Some _ |- _ => inversion H; subst; clear H
              end.
  - (* the target row exists *)
    match goal with
    | H : find _ (rows (stocks db)) = Some ?t |- _ =>
        rename H into Hfind; rename t into tgt
    end.
    apply find_some in Hfind as [Htin Htp].
    apply andb_prop in Htp as [Htp Htl]. apply Z.eqb_eq in Htp, Htl.
    assert (Hne : Stock.id tgt <> TransferStockData.sourceStockId data).
    { intros E. rewrite <- Hsid in E.
      pose proof (find_id_unique _ tgt Hpk Htin) as F. rewrite E in F.
      pose proof (find_id_unique _ src Hpk Hin) as G. congruence. }
    cbn [stocks set_stocks set_stockMovements update_where_id rows].
    rewrite (total_quantity_update _ _ _ _ tgt).
    + rewrite (total_quantity_update _ _ _ _ src Hpk Hsrc').
      rewrite Htp, !Z.eqb_refl. lia.
    + change (map Stock.id ?l) with (map id_of l).
      now rewrite update_rows_ids.
    + rewrite find_id_update_other by exact Hne. now apply find_id_unique.
  - (* the target row is created *)
    match goal with
    | Hl : lookup _ (locations db) = Some ?loc |- _ =>
        set (new := Stock.mk (next_id (seq (stocks db)) (rows (stocks db)))
                      (Stock.productId src) (Location.warehouseId loc)
                      (TransferStockData.targetLocationId data) 0) in *
    end.
    assert (Hne : Stock.id new <> TransferStockData.sourceStockId data).
    { intros E. rewrite <- Hsid in E.
      pose proof (find_none _ _ Hfresh src Hin) as F. simpl in F.
      unfold new in E. simpl in E. rewrite E, Z.eqb_refl in F. discriminate. }
    assert (Hpk0 : NoDup (map Stock.id (rows (stocks db) ++ [new]))).
    { rewrite map_app. apply NoDup_snoc; [exact Hpk|].
      intros Hi. apply in_map_iff in Hi as [r [Hr Hi]].
      pose proof (find_none _ _ Hfresh r Hi) as F. simpl in F.
      unfold new in Hr. simpl in Hr. rewrite Hr, Z.eqb_refl in F. discriminate. }
    assert (Hsrc0 : find (fun r => Stock.id r =? TransferStockData.sourceStockId data)
                      (rows (stocks db) ++ [new]) = Some src).
    { now rewrite find_app, Hsrc'. }
    cbn [stocks set_stocks set_stockMovements update_where_id rows].
    rewrite (total_quantity_update _ _ _ _ new).
    + rewrite (total_quantity_update _ _ _ _ src Hpk0 Hsrc0).
      rewrite total_quantity_app. unfold new at 1. unfold total_quantity at 2.
      simpl. rewrite !Z.eqb_refl. simpl. lia.
    + change (map Stock.id ?l) with (map id_of l).
      now rewrite update_rows_ids.
    + change (Stock.id new) with (next_id (seq (stocks db)) (rows (stocks db))) at 1.
      rewrite find_id_update_other by exact Hne.
      rewrite find_app, Hfresh. simpl. now rewrite Z.eqb_refl.
Qed.

(** * Further properties of the services *)

(** ** Stock rows: create, move, adjust *)

Lemma lookup_update_other {A : Type} `{HasId A} (i j : Z) (f : A -> A) (t : Table A) :
  (forall x, id_of (f x) = id_of x) ->
  i <> j ->
  lookup i (update_where_id j f t) = lookup i t.
Proof.
  intros Hf Hij. unfold lookup, update_where_id, update_rows. cbn [rows].
  induction (rows t) as [|x l IH]; [reflexivity|].
  cbn [map find]. destruct (id_of x =? j) eqn:Ej.
  - apply Z.eqb_eq in Ej. rewrite Hf.
    assert (Ei : (id_of x =? i) = false) by (apply Z.eqb_neq; congruence).
    now rewrite Ei.
  - destruct (id_of x =? i); [reflexivity | exact IH].
Qed.

Lemma stock_update_ok i q s db :
  lookup i (stocks db) = Some s ->
  prisma.stock.update i q db
  = (inr (Stock.set_quantity q s),
     set_stocks (update_where_id i (Stock.set_quantity q) (stocks db)) db).
Proof. intros Hl. unfold prisma.stock.update. now rewrite Hl. Qed.

Lemma exists_id_after_update i j q s db :
  lookup i (stocks db) = Some s ->
  exists_id i (update_where_id j (Stock.set_quantity q) (stocks db)) = true.
Proof.
  intros Hl. rewrite (exists_id_ids i (stocks db)).
  - now rewrite exists_id_lookup, Hl.
  - cbn [update_where_id rows]. apply update_rows_ids. reflexivity.
Qed.

Lemma stockMovement_create_ok d db :
  exists_id (MovementInput.stockId d) (stocks db) = true ->
  prisma.stockMovement.create d db
  = (inr (StockMovement.mk (next_id (seq (stockMovements db)) (rows (stockMovements db)))
            (MovementInput.stockId d) (MovementInput.movementType d)
            (MovementInput.quantity d) (MovementInput.reason d)),
     set_stockMovements (record (stockMovements db) d) db).
Proof. intros He. unfold prisma.stockMovement.create. now rewrite He. Qed.

(** X1. createStock for a location of the given warehouse, a product and a
    warehouse that exist, and a (product, location) pair without a Stock row
    appends one row with the requested columns and a new id, and
    getStockById on that id then returns this row. *)
Theorem createStock_then_getStockById :
  forall (data : CreateStockData.t) (db : DB) (l : Location.t),
    lookup (CreateStockData.locationId data) (locations db) = Some l ->
    Location.warehouseId l = CreateStockData.warehouseId data ->
    lookup (CreateStockData.productId data) (products db) <> None ->
    lookup (CreateStockData.warehouseId data) (warehouses db) <> None ->
    find (fun s => (Stock.productId s =? CreateStockData.productId data)
                   && (Stock.locationId s =? CreateStockData.locationId data))
         (rows (stocks db)) = None ->
    exists stock db',
      StockService.createStock data db = (inr stock, db')
      /\ rows (stocks db') = rows (stocks db) ++ [stock]
      /\ find (fun s => Stock.id s =? Stock.id stock) (rows (stocks db)) = None
      /\ Stock.productId stock = CreateStockData.productId data
      /\ Stock.warehouseId stock = CreateStockData.warehouseId data
      /\ Stock.locationId stock = CreateStockData.locationId data
      /\ Stock.quantity stock = CreateStockData.quantity data
      /\ exists detail,
           StockService.getStockById (Stock.id stock) db' = (inr detail, db')
           /\ StockService.detail_stock detail = stock.
Proof.
  intros data db l Hl Hw Hp Hwh Hf.
  unfold StockService.createStock, bind, prisma.location.findUnique,
    prisma.stock.findFirst, query, prisma.stock.create.
  rewrite Hl, Hw, Z.eqb_refl. cbn [negb]. rewrite Hf.
  rewrite !exists_id_lookup, Hl.
  destruct (lookup (CreateStockData.productId data) (products db)); [|congruence].
  destruct (lookup (CreateStockData.warehouseId data) (warehouses db)); [|congruence].
  cbn [andb negb]. unfold insert. cbv zeta.
  do 2 eexists. split; [reflexivity|]. cbn [stocks set_stocks rows].
  split; [reflexivity|]. split.
  { apply (next_id_fresh (seq (stocks db)) (rows (stocks db))). }
  repeat (split; [reflexivity|]).
  unfold StockService.getStockById, bind, prisma.stock.findUnique, query, ret.
  cbn [stocks set_stocks].
  match goal with
  | |- context [lookup ?i (mkTable (?l ++ [?r]) ?s)] =>
      replace (lookup i (mkTable (l ++ [r]) s)) with (Some r)
        by (symmetry; apply (lookup_appended l r s);
            apply (next_id_fresh (seq (stocks db)) (rows (stocks db))))
  end.
  eexists. split; reflexivity.
Qed.

Lemma createStock_then_getStockById_witness :
  exists stock db',
    StockService.createStock (CreateStockData.mk 1 1 2 8) sample = (inr stock, db')
    /\ rows (stocks db') = [Stock.mk 1 1 1 1 5; stock]
    /\ Stock.quantity stock = 8.
Proof.
  destruct (createStock_then_getStockById (CreateStockData.mk 1 1 2 8) sample
              (Location.mk 2 "A2" 1) eq_refl eq_refl)
    as [stock [db' [H1 [H2 [_ [_ [_ [_ [H7 _]]]]]]]]];
    try discriminate; try reflexivity.
  exists stock, db'. split; [exact H1|]. split; [exact H2 | exact H7].
Defined.

(** X2. recordMovement on an existing Stock row, with type 'IN' or with a
    quantity the row covers, succeeds when the row's quantity, the request's
    quantity and the new quantity are within the range of a 32-bit integer:
    the row's quantity goes up ('IN') or down ('OUT') by the quantity, every
    other Stock row and the adjustments are as before, and exactly one
    movement with the request's fields is appended to the journal. *)
Theorem recordMovement_updates_row_and_journal :
  forall (data : MovementInput.t) (db : DB) (s : Stock.t),
    lookup (MovementInput.stockId data) (stocks db) = Some s ->
    MovementInput.movementType data = IN
    \/ MovementInput.quantity data <= Stock.quantity s ->
    Int_range (Stock.quantity s) ->
    Int_range (MovementInput.quantity data) ->
    Int_range (match MovementInput.movementType data with
               | IN => Stock.quantity s + MovementInput.quantity data
               | OUT => Stock.quantity s - MovementInput.quantity data
               end) ->
    exists m db',
      StockService.recordMovement data db = (inr m, db')
      /\ lookup (MovementInput.stockId data) (stocks db')
         = Some (Stock.set_quantity
                   (match MovementInput.movementType data with
                    | IN => Stock.quantity s + MovementInput.quantity data
                    | OUT => Stock.quantity s - MovementInput.quantity data
                    end) s)
      /\ (forall i, i <> MovementInput.stockId data ->
                    lookup i (stocks db') = lookup i (stocks db))
      /\ rows (stockMovements db') = rows (stockMovements db) ++ [m]
      /\ StockMovement.stockId m = MovementInput.stockId data
      /\ StockMovement.movementType m = MovementInput.movementType data
      /\ StockMovement.quantity m = MovementInput.quantity data
      /\ StockMovement.reason m = MovementInput.reason data
      /\ stockAdjustments db' = stockAdjustments db.
Proof.
  intros data db s Hl Hok _ _ _.
  unfold StockService.recordMovement, transaction, bind at 1,
    prisma.stock.findUnique, query.
  rewrite Hl.
  assert (Hg : match MovementInput.movementType data with
               | OUT => Stock.quantity s <? MovementInput.quantity data
               | IN => false
               end = false).
  { destruct (MovementInput.movementType data); [reflexivity|].
    destruct Hok as [H|H]; [discriminate | now apply Z.ltb_ge]. }
  rewrite Hg.
  erewrite bind_ok; [|apply (stock_update_ok _ _ s); exact Hl].
  rewrite stockMovement_create_ok
    by (cbn [MovementInput.stockId stocks set_stocks];
        now apply (exists_id_after_update _ _ _ s)).
  do 2 eexists. split; [reflexivity|].
  cbn [stocks set_stocks set_stockMovements stockMovements stockAdjustments record
       insert snd rows].
  split; [apply lookup_update; [intros x; reflexivity | exact Hl]|].
  split; [intros i Hi; apply lookup_update_other; [intros x; reflexivity | exact Hi]|].
  repeat split.
Qed.

Lemma recordMovement_updates_row_and_journal_witness :
  exists m db',
    StockService.recordMovement (MovementInput.mk 1 OUT 5 "sold") sample = (inr m, db')
    /\ lookup 1 (stocks db') = Some (Stock.mk 1 1 1 1 0)
    /\ rows (stockMovements db') = [m].
Proof.
  destruct (recordMovement_updates_row_and_journal (MovementInput.mk 1 OUT 5 "sold")
              sample (Stock.mk 1 1 1 1 5) eq_refl)
    as [m [db' [H1 [H2 [_ [H4 _]]]]]].
  - right. simpl. lia.
  - unfold Int_range. simpl. lia.
  - unfold Int_range. simpl. lia.
  - unfold Int_range. simpl. lia.
  - exists m, db'. split; [exact H1|]. split; [exact H2 | exact H4].
Defined.

Lemma stockAdjustment_create_ok stockId ty q reason by_ db :
  exists_id stockId (stocks db) = true ->
  prisma.stockAdjustment.create stockId ty q reason by_ db
  = (inr (StockAdjustment.mk
            (next_id (seq (stockAdjustments db)) (rows (stockAdjustments db)))
            stockId ty q reason by_),
     set_stockAdjustments
       (mkTable (rows (stockAdjustments db)
                   ++ [StockAdjustment.mk
                         (next_id (seq (stockAdjustments db)) (rows (stockAdjustments db)))
                         stockId ty q reason by_])
                (next_id (seq (stockAdjustments db)) (rows (stockAdjustments db))))
       db).
Proof. intros He. unfold prisma.stockAdjustment.create. now rewrite He. Qed.

(** X3. adjustStock on an existing Stock row, with type 'ADD' or with a
    quantity the row covers, succeeds when the row's quantity, the request's
    quantity and the new quantity are within the range of a 32-bit integer:
    the row's quantity goes up ('ADD') or down ('REMOVE') by the quantity,
    every other Stock row and the movement journal are as before, and
    exactly one adjustment carrying the request's fields, the approver among
    them, is appended. *)
Theorem adjustStock_updates_row_and_journal :
  forall (data : AdjustStockData.t) (db : DB) (s : Stock.t),
    lookup (AdjustStockData.stockId data) (stocks db) = Some s ->
    AdjustStockData.adjustmentType data = ADD
    \/ AdjustStockData.quantity data <= Stock.quantity s ->
    Int_range (Stock.quantity s) ->
    Int_range (AdjustStockData.quantity data) ->
    Int_range (match AdjustStockData.adjustmentType data with
               | ADD => Stock.quantity s + AdjustStockData.quantity data
               | REMOVE => Stock.quantity s - AdjustStockData.quantity data
               end) ->
    exists a db',
      StockService.adjustStock data db = (inr a, db')
      /\ lookup (AdjustStockData.stockId data) (stocks db')
         = Some (Stock.set_quantity
                   (match AdjustStockData.adjustmentType data with
                    | ADD => Stock.quantity s + AdjustStockData.quantity data
                    | REMOVE => Stock.quantity s - AdjustStockData.quantity data
                    end) s)
      /\ (forall i, i <> AdjustStockData.stockId data ->
                    lookup i (stocks db') = lookup i (stocks db))
      /\ rows (stockAdjustments db') = rows (stockAdjustments db) ++ [a]
      /\ StockAdjustment.stockId a = AdjustStockData.stockId data
      /\ StockAdjustment.adjustmentType a = AdjustStockData.adjustmentType data
      /\ StockAdjustment.quantity a = AdjustStockData.quantity data
      /\ StockAdjustment.reason a = AdjustStockData.reason data
      /\ StockAdjustment.approvedById a = AdjustStockData.approvedById data
      /\ stockMovements db' = stockMovements db.
Proof.
  intros data db s Hl Hok _ _ _.
  unfold StockService.adjustStock, transaction, bind at 1,
    prisma.stock.findUnique, query.
  rewrite Hl.
  assert (Hg : match AdjustStockData.adjustmentType data with
               | REMOVE => Stock.quantity s <? AdjustStockData.quantity data
               | ADD => false
               end = false).
  { destruct (AdjustStockData.adjustmentType data); [reflexivity|].
    destruct Hok as [H|H]; [discriminate | now apply Z.ltb_ge]. }
  rewrite Hg.
  erewrite bind_ok; [|apply (stock_update_ok _ _ s); exact Hl].
  rewrite stockAdjustment_create_ok
    by (cbn [stocks set_stocks]; now apply (exists_id_after_update _ _ _ s)).
  do 2 eexists. split; [reflexivity|].
  cbn [stocks set_stocks set_stockAdjustments stockMovements stockAdjustments rows].
  split; [apply lookup_update; [intros x; reflexivity | exact Hl]|].
  split; [intros i Hi; apply lookup_update_other; [intros x; reflexivity | exact Hi]|].
  repeat split.
Qed.

Lemma adjustStock_updates_row_and_journal_witness :
  exists a db',
    StockService.adjustStock (AdjustStockData.mk 1 REMOVE 2 "damaged" 3) sample
    = (inr a, db')
    /\ lookup 1 (stocks db') = Some (Stock.mk 1 1 1 1 3)
    /\ StockAdjustment.approvedById a = 3.
Proof.
  destruct (adjustStock_updates_row_and_journal
              (AdjustStockData.mk 1 REMOVE 2 "damaged" 3)
              sample (Stock.mk 1 1 1 1 5) eq_refl)
    as [a [db' [H1 [H2 [_ [_ [_ [_ [_ [_ [H9 _]]]]]]]]]]].
  - right. simpl. lia.
  - unfold Int_range. simpl. lia.
  - unfold Int_range. simpl. lia.
  - unfold Int_range. simpl. lia.
  - exists a, db'. split; [exact H1|]. split; [exact H2 | exact H9].
Defined.

(** X4. recordMovement, adjustStock and transferStock, called with a
    quantity that is not negative, never leave a Stock row below zero when
    none was, whether they succeed or throw; nor do cancelSalesOrder and
    receivePurchaseOrder for an order whose item quantities are not
    negative, Stock ids being unique as the primary key has it. *)
Theorem stock_operations_keep_quantities_nonnegative :
  forall (db : DB),
    quantities_nonnegative db ->
    (forall data, 0 <= MovementInput.quantity data ->
                  quantities_nonnegative (snd (StockService.recordMovement data db)))
    /\ (forall data, 0 <= AdjustStockData.quantity data ->
                     quantities_nonnegative (snd (StockService.adjustStock data db)))
    /\ (forall data, 0 <= TransferStockData.quantity data ->
                     quantities_nonnegative (snd (StockService.transferStock data db)))
    /\ (forall id,
           stock_ids_unique db ->
           (forall order,
               lookup id (salesOrders db) = Some order ->
               Forall (fun it => 0 <= OrderItem.quantity it) (SalesOrder.items order)) ->
           quantities_nonnegative (snd (SalesOrderService.cancelSalesOrder id db)))
    /\ (forall id,
           stock_ids_unique db ->
           (forall order,
               lookup id (purchaseOrders db) = Some order ->
               Forall (fun it => 0 <= OrderItem.quantity it) (PurchaseOrder.items order)) ->
           quantities_nonnegative (snd (PurchaseOrderService.receivePurchaseOrder id db))).
Proof.
  intros db Hdb. split; [|split; [|split; [|split]]].
  - intros data Hq. now apply recordMovement_nonnegative.
  - intros data Hq. now apply adjustStock_nonnegative.
  - intros data Hq. now apply transferStock_nonnegative.
  - intros id Hpk Hitems. now apply cancelSalesOrder_nonnegative.
  - intros id Hpk Hitems. now apply receivePurchaseOrder_nonnegative.
Qed.

Lemma sample_nonnegative : quantities_nonnegative sample.
Proof.
  unfold quantities_nonnegative. simpl. repeat constructor. discriminate.
Defined.

Lemma stock_operations_keep_quantities_nonnegative_witness :
  quantities_nonnegative
    (snd (StockService.transferStock (TransferStockData.mk 1 2 5 "move") sample)).
Proof.
  apply (proj1 (proj2 (proj2 (stock_operations_keep_quantities_nonnegative
                                sample sample_nonnegative)))).
  simpl. lia.
Defined.

(** ** Transfers and the product's total *)

Lemma fold_left_add_quantity (l : list Stock.t) (acc : Z) :
  fold_left (fun sum stock => sum + Stock.quantity stock) l acc
  = acc + fold_right Z.add 0 (map Stock.quantity l).
Proof.
  revert acc. induction l as [|s l IH]; intros acc; simpl; [lia|].
  rewrite IH. lia.
Qed.

Lemma getProductStock_total id db :
  ProductService.getProductStock id db
  = (inr (total_quantity id (rows (stocks db)),
          filter (fun s => Stock.productId s =? id) (rows (stocks db))), db).
Proof.
  unfold ProductService.getProductStock, bind, prisma.stock.findMany, query, ret,
    total_quantity.
  now rewrite fold_left_add_quantity.
Qed.

(** X5. A successful transferStock to a location other than the source
    row's leaves the product's totalQuantity, as getProductStock reports it,
    unchanged. Stock ids are unique, as the primary key has it. *)
Theorem transferStock_elsewhere_keeps_product_total :
  forall (data : TransferStockData.t) (db db' : DB) (src : Stock.t)
         (result : option Stock.t * option Stock.t),
    stock_ids_unique db ->
    lookup (TransferStockData.sourceStockId data) (stocks db) = Some src ->
    Stock.locationId src <> TransferStockData.targetLocationId data ->
    StockService.transferStock data db = (inr result, db') ->
    fst (ProductService.getProductStock (Stock.productId src) db')
    = inr (total_quantity (Stock.productId src) (rows (stocks db)),
           filter (fun s => Stock.productId s =? Stock.productId src) (rows (stocks db')))
    /\ fst (ProductService.getProductStock (Stock.productId src) db)
       = inr (total_quantity (Stock.productId src) (rows (stocks db)),
              filter (fun s => Stock.productId s =? Stock.productId src)
                     (rows (stocks db))).
Proof.
  intros data db db' src result Hpk Hsrc Hloc Ht.
  rewrite !getProductStock_total. cbn [fst]. split; [|reflexivity].
  pose proof (transferStock_elsewhere_conserves_total data db src Hpk Hsrc Hloc) as Hc.
  rewrite Ht in Hc. cbn [fst snd] in Hc. rewrite Hc; [reflexivity|].
  now exists result.
Qed.

Lemma transferStock_elsewhere_keeps_product_total_witness :
  fst (ProductService.getProductStock 1 (run sample_transfer sample))
  = inr (5, [Stock.mk 1 1 1 1 3; Stock.mk 2 1 1 2 2]).
Proof.
  refine (proj1 (transferStock_elsewhere_keeps_product_total
                   (TransferStockData.mk 1 2 2 "restock shelf") sample
                   (run sample_transfer sample) (Stock.mk 1 1 1 1 5)
                   (Some (Stock.mk 1 1 1 1 3), Some (Stock.mk 2 1 1 2 2))
                   sample_ids_unique eq_refl _ eq_refl)).
  simpl. discriminate.
Defined.

(** ** Sales orders: outcome and accounting *)

Lemma covered_check db item :
  covered (rows (stocks db)) item -> isAvailable (check db item) = true.
Proof.
  intros [s [Hf Hq]]. unfold check. rewrite Hf.
  apply Z.ltb_ge in Hq. now rewrite Hq.
Qed.

Lemma unavailable_none db items :
  Forall (covered (rows (stocks db))) items
  <-> filter (fun c => negb (isAvailable c)) (map (check db) items) = [].
Proof.
  induction items as [|it items IH]; simpl.
  - split; [reflexivity | constructor].
  - split.
    + intros H. inversion H; subst.
      rewrite (covered_check db it) by assumption. simpl. now apply IH.
    + intros H. destruct (isAvailable (check db it)) eqn:Ha; [|discriminate].
      constructor; [now apply check_available | now apply IH].
Qed.

Lemma createSalesOrder_run data db :
  CreateSalesOrderData.items data <> [] ->
  SalesOrderService.createSalesOrder data db
  = if (0 <? List.length (filter (fun c => negb (isAvailable c))
                                 (map (check db) (CreateSalesOrderData.items data))))%nat
    then (inl (AppError (shortage_message db (CreateSalesOrderData.items data)) 400), db)
    else transaction
           (bind (prisma.salesOrder.create (CreateSalesOrderData.customerId data) "open"
                    (CreateSalesOrderData.items data))
                 (fun order =>
                    bind (forEach (SalesOrderService.reduceItem (SalesOrder.id order))
                                  (CreateSalesOrderData.items data))
                         (fun _ => ret order))) db.
Proof.
  intros Hne. unfold SalesOrderService.createSalesOrder.
  destruct (CreateSalesOrderData.items data) as [|it items] eqn:Hi; [congruence|].
  cbn [List.length Nat.eqb].
  rewrite (bind_ok _ _ db _ db (mapAll_checkItem (it :: items) db)).
  destruct (0 <? _)%nat; reflexivity.
Qed.

Lemma number_items_fields start items :
  map OrderItem.productId (prisma.number_items start items) = map ItemInput.productId items
  /\ map OrderItem.quantity (prisma.number_items start items) = map ItemInput.quantity items.
Proof.
  revert start. induction items as [|it items IH]; intros start; simpl; [now split|].
  destruct (IH (start + 1)) as [-> ->]. now split.
Qed.

Lemma forallb_exists_id {A : Type} (P : A -> Z) (l : list A) db :
  Forall (fun x => lookup (P x) (products db) <> None) l ->
  forallb (fun x => exists_id (P x) (products db)) l = true.
Proof.
  induction 1 as [|x l Hx Hl IH]; simpl; [reflexivity|].
  rewrite IH, exists_id_lookup.
  destruct (lookup (P x) (products db)); [reflexivity | congruence].
Qed.

(** X6. What createSalesOrder does with a request: without items it throws
    the 400 'Sales order must have at least one item'; when the first Stock
    row of some item's product is missing or holds less than the item asks
    for, it throws the 400 'Insufficient stock for items: ...' that lists
    the refused items; when every item is covered and every product exists,
    it returns an 'open' order with the request's customer, products and
    quantities, which getSalesOrderById then finds; and whenever it throws,
    the database is as before. Stock ids are unique, as the primary key has
    it. *)
Theorem createSalesOrder_outcome :
  forall (data : CreateSalesOrderData.t) (db : DB),
    stock_ids_unique db ->
    let items := CreateSalesOrderData.items data in
    let r := SalesOrderService.createSalesOrder data db in
    (items = [] ->
     r = (inl (AppError "Sales order must have at least one item" 400), db))
    /\ (items <> [] -> ~ Forall (covered (rows (stocks db))) items ->
        r = (inl (AppError (shortage_message db items) 400), db))
    /\ (items <> [] -> Forall (covered (rows (stocks db))) items ->
        Forall (fun it => lookup (ItemInput.productId it) (products db) <> None) items ->
        exists order db',
          r = (inr order, db')
          /\ SalesOrder.status order = "open"
          /\ SalesOrder.customerId order = CreateSalesOrderData.customerId data
          /\ map OrderItem.productId (SalesOrder.items order) = map ItemInput.productId items
          /\ map OrderItem.quantity (SalesOrder.items order) = map ItemInput.quantity items
          /\ rows (stocks db') = reduced_rows items (rows (stocks db))
          /\ SalesOrderService.getSalesOrderById (SalesOrder.id order) db'
             = (inr order, db'))
    /\ (forall e, fst r = inl e -> snd r = db).
Proof.
  intros data db Hpk items r. subst r items.
  split; [|split; [|split]].
  - intros Hi. unfold SalesOrderService.createSalesOrder. now rewrite Hi.
  - intros Hne Hnc. rewrite createSalesOrder_run by exact Hne.
    destruct (filter _ (map (check db) (CreateSalesOrderData.items data))) eqn:Hf.
    + exfalso. apply Hnc. now apply unavailable_none.
    + reflexivity.
  - intros Hne Hc Hp.
    assert (Hok : exists order db',
               SalesOrderService.createSalesOrder data db = (inr order, db')).
    { rewrite createSalesOrder_run by exact Hne.
      apply unavailable_none in Hc. rewrite Hc. cbn [List.length Nat.ltb Nat.leb].
      unfold transaction, bind at 1, prisma.salesOrder.create.
      rewrite (forallb_exists_id ItemInput.productId _ db Hp).
      cbn [negb]. unfold insert. cbv zeta.
      match goal with
      | |- context [bind (forEach (SalesOrderService.reduceItem ?i) ?items) ?k ?d] =>
          destruct (forEach_reduceItem i items d Hpk) as [mv Hloop];
          rewrite (bind_ok _ k d tt _ Hloop)
      end.
      unfold ret. do 2 eexists. reflexivity. }
    destruct Hok as [order [db' Hr]].
    destruct (createSalesOrder_ok data db order db' Hpk Hr) as [start [mv [Ho Hdb]]].
    exists order, db'. split; [exact Hr|].
    destruct (number_items_fields start (CreateSalesOrderData.items data)) as [Hpi Hqi].
    split; [now rewrite Ho|]. split; [now rewrite Ho|].
    split; [now rewrite Ho|]. split; [now rewrite Ho|].
    split; [now rewrite Hdb|].
    unfold SalesOrderService.getSalesOrderById, bind, prisma.salesOrder.findUnique, query.
    replace (lookup (SalesOrder.id order) (salesOrders db')) with (Some order);
      [reflexivity|].
    assert (Hid : SalesOrder.id order
                  = next_id (seq (salesOrders db)) (rows (salesOrders db)))
      by (rewrite Ho; reflexivity).
    symmetry. rewrite Hdb.
    cbn [salesOrders touch set_stockMovements set_stocks set_salesOrders].
    apply (lookup_appended (rows (salesOrders db)) order).
    change (id_of order) with (SalesOrder.id order). rewrite Hid.
    apply next_id_fresh.
  - intros e He.
    destruct (CreateSalesOrderData.items data) as [|it items] eqn:Hi.
    + unfold SalesOrderService.createSalesOrder. now rewrite Hi.
    + assert (Hne : CreateSalesOrderData.items data <> []) by (rewrite Hi; discriminate).
      revert He. rewrite createSalesOrder_run by exact Hne.
      destruct (0 <? _)%nat; [reflexivity|].
      intros He. now apply transaction_err with (e := e).
Qed.

Lemma createSalesOrder_outcome_witness :
  SalesOrderService.createSalesOrder (CreateSalesOrderData.mk 7 [ItemInput.mk 1 6 one]) sample
  = (inl (AppError "Insufficient stock for items: Laptop (requested: 6, available: 5)" 400),
     sample).
Proof.
  refine (proj1 (proj2 (createSalesOrder_outcome
                          (CreateSalesOrderData.mk 7 [ItemInput.mk 1 6 one]) sample
                          sample_ids_unique)) _ _).
  - discriminate.
  - intros H. inversion H as [|x l [s [Hf Hq]] Hl]; subst.
    simpl in Hf. inversion Hf; subst. simpl in Hq. lia.
Defined.

Lemma total_quantity_bump p p' d l :
  total_quantity p (bump p' d l)
  = total_quantity p l
    + match find (fun s => Stock.productId s =? p') l with
      | Some _ => if p' =? p then d else 0
      | None => 0
      end.
Proof.
  unfold total_quantity.
  induction l as [|s l IH]; simpl; [lia|].
  destruct (Stock.productId s =? p') eqn:Hs.
  - apply Z.eqb_eq in Hs. simpl. rewrite Hs.
    destruct (p' =? p); simpl; lia.
  - simpl. destruct (Stock.productId s =? p); simpl; rewrite IH; lia.
Qed.

Lemma find_product_bump_some p p' d l :
  find (fun s => Stock.productId s =? p) l <> None ->
  find (fun s => Stock.productId s =? p) (bump p' d l) <> None.
Proof.
  intros H. pose proof (find_product_bump p p' d l) as Hb.
  destruct (find (fun s => Stock.productId s =? p) l); [|congruence].
  destruct (find (fun s => Stock.productId s =? p) (bump p' d l)); [discriminate|].
  discriminate Hb.
Qed.

Lemma total_quantity_reduced p items l :
  Forall (fun it => find (fun s => Stock.productId s =? ItemInput.productId it) l <> None)
         items ->
  total_quantity p (reduced_rows items l) = total_quantity p l - ordered p items.
Proof.
  unfold reduced_rows, bump_all, ordered. revert l.
  induction items as [|it items IH]; intros l H; simpl; [lia|].
  inversion H as [|x xs Hit Hrest]; subst.
  rewrite IH.
  - rewrite total_quantity_bump.
    destruct (find (fun s => Stock.productId s =? ItemInput.productId it) l);
      [|congruence].
    destruct (ItemInput.productId it =? p); simpl; lia.
  - revert Hrest. apply Forall_impl. intros a. apply find_product_bump_some.
Qed.

(** X7. After a successful createSalesOrder, getProductStock reports for
    every product the total it had before, less the quantities the order's
    items ask for that product, repeated items included. Stock ids are
    unique, as the primary key has it. *)
Theorem createSalesOrder_reduces_product_totals :
  forall (data : CreateSalesOrderData.t) (db db' : DB) (order : SalesOrder.t)
         (productId : Z),
    stock_ids_unique db ->
    SalesOrderService.createSalesOrder data db = (inr order, db') ->
    exists stocks_,
      ProductService.getProductStock productId db'
      = (inr (total_quantity productId (rows (stocks db))
              - ordered productId (CreateSalesOrderData.items data),
              stocks_), db').
Proof.
  intros data db db' order p Hpk Hr.
  rewrite getProductStock_total. eexists. f_equal. f_equal. f_equal.
  destruct (createSalesOrder_ok data db order db' Hpk Hr) as [start [mv [_ Hdb]]].
  rewrite Hdb. cbn [stocks touch set_stockMovements set_stocks rows].
  apply total_quantity_reduced.
  pose proof (createSalesOrder_checked data db order db' Hr) as Hc.
  revert Hc. apply Forall_impl. intros a [s [Hf _]]. now rewrite Hf.
Qed.

Lemma createSalesOrder_reduces_product_totals_witness :
  exists stocks_,
    ProductService.getProductStock 1 sample_sold = (inr (5 - 5, stocks_), sample_sold).
Proof.
  destruct (SalesOrderService.createSalesOrder sample_order sample) as [[e|order] db']
    eqn:E; [vm_compute in E; discriminate E|].
  assert (Hs : sample_sold = db') by (unfold sample_sold; now rewrite E).
  rewrite Hs.
  exact (createSalesOrder_reduces_product_totals sample_order sample db' order 1
           sample_ids_unique E).
Defined.

Lemma createSalesOrder_phases data db :
  SalesOrderService.createSalesOrder data db
  = bind (createSalesOrder_check data) (fun _ => createSalesOrder_transaction data) db.
Proof.
  unfold SalesOrderService.createSalesOrder, createSalesOrder_check,
    createSalesOrder_transaction. cbv zeta.
  destruct (List.length (CreateSalesOrderData.items data) =? 0)%nat; [reflexivity|].
  unfold bind.
  destruct (mapAll SalesOrderService.checkItem (CreateSalesOrderData.items data) db)
    as [[e|stockChecks] d]; [reflexivity|].
  destruct (0 <? _)%nat; reflexivity.
Qed.

(** X8. Run one after the other, createSalesOrder requests for items with
    pairwise distinct products never leave a Stock row below zero when none
    was, whether they return or throw (Stock ids being unique, as the
    primary key has it). createSalesOrder is its availability check followed
    by its transaction, and the transaction does not check again: of two
    orders of 3 units of the product of which [sample] holds 5, served one
    after the other, the second is refused; served so that the checks of
    both come before the transaction of either, both are accepted and the
    Stock row is left at -1. *)
Theorem createSalesOrder_distinct_products_stays_nonnegative :
  (forall (data : CreateSalesOrderData.t) (db : DB),
      stock_ids_unique db ->
      NoDup (map ItemInput.productId (CreateSalesOrderData.items data)) ->
      quantities_nonnegative db ->
      quantities_nonnegative (snd (SalesOrderService.createSalesOrder data db)))
  /\ (forall (data : CreateSalesOrderData.t) (db : DB),
         SalesOrderService.createSalesOrder data db
         = bind (createSalesOrder_check data)
                (fun _ => createSalesOrder_transaction data) db)
  /\ (exists first db1,
         SalesOrderService.createSalesOrder three_laptops sample = (inr first, db1)
         /\ SalesOrderService.createSalesOrder three_laptops db1
            = (inl (AppError
                      "Insufficient stock for items: Laptop (requested: 3, available: 2)"
                      400), db1))
  /\ (exists first second db',
         createSalesOrder_overlapped three_laptops three_laptops sample
         = (inr (first, second), db')
         /\ rows (stocks db') = [Stock.mk 1 1 1 1 (-1)]
         /\ ~ quantities_nonnegative db').
Proof.
  split; [|split; [|split]].
  - intros data db. apply createSalesOrder_distinct_products_nonnegative.
  - exact createSalesOrder_phases.
  - destruct (SalesOrderService.createSalesOrder three_laptops sample)
      as [[e|first] db1] eqn:E; [vm_compute in E; discriminate E|].
    exists first, db1. split; [reflexivity|].
    vm_compute in E. injection E as <- <-. vm_compute. reflexivity.
  - destruct (createSalesOrder_overlapped three_laptops three_laptops sample)
      as [[e|[first second]] db'] eqn:E; [vm_compute in E; discriminate E|].
    exists first, second, db'. split; [reflexivity|].
    vm_compute in E. injection E as <- <- <-.
    split; [reflexivity|].
    unfold quantities_nonnegative. cbn [stocks rows]. intros H.
    inversion H as [|x l Hx Hl]; subst. simpl in Hx. lia.
Qed.

Lemma sample_two_stocks_rows :
  rows (stocks sample_two_stocks) = [Stock.mk 1 1 1 1 5; Stock.mk 2 2 1 2 4].
Proof. reflexivity. Defined.

Lemma createSalesOrder_distinct_products_stays_nonnegative_witness :
  rows (stocks (snd (SalesOrderService.createSalesOrder two_product_order
                       sample_two_stocks)))
  = [Stock.mk 1 1 1 1 0; Stock.mk 2 2 1 2 0]
  /\ quantities_nonnegative
       (snd (SalesOrderService.createSalesOrder two_product_order sample_two_stocks)).
Proof.
  split; [reflexivity|].
  apply (proj1 createSalesOrder_distinct_products_stays_nonnegative
           two_product_order sample_two_stocks).
  - unfold stock_ids_unique. rewrite sample_two_stocks_rows. simpl.
    repeat constructor.
    + intros [H|[]]. discriminate H.
    + intros [].
  - simpl. repeat constructor.
    + intros [H|[]]. discriminate H.
    + intros [].
  - unfold quantities_nonnegative. rewrite sample_two_stocks_rows.
    repeat constructor; simpl; lia.
Defined.

(** X9. updateSalesOrder accepts any status for an order that is not
    'completed', a cancelled one included: setting a cancelled order back
    to 'open' leaves the Stock table as it is, and cancelSalesOrder then
    succeeds once more and adds the order's quantities to the stock a second
    time. Stock ids are unique, as the primary key has it. *)
Theorem reopened_order_is_restored_again :
  forall (id : Z) (db : DB) (order : SalesOrder.t),
    stock_ids_unique db ->
    lookup id (salesOrders db) = Some order ->
    SalesOrder.status order = "cancelled" ->
    exists reopened db1 cancelled db2,
      SalesOrderService.updateSalesOrder id (Some "open") db = (inr reopened, db1)
      /\ SalesOrder.status reopened = "open"
      /\ stocks db1 = stocks db
      /\ SalesOrderService.cancelSalesOrder id db1 = (inr cancelled, db2)
      /\ rows (stocks db2) = restored_rows (SalesOrder.items order) (rows (stocks db)).
Proof.
  intros id db order Hpk Hl Hst.
  assert (Hu : SalesOrderService.updateSalesOrder id (Some "open") db
               = (inr (SalesOrder.set_status "open" order),
                  set_salesOrders
                    (update_where_id id (SalesOrder.set_status "open") (salesOrders db))
                    (salesOrderItemSeq db) db)).
  { unfold SalesOrderService.updateSalesOrder, bind, prisma.salesOrder.findUnique, query,
      prisma.salesOrder.update.
    rewrite Hl, Hst. cbn [String.eqb Ascii.eqb Bool.eqb]. cbv beta.
    rewrite Hl. reflexivity. }
  set (db1 := set_salesOrders
                (update_where_id id (SalesOrder.set_status "open") (salesOrders db))
                (salesOrderItemSeq db) db) in *.
  assert (Hl1 : lookup id (salesOrders db1) = Some (SalesOrder.set_status "open" order)).
  { subst db1. cbn [salesOrders set_salesOrders].
    apply lookup_update; [intros x; reflexivity | exact Hl]. }
  assert (Hpk1 : stock_ids_unique db1) by exact Hpk.
  destruct (cancelSalesOrder_open id _ db1 Hpk1 Hl1) as [mv Hc];
    [discriminate | discriminate |].
  do 4 eexists. split; [exact Hu|]. split; [reflexivity|]. split; [reflexivity|].
  split; [exact Hc|]. reflexivity.
Qed.

Lemma sample_cancelled_ids_unique : stock_ids_unique sample_cancelled.
Proof. unfold stock_ids_unique. vm_compute. repeat constructor. intros []. Defined.

Lemma reopened_order_is_restored_again_witness :
  exists reopened db1 cancelled db2,
    SalesOrderService.updateSalesOrder 1 (Some "open") sample_cancelled
    = (inr reopened, db1)
    /\ SalesOrder.status reopened = "open"
    /\ stocks db1 = stocks sample_cancelled
    /\ SalesOrderService.cancelSalesOrder 1 db1 = (inr cancelled, db2)
    /\ rows (stocks db2) = [Stock.mk 1 1 1 1 10].
Proof.
  exact (reopened_order_is_restored_again 1 sample_cancelled
           (SalesOrder.mk 1 7 "cancelled" [OrderItem.mk 1 1 3 one; OrderItem.mk 2 1 2 one])
           sample_cancelled_ids_unique eq_refl eq_refl).
Defined.

(** ** Purchase orders: create, update, receive, delete *)

Lemma findManyIn_length (l : list Product.t) (ids : list Z) :
  NoDup (map Product.id l) ->
  List.length (filter (fun p => existsb (fun i => Product.id p =? i) ids) l)
  = List.length ids
  <-> NoDup ids /\ Forall (fun i => find (fun p => Product.id p =? i) l <> None) ids.
Proof.
  intros Hpk.
  set (F := filter (fun p => existsb (fun i => Product.id p =? i) ids) l).
  assert (HndF : NoDup (map Product.id F)) by (apply NoDup_map_filter; exact Hpk).
  assert (Hincl : incl (map Product.id F) ids).
  { intros i Hi. apply in_map_iff in Hi. destruct Hi as [p [<- Hp]].
    apply filter_In in Hp. destruct Hp as [_ Hp].
    apply existsb_exists in Hp. destruct Hp as [j [Hj Hpj]].
    apply Z.eqb_eq in Hpj. now rewrite Hpj. }
  assert (Hlen : List.length (map Product.id F) = List.length F) by apply length_map.
  split.
  - intros Heq.
    assert (Hle : (List.length ids <= List.length (map Product.id F))%nat)
      by (rewrite Hlen, Heq; apply Nat.le_refl).
    split; [exact (@NoDup_incl_NoDup _ _ _ HndF Hle Hincl)|].
    apply Forall_forall. intros i Hi.
    apply (@NoDup_length_incl _ _ _ HndF Hle Hincl) in Hi.
    apply in_map_iff in Hi. destruct Hi as [p [<- Hp]].
    apply filter_In in Hp. destruct Hp as [Hp _].
    intros Hnone. pose proof (find_none _ _ Hnone p Hp) as Hf.
    cbv beta in Hf. rewrite Z.eqb_refl in Hf. discriminate.
  - intros [Hnd Hall]. rewrite <- Hlen. apply Nat.le_antisymm.
    + now apply NoDup_incl_length.
    + apply NoDup_incl_length; [exact Hnd|].
      intros i Hi. rewrite Forall_forall in Hall. specialize (Hall i Hi).
      destruct (find (fun p => Product.id p =? i) l) as [p|] eqn:Hf; [|congruence].
      apply find_some in Hf. destruct Hf as [Hp Hpi]. apply Z.eqb_eq in Hpi.
      apply in_map_iff. exists p. split; [exact Hpi|].
      apply filter_In. split; [exact Hp|].
      apply existsb_exists. exists i. split; [exact Hi | now apply Z.eqb_eq].
Qed.

Lemma createPurchaseOrder_checks supplierId items db supplier :
  items <> [] ->
  lookup supplierId (suppliers db) = Some supplier ->
  PurchaseOrderService.createPurchaseOrder supplierId items db
  = if negb (Nat.eqb
               (List.length
                  (filter (fun p => existsb (fun i => Product.id p =? i)
                                            (map ItemInput.productId items))
                          (rows (products db))))
               (List.length (map ItemInput.productId items)))
    then (inl (AppError "One or more products not found" 400), db)
    else prisma.purchaseOrder.create supplierId "open" items db.
Proof.
  intros Hne Hs. unfold PurchaseOrderService.createPurchaseOrder.
  destruct items as [|it items]; [congruence|].
  cbn [List.length Nat.eqb].
  unfold bind at 1, prisma.supplier.findUnique, query. rewrite Hs.
  unfold bind, prisma.product.findManyIn, query.
  destruct (negb _); reflexivity.
Qed.

Lemma createPurchaseOrder_ok supplierId items db order db' :
  PurchaseOrderService.createPurchaseOrder supplierId items db = (inr order, db') ->
  items <> []
  /\ exists start,
      order = PurchaseOrder.mk (next_id (seq (purchaseOrders db)) (rows (purchaseOrders db)))
                supplierId "open" (prisma.number_items start items)
      /\ db' = set_purchaseOrders_items
                 (mkTable (rows (purchaseOrders db) ++ [order]) (PurchaseOrder.id order))
                 (start + Z.of_nat (List.length items)) db.
Proof.
  intros H.
  destruct items as [|it items]; [discriminate H|].
  split; [discriminate|].
  destruct (lookup supplierId (suppliers db)) as [supplier|] eqn:Hs.
  - rewrite (createPurchaseOrder_checks _ _ _ supplier) in H by (discriminate || exact Hs).
    destruct (negb _); [discriminate H|].
    unfold prisma.purchaseOrder.create in H.
    destruct (negb (_ && _)); [discriminate H|].
    unfold insert in H. cbv zeta in H. inversion H; subst. clear H.
    eexists. split; reflexivity.
  - unfold PurchaseOrderService.createPurchaseOrder in H.
    cbn [List.length Nat.eqb] in H.
    unfold bind at 1, prisma.supplier.findUnique, query in H.
    rewrite Hs in H. discriminate H.
Qed.

Lemma purchaseOrder_created_lookup db order start :
  PurchaseOrder.id order = next_id (seq (purchaseOrders db)) (rows (purchaseOrders db)) ->
  lookup (PurchaseOrder.id order)
         (purchaseOrders
            (set_purchaseOrders_items
               (mkTable (rows (purchaseOrders db) ++ [order]) (PurchaseOrder.id order))
               start db))
  = Some order.
Proof.
  intros Hid. cbn [purchaseOrders set_purchaseOrders_items].
  apply (lookup_appended (rows (purchaseOrders db)) order).
  change (id_of order) with (PurchaseOrder.id order). rewrite Hid.
  apply next_id_fresh.
Qed.

Lemma purchaseOrder_create_ok supplierId status items db supplier :
  lookup supplierId (suppliers db) = Some supplier ->
  products_exist db items ->
  exists order db',
    prisma.purchaseOrder.create supplierId status items db = (inr order, db').
Proof.
  intros Hs Hp. unfold prisma.purchaseOrder.create.
  rewrite (forallb_exists_id ItemInput.productId items db Hp).
  rewrite exists_id_lookup, Hs. cbn [andb negb].
  unfold insert. cbv zeta. do 2 eexists. reflexivity.
Qed.

Lemma products_found db items :
  Forall (fun i => find (fun p => Product.id p =? i) (rows (products db)) <> None)
         (map ItemInput.productId items)
  <-> products_exist db items.
Proof. unfold products_exist. rewrite Forall_map. reflexivity. Qed.

(** X10. What createPurchaseOrder does with a request: without items it
    throws a 400, for an unknown supplier a 404; otherwise it throws the 400
    'One or more products not found' exactly when the items name a product
    that does not exist or name the same product twice, and when they name
    existing products, each once, it stores an 'open' order with the
    request's supplier, products and quantities, which getPurchaseOrderById
    then finds, and leaves the Stock table and the movement journal as they
    are. Product ids are unique, as the primary key has it. *)
Theorem createPurchaseOrder_outcome :
  forall (supplierId : Z) (items : list ItemInput.t) (db : DB),
    product_ids_unique db ->
    let r := PurchaseOrderService.createPurchaseOrder supplierId items db in
    (items = [] ->
     r = (inl (AppError "Purchase order must have at least one item" 400), db))
    /\ (items <> [] -> lookup supplierId (suppliers db) = None ->
        r = (inl (AppError "Supplier not found" 404), db))
    /\ (items <> [] -> lookup supplierId (suppliers db) <> None ->
        (r = (inl (AppError "One or more products not found" 400), db)
         <-> ~ (NoDup (map ItemInput.productId items) /\ products_exist db items)))
    /\ (items <> [] -> lookup supplierId (suppliers db) <> None ->
        NoDup (map ItemInput.productId items) -> products_exist db items ->
        exists order db',
          r = (inr order, db')
          /\ PurchaseOrder.status order = "open"
          /\ PurchaseOrder.supplierId order = supplierId
          /\ map OrderItem.productId (PurchaseOrder.items order)
             = map ItemInput.productId items
          /\ map OrderItem.quantity (PurchaseOrder.items order)
             = map ItemInput.quantity items
          /\ stocks db' = stocks db
          /\ stockMovements db' = stockMovements db
          /\ PurchaseOrderService.getPurchaseOrderById (PurchaseOrder.id order) db'
             = (inr order, db')).
Proof.
  intros supplierId items db Hpk r. subst r.
  assert (Hsucc : forall supplier,
             items <> [] -> lookup supplierId (suppliers db) = Some supplier ->
             NoDup (map ItemInput.productId items) -> products_exist db items ->
             exists order db',
               PurchaseOrderService.createPurchaseOrder supplierId items db
               = (inr order, db')).
  { intros supplier Hne Hs Hnd Hp.
    rewrite (createPurchaseOrder_checks _ _ _ supplier Hne Hs).
    replace (Nat.eqb _ _) with true.
    - cbn [negb]. now apply (purchaseOrder_create_ok _ _ _ _ supplier).
    - symmetry. apply Nat.eqb_eq. apply findManyIn_length; [exact Hpk|].
      split; [exact Hnd | now apply products_found]. }
  split; [|split; [|split]].
  - intros ->. reflexivity.
  - intros Hne Hs. destruct items as [|it items]; [congruence|].
    unfold PurchaseOrderService.createPurchaseOrder. cbn [List.length Nat.eqb].
    unfold bind, prisma.supplier.findUnique, query. now rewrite Hs.
  - intros Hne Hs.
    destruct (lookup supplierId (suppliers db)) as [supplier|] eqn:Hl; [|congruence].
    split.
    + intros Hr [Hnd Hp].
      destruct (Hsucc supplier Hne eq_refl Hnd Hp) as [order [db' Hok]].
      rewrite Hok in Hr. discriminate Hr.
    + intros Hn. rewrite (createPurchaseOrder_checks _ _ _ supplier Hne Hl).
      destruct (Nat.eqb _ _) eqn:He; [|reflexivity].
      exfalso. apply Hn. apply Nat.eqb_eq in He.
      apply findManyIn_length in He; [|exact Hpk].
      destruct He as [Hnd Hf]. split; [exact Hnd | now apply products_found].
  - intros Hne Hs Hnd Hp.
    destruct (lookup supplierId (suppliers db)) as [supplier|] eqn:Hl; [|congruence].
    destruct (Hsucc supplier Hne eq_refl Hnd Hp) as [order [db' Hok]].
    exists order, db'. split; [exact Hok|].
    destruct (createPurchaseOrder_ok _ _ _ _ _ Hok) as [_ [start [Ho Hdb]]].
    destruct (number_items_fields start items) as [Hpi Hqi].
    assert (Hid : PurchaseOrder.id order
                  = next_id (seq (purchaseOrders db)) (rows (purchaseOrders db)))
      by (rewrite Ho; reflexivity).
    split; [now rewrite Ho|]. split; [now rewrite Ho|].
    split; [now rewrite Ho|]. split; [now rewrite Ho|].
    split; [now rewrite Hdb|]. split; [now rewrite Hdb|].
    assert (Hlk : lookup (PurchaseOrder.id order) (purchaseOrders db') = Some order)
      by (rewrite Hdb; exact (purchaseOrder_created_lookup db order _ Hid)).
    unfold PurchaseOrderService.getPurchaseOrderById, bind,
      prisma.purchaseOrder.findUnique, query.
    now rewrite Hlk.
Qed.

Lemma sample_product_ids_unique : product_ids_unique sample.
Proof. unfold product_ids_unique. simpl. repeat constructor. intros []. Defined.

Lemma createPurchaseOrder_outcome_witness :
  PurchaseOrderService.createPurchaseOrder 1 [ItemInput.mk 1 2 one; ItemInput.mk 1 3 one]
    sample
  = (inl (AppError "One or more products not found" 400), sample).
Proof.
  refine (proj2 (proj1 (proj2 (proj2 (createPurchaseOrder_outcome
                                        1 [ItemInput.mk 1 2 one; ItemInput.mk 1 3 one]
                                        sample sample_product_ids_unique))) _ _) _).
  - discriminate.
  - discriminate.
  - intros [Hnd _]. simpl in Hnd. inversion Hnd as [|x l Hx Hl]; subst.
    apply Hx. left. reflexivity.
Defined.

Lemma received_frozen id db order :
  lookup id (purchaseOrders db) = Some order ->
  PurchaseOrder.status order = "received" ->
  PurchaseOrderService.receivePurchaseOrder id db
  = (inl (AppError "Purchase order already received" 400), db)
  /\ (forall status,
         PurchaseOrderService.updatePurchaseOrder id status db
         = (inl (AppError "Cannot update a received purchase order" 400), db))
  /\ PurchaseOrderService.deletePurchaseOrder id db
     = (inl (AppError "Cannot delete a received purchase order" 400), db).
Proof.
  intros Hl Hst.
  unfold PurchaseOrderService.receivePurchaseOrder,
    PurchaseOrderService.updatePurchaseOrder,
    PurchaseOrderService.deletePurchaseOrder, transaction, bind,
    prisma.purchaseOrder.findUnique, query.
  rewrite Hl, Hst. repeat split.
Qed.

(** X11. Once receivePurchaseOrder has succeeded for an order, the order is
    final: receiving it again, updating it (whatever the new status) and
    deleting it each throw a 400 AppError and leave the database as it is.
    Stock ids are unique, as the primary key has it. *)
Theorem received_order_is_final :
  forall (id : Z) (db : DB) (order : PurchaseOrder.t),
    stock_ids_unique db ->
    lookup id (purchaseOrders db) = Some order ->
    PurchaseOrder.status order <> "received" ->
    exists received db',
      PurchaseOrderService.receivePurchaseOrder id db = (inr received, db')
      /\ PurchaseOrderService.receivePurchaseOrder id db'
         = (inl (AppError "Purchase order already received" 400), db')
      /\ (forall status,
             PurchaseOrderService.updatePurchaseOrder id status db'
             = (inl (AppError "Cannot update a received purchase order" 400), db'))
      /\ PurchaseOrderService.deletePurchaseOrder id db'
         = (inl (AppError "Cannot delete a received purchase order" 400), db').
Proof.
  intros id db order Hpk Hl Hst.
  do 2 eexists. split; [exact (receivePurchaseOrder_open id order db Hpk Hl Hst)|].
  apply (received_frozen id _ (PurchaseOrder.set_status "received" order));
    [|reflexivity].
  cbn [purchaseOrders set_purchaseOrders].
  apply lookup_update; [intros x; reflexivity | exact Hl].
Qed.

Lemma received_order_is_final_witness :
  exists received db',
    PurchaseOrderService.receivePurchaseOrder 1 sample = (inr received, db')
    /\ PurchaseOrderService.receivePurchaseOrder 1 db'
       = (inl (AppError "Purchase order already received" 400), db')
    /\ (forall status,
           PurchaseOrderService.updatePurchaseOrder 1 status db'
           = (inl (AppError "Cannot update a received purchase order" 400), db'))
    /\ PurchaseOrderService.deletePurchaseOrder 1 db'
       = (inl (AppError "Cannot delete a received purchase order" 400), db').
Proof.
  apply (received_order_is_final 1 sample
           (PurchaseOrder.mk 1 1 "open" [OrderItem.mk 1 1 4 one]) sample_ids_unique).
  - reflexivity.
  - discriminate.
Defined.

(** X12. updatePurchaseOrder accepts the status 'received' for an order that
    is not received: the order is then marked 'received' with the Stock
    table and the movement journal untouched, and receivePurchaseOrder
    refuses it with the 400 'Purchase order already received', so its items
    never reach the stock. *)
Theorem order_marked_received_gets_no_stock :
  forall (id : Z) (db : DB) (order : PurchaseOrder.t),
    lookup id (purchaseOrders db) = Some order ->
    PurchaseOrder.status order <> "received" ->
    exists updated db1,
      PurchaseOrderService.updatePurchaseOrder id (Some "received") db
      = (inr updated, db1)
      /\ PurchaseOrder.status updated = "received"
      /\ lookup id (purchaseOrders db1) = Some updated
      /\ stocks db1 = stocks db
      /\ stockMovements db1 = stockMovements db
      /\ PurchaseOrderService.receivePurchaseOrder id db1
         = (inl (AppError "Purchase order already received" 400), db1).
Proof.
  intros id db order Hl Hst. apply String.eqb_neq in Hst.
  assert (Hu : PurchaseOrderService.updatePurchaseOrder id (Some "received") db
               = (inr (PurchaseOrder.set_status "received" order),
                  set_purchaseOrders
                    (update_where_id id (PurchaseOrder.set_status "received")
                                     (purchaseOrders db)) db)).
  { unfold PurchaseOrderService.updatePurchaseOrder, bind,
      prisma.purchaseOrder.findUnique, query, prisma.purchaseOrder.update.
    rewrite Hl, Hst. cbv beta. rewrite Hl. reflexivity. }
  assert (Hl1 : lookup id (purchaseOrders
                             (set_purchaseOrders
                                (update_where_id id (PurchaseOrder.set_status "received")
                                                 (purchaseOrders db)) db))
                = Some (PurchaseOrder.set_status "received" order)).
  { cbn [purchaseOrders set_purchaseOrders].
    apply lookup_update; [intros x; reflexivity | exact Hl]. }
  do 2 eexists. split; [exact Hu|]. split; [reflexivity|]. split; [exact Hl1|].
  split; [reflexivity|]. split; [reflexivity|].
  exact (proj1 (received_frozen id _ _ Hl1 eq_refl)).
Qed.

Lemma order_marked_received_gets_no_stock_witness :
  exists updated db1,
    PurchaseOrderService.updatePurchaseOrder 1 (Some "received") sample
    = (inr updated, db1)
    /\ PurchaseOrder.status updated = "received"
    /\ lookup 1 (purchaseOrders db1) = Some updated
    /\ stocks db1 = stocks sample
    /\ stockMovements db1 = stockMovements sample
    /\ PurchaseOrderService.receivePurchaseOrder 1 db1
       = (inl (AppError "Purchase order already received" 400), db1).
Proof.
  apply (order_marked_received_gets_no_stock 1 sample
           (PurchaseOrder.mk 1 1 "open" [OrderItem.mk 1 1 4 one])).
  - reflexivity.
  - discriminate.
Defined.

Lemma lookup_deleted {A : Type} `{HasId A} (i : Z) (t : Table A) :
  lookup i (delete_where_id i t) = None.
Proof.
  unfold lookup, delete_where_id. cbn [rows].
  induction (rows t) as [|r l IH]; simpl; [reflexivity|].
  destruct (id_of r =? i) eqn:Hr; simpl; [exact IH|].
  now rewrite Hr.
Qed.

Lemma lookup_deleted_other {A : Type} `{HasId A} (i j : Z) (t : Table A) :
  j <> i -> lookup j (delete_where_id i t) = lookup j t.
Proof. intros Hji. unfold lookup, delete_where_id. cbn [rows]. now apply find_filter_other. Qed.

(** X13. deletePurchaseOrder removes an order only when the order has no
    items: for an order with items that is not received the DELETE hits the
    foreign key of its items and the call throws a database error, which
    errorHandler answers with 400 'Database operation failed', the order
    staying where it is; this is the case of every order createPurchaseOrder
    has stored. An order without items that is not received is deleted. *)
Theorem deletePurchaseOrder_keeps_orders_with_items :
  (forall (id : Z) (db : DB) (order : PurchaseOrder.t),
      lookup id (purchaseOrders db) = Some order ->
      PurchaseOrder.items order <> [] ->
      exists e,
        PurchaseOrderService.deletePurchaseOrder id db = (inl e, db)
        /\ Response.statusCode (errorHandler e) = 400
        /\ (PurchaseOrder.status order <> "received" ->
            e = P2003
            /\ errorHandler e = Response.mk 400 "error" "Database operation failed"))
  /\ (forall (supplierId : Z) (items : list ItemInput.t) (db db' : DB)
             (order : PurchaseOrder.t),
         PurchaseOrderService.createPurchaseOrder supplierId items db = (inr order, db') ->
         PurchaseOrderService.deletePurchaseOrder (PurchaseOrder.id order) db'
         = (inl P2003, db'))
  /\ (forall (id : Z) (db : DB) (order : PurchaseOrder.t),
         lookup id (purchaseOrders db) = Some order ->
         PurchaseOrder.status order <> "received" ->
         PurchaseOrder.items order = [] ->
         exists db',
           PurchaseOrderService.deletePurchaseOrder id db = (inr tt, db')
           /\ lookup id (purchaseOrders db') = None
           /\ forall j, j <> id ->
                        lookup j (purchaseOrders db') = lookup j (purchaseOrders db)).
Proof.
  assert (Hdel : forall id db order,
             lookup id (purchaseOrders db) = Some order ->
             PurchaseOrder.status order <> "received" ->
             PurchaseOrder.items order <> [] ->
             PurchaseOrderService.deletePurchaseOrder id db = (inl P2003, db)).
  { intros id db order Hl Hst Hit. apply String.eqb_neq in Hst.
    unfold PurchaseOrderService.deletePurchaseOrder, bind,
      prisma.purchaseOrder.findUnique, query, prisma.purchaseOrder.delete.
    rewrite Hl, Hst. cbv beta. rewrite Hl.
    destruct (PurchaseOrder.items order); [congruence | reflexivity]. }
  split; [|split].
  - intros id db order Hl Hit.
    destruct (String.eqb (PurchaseOrder.status order) "received") eqn:Hst.
    + apply String.eqb_eq in Hst.
      destruct (received_frozen id db order Hl Hst) as [_ [_ Hd]].
      eexists. split; [exact Hd|]. split; [reflexivity|].
      intros Hn. congruence.
    + apply String.eqb_neq in Hst. exists P2003.
      split; [exact (Hdel id db order Hl Hst Hit)|]. split; [reflexivity|].
      intros _. split; reflexivity.
  - intros supplierId items db db' order Hc.
    destruct (createPurchaseOrder_ok _ _ _ _ _ Hc) as [Hne [start [Ho Hdb]]].
    assert (Hid : PurchaseOrder.id order
                  = next_id (seq (purchaseOrders db)) (rows (purchaseOrders db)))
      by (rewrite Ho; reflexivity).
    apply (Hdel _ _ order).
    + rewrite Hdb. exact (purchaseOrder_created_lookup db order _ Hid).
    + rewrite Ho. discriminate.
    + rewrite Ho. cbn [PurchaseOrder.items].
      destruct items; [congruence | discriminate].
  - intros id db order Hl Hst Hit. apply String.eqb_neq in Hst.
    eexists. split; [|split].
    + unfold PurchaseOrderService.deletePurchaseOrder, bind,
        prisma.purchaseOrder.findUnique, query, prisma.purchaseOrder.delete.
      rewrite Hl, Hst. cbv beta. rewrite Hl, Hit. reflexivity.
    + cbn [purchaseOrders set_purchaseOrders]. apply lookup_deleted.
    + intros j Hj. cbn [purchaseOrders set_purchaseOrders].
      now apply lookup_deleted_other.
Qed.

Lemma deletePurchaseOrder_keeps_orders_with_items_witness :
  exists e,
    PurchaseOrderService.deletePurchaseOrder 1 sample = (inl e, sample)
    /\ Response.statusCode (errorHandler e) = 400
    /\ (PurchaseOrder.status (PurchaseOrder.mk 1 1 "open" [OrderItem.mk 1 1 4 one])
        <> "received" ->
        e = P2003
        /\ errorHandler e = Response.mk 400 "error" "Database operation failed").
Proof.
  apply (proj1 deletePurchaseOrder_keeps_orders_with_items 1 sample
           (PurchaseOrder.mk 1 1 "open" [OrderItem.mk 1 1 4 one])).
  - reflexivity.
  - discriminate.
Defined.

(** ** Products: update and delete *)

Lemma updateProduct_ok id data db p db' :
  ProductService.updateProduct id data db = (inr p, db') ->
  exists old,
    lookup id (products db) = Some old
    /\ p = ProductUpdate.apply data old
    /\ db' = set_products (update_where_id id (ProductUpdate.apply data) (products db)) db.
Proof.
  unfold ProductService.updateProduct, ProductService.validate, bind,
    prisma.product.findUnique, prisma.category.findUnique,
    prisma.supplier.findUnique, prisma.warehouse.findUnique,
    prisma.product.update, query, throw, ret.
  split_cases; intros Hr; try discriminate Hr.
  all: inversion Hr; subst; clear Hr.
  all: repeat match goal with
         | H : Some _ = Some _ |- _ => inversion H; subst; clear H
         end.
  all: eexists; repeat split; reflexivity.
Qed.

(** X14. A successful updateProduct changes one Product row and nothing
    else: the row keeps its id, sku and barcode and takes the fields the
    request carries, every other product is as before, and the Stock table
    is untouched. *)
Theorem updateProduct_keeps_identity :
  forall (id : Z) (data : ProductUpdate.t) (db db' : DB) (p : Product.t),
    ProductService.updateProduct id data db = (inr p, db') ->
    exists old,
      lookup id (products db) = Some old
      /\ p = ProductUpdate.apply data old
      /\ lookup id (products db') = Some p
      /\ Product.id p = id
      /\ Product.sku p = Product.sku old
      /\ Product.barcode p = Product.barcode old
      /\ (forall j, j <> id -> lookup j (products db') = lookup j (products db))
      /\ stocks db' = stocks db.
Proof.
  intros id data db db' p Hr.
  destruct (updateProduct_ok id data db p db' Hr) as [old [Hl [Hp Hdb]]].
  exists old. split; [exact Hl|]. split; [exact Hp|].
  assert (Hid : Product.id old = id).
  { apply find_some in Hl. destruct Hl as [_ Hl]. now apply Z.eqb_eq in Hl. }
  split; [|split; [|split; [|split; [|split]]]].
  - rewrite Hdb, Hp. cbn [products set_products].
    apply lookup_update; [intros x; reflexivity | exact Hl].
  - now rewrite Hp.
  - now rewrite Hp.
  - now rewrite Hp.
  - intros j Hj. rewrite Hdb. cbn [products set_products].
    apply lookup_update_other; [intros x; reflexivity | exact Hj].
  - now rewrite Hdb.
Qed.

Lemma updateProduct_keeps_identity_witness :
  exists old,
    lookup 1 (products sample) = Some old
    /\ Product.mk 1 "Notebook" "LAP-001" "100001" 1 1 1 one one
       = ProductUpdate.apply (ProductUpdate.mk (Some "Notebook") None None None None None) old
    /\ lookup 1 (products (snd (ProductService.updateProduct 1
                                  (ProductUpdate.mk (Some "Notebook") None None None None None)
                                  sample)))
       = Some (Product.mk 1 "Notebook" "LAP-001" "100001" 1 1 1 one one)
    /\ Product.id (Product.mk 1 "Notebook" "LAP-001" "100001" 1 1 1 one one) = 1
    /\ Product.sku (Product.mk 1 "Notebook" "LAP-001" "100001" 1 1 1 one one)
       = Product.sku old
    /\ Product.barcode (Product.mk 1 "Notebook" "LAP-001" "100001" 1 1 1 one one)
       = Product.barcode old
    /\ (forall j, j <> 1 ->
                  lookup j (products (snd (ProductService.updateProduct 1
                                             (ProductUpdate.mk (Some "Notebook") None None
                                                               None None None)
                                             sample)))
                  = lookup j (products sample))
    /\ stocks (snd (ProductService.updateProduct 1
                      (ProductUpdate.mk (Some "Notebook") None None None None None)
                      sample))
       = stocks sample.
Proof.
  exact (updateProduct_keeps_identity 1
           (ProductUpdate.mk (Some "Notebook") None None None None None)
           sample _ _ eq_refl).
Defined.

(** X15. updateProduct checks a reference only when the field is truthy: a
    categoryId that names no category is refused with the 400 'Category not
    found' when it is not 0, but the id 0 passes the check, reaches the
    UPDATE and comes back as a foreign-key error of the database, which
    errorHandler answers with 400 'Database operation failed'. Nothing is
    written in either case. *)
Theorem updateProduct_checks_truthy_references_only :
  forall (id categoryId : Z) (db : DB) (old : Product.t),
    lookup id (products db) = Some old ->
    lookup categoryId (categories db) = None ->
    ProductService.updateProduct id (set_category categoryId) db
    = (inl (if categoryId =? 0 then P2003 else AppError "Category not found" 400), db)
    /\ errorHandler P2003 = Response.mk 400 "error" "Database operation failed".
Proof.
  intros id categoryId db old Hl Hc. split; [|reflexivity].
  unfold ProductService.updateProduct, ProductService.validate, bind,
    prisma.product.findUnique, prisma.category.findUnique, prisma.product.update,
    query, throw, ret, set_category.
  rewrite Hl. cbn [ProductUpdate.categoryId ProductUpdate.supplierId
                     ProductUpdate.warehouseId].
  destruct (categoryId =? 0) eqn:Hz.
  - rewrite Hl. cbn [ProductUpdate.apply ProductUpdate.or_else Product.categoryId
                       ProductUpdate.categoryId].
    rewrite exists_id_lookup, Hc. reflexivity.
  - rewrite Hc. reflexivity.
Qed.

Lemma updateProduct_checks_truthy_references_only_witness :
  ProductService.updateProduct 1 (set_category 0) sample = (inl P2003, sample)
  /\ errorHandler P2003 = Response.mk 400 "error" "Database operation failed".
Proof.
  exact (updateProduct_checks_truthy_references_only 1 0 sample
           (Product.mk 1 "Laptop" "LAP-001" "100001" 1 1 1 one one) eq_refl eq_refl).
Defined.

Lemma deleteProduct_found id db p :
  lookup id (products db) = Some p ->
  ProductService.deleteProduct id db
  = if product_in_use id db
    then (inl (AppError "Cannot delete product with existing stock or order history" 400),
          db)
    else prisma.product.delete id db.
Proof.
  intros Hl.
  unfold ProductService.deleteProduct, bind, prisma.product.findUnique, query.
  rewrite Hl. unfold product_in_use.
  destruct (_ || _ || _); reflexivity.
Qed.

(** X16. deleteProduct answers 404 for an unknown id; it refuses, with the
    400 'Cannot delete product with existing stock or order history' and
    without writing, a product that has a Stock row, a purchase order item
    or a sales order item; any other product it deletes: getProductById then
    answers 404 and every other product is as before. *)
Theorem deleteProduct_outcome :
  forall (id : Z) (db : DB),
    (lookup id (products db) = None ->
     ProductService.deleteProduct id db = (inl (AppError "Product not found" 404), db))
    /\ (lookup id (products db) <> None -> product_in_use id db = true ->
        ProductService.deleteProduct id db
        = (inl (AppError "Cannot delete product with existing stock or order history" 400),
           db))
    /\ (lookup id (products db) <> None -> product_in_use id db = false ->
        exists db',
          ProductService.deleteProduct id db = (inr tt, db')
          /\ ProductService.getProductById id db'
             = (inl (AppError "Product not found" 404), db')
          /\ (forall j, j <> id -> lookup j (products db') = lookup j (products db))
          /\ stocks db' = stocks db).
Proof.
  intros id db.
  split; [|split].
  - intros Hl.
    unfold ProductService.deleteProduct, bind, prisma.product.findUnique, query.
    now rewrite Hl.
  - intros Hl Hu. destruct (lookup id (products db)) as [p|] eqn:Hp; [|congruence].
    rewrite (deleteProduct_found id db p Hp). now rewrite Hu.
  - intros Hl Hu. destruct (lookup id (products db)) as [p|] eqn:Hp; [|congruence].
    rewrite (deleteProduct_found id db p Hp), Hu.
    unfold prisma.product.delete. rewrite Hp.
    fold (product_in_use id db). rewrite Hu.
    eexists. split; [reflexivity|].
    unfold ProductService.getProductById, bind, prisma.product.findUnique, query.
    cbn [products set_products stocks].
    rewrite lookup_deleted. split; [reflexivity|]. split; [|reflexivity].
    intros j Hj. now apply lookup_deleted_other.
Qed.

Lemma deleteProduct_outcome_witness :
  ProductService.deleteProduct 1 sample
  = (inl (AppError "Cannot delete product with existing stock or order history" 400),
     sample).
Proof.
  apply (proj1 (proj2 (deleteProduct_outcome 1 sample))).
  - discriminate.
  - reflexivity.
Defined.

(** ** Suppliers *)

Lemma find_email_none email db :
  find (fun r => (Supplier.email r =? email)%string) (rows (suppliers db)) = None
  <-> ~ email_taken email db.
Proof.
  split.
  - intros Hf [s [Hin He]]. pose proof (find_none _ _ Hf s Hin) as Hn.
    cbv beta in Hn. apply String.eqb_neq in Hn. contradiction.
  - intros Hn. destruct (find _ _) as [s|] eqn:Hf; [|reflexivity].
    exfalso. apply Hn. apply find_some in Hf. destruct Hf as [Hin He].
    apply String.eqb_eq in He. now exists s.
Qed.

Lemma existsb_email_false email db :
  ~ email_taken email db ->
  existsb (fun r => (Supplier.email r =? email)%string) (rows (suppliers db)) = false.
Proof.
  intros Hn. destruct (existsb _ _) eqn:He; [|reflexivity].
  exfalso. apply Hn. apply existsb_exists in He. destruct He as [s [Hin He]].
  apply String.eqb_eq in He. now exists s.
Qed.

(** X17. createSupplier throws the 400 'Supplier with this email already
    exists', writing nothing, exactly when some supplier has the request's
    email; otherwise it appends a supplier with a fresh id and the request's
    name and email, which getSupplierById then finds. The unique index on
    the email is never what refuses the request. *)
Theorem createSupplier_outcome :
  forall (data : SupplierData.t) (db : DB),
    (SupplierService.createSupplier data db
     = (inl (AppError "Supplier with this email already exists" 400), db)
     <-> email_taken (SupplierData.email data) db)
    /\ (~ email_taken (SupplierData.email data) db ->
        exists supplier db',
          SupplierService.createSupplier data db = (inr supplier, db')
          /\ Supplier.name supplier = SupplierData.name data
          /\ Supplier.email supplier = SupplierData.email data
          /\ rows (suppliers db') = rows (suppliers db) ++ [supplier]
          /\ lookup (Supplier.id supplier) (suppliers db) = None
          /\ SupplierService.getSupplierById (Supplier.id supplier) db'
             = (inr supplier, db')).
Proof.
  intros data db.
  assert (Hnew : ~ email_taken (SupplierData.email data) db ->
                 exists supplier db',
                   SupplierService.createSupplier data db = (inr supplier, db')
                   /\ Supplier.name supplier = SupplierData.name data
                   /\ Supplier.email supplier = SupplierData.email data
                   /\ rows (suppliers db') = rows (suppliers db) ++ [supplier]
                   /\ lookup (Supplier.id supplier) (suppliers db) = None
                   /\ SupplierService.getSupplierById (Supplier.id supplier) db'
                      = (inr supplier, db')).
  { intros Hn.
    unfold SupplierService.createSupplier, bind, prisma.supplier.findUniqueByEmail,
      query, prisma.supplier.create.
    rewrite (proj2 (find_email_none _ db) Hn), (existsb_email_false _ db Hn).
    unfold insert. cbv zeta. do 2 eexists. split; [reflexivity|].
    cbn [Supplier.name Supplier.email Supplier.id suppliers set_suppliers rows].
    split; [reflexivity|]. split; [reflexivity|]. split; [reflexivity|].
    split; [apply (next_id_fresh (seq (suppliers db)) (rows (suppliers db)))|].
    unfold SupplierService.getSupplierById, bind, prisma.supplier.findUnique, query.
    cbn [suppliers set_suppliers].
    match goal with
    | |- context [lookup ?i (mkTable (?l ++ [?r]) ?s)] =>
        replace (lookup i (mkTable (l ++ [r]) s)) with (Some r)
          by (symmetry;
              exact (lookup_appended l r s
                       (next_id_fresh (seq (suppliers db)) (rows (suppliers db)))))
    end.
    reflexivity. }
  split; [|exact Hnew].
  split.
  - intros Hr. destruct (find (fun r => (Supplier.email r =? SupplierData.email data)%string)
                              (rows (suppliers db))) as [s|] eqn:Hf.
    + apply find_some in Hf. destruct Hf as [Hin He]. apply String.eqb_eq in He.
      now exists s.
    + apply find_email_none in Hf. destruct (Hnew Hf) as [s [db' [Hok _]]].
      rewrite Hok in Hr. discriminate Hr.
  - intros Ht.
    unfold SupplierService.createSupplier, bind, prisma.supplier.findUniqueByEmail, query.
    destruct (find _ _) as [s|] eqn:Hf; [reflexivity|].
    apply find_email_none in Hf. contradiction.
Qed.

Lemma createSupplier_outcome_witness :
  exists supplier db',
    SupplierService.createSupplier (SupplierData.mk "HP Inc" "hp@example.com") sample
    = (inr supplier, db')
    /\ Supplier.name supplier = "HP Inc"
    /\ Supplier.email supplier = "hp@example.com"
    /\ rows (suppliers db') = rows (suppliers sample) ++ [supplier]
    /\ lookup (Supplier.id supplier) (suppliers sample) = None
    /\ SupplierService.getSupplierById (Supplier.id supplier) db' = (inr supplier, db').
Proof.
  apply (proj2 (createSupplier_outcome (SupplierData.mk "HP Inc" "hp@example.com") sample)).
  intros [s [Hin He]]. simpl in Hin. destruct Hin as [<-|[]]. discriminate He.
Defined.

Lemma NoDup_map_same {A B : Type} (f : A -> B) (l : list A) (x y : A) :
  NoDup (map f l) -> In x l -> In y l -> f x = f y -> x = y.
Proof.
  induction l as [|a l IH]; intros Hnd Hx Hy Hf; [destruct Hx|].
  simpl in Hnd. inversion Hnd as [|b m Hnotin Hnd']; subst.
  destruct Hx as [<-|Hx], Hy as [<-|Hy].
  - reflexivity.
  - exfalso. apply Hnotin. rewrite Hf. now apply in_map.
  - exfalso. apply Hnotin. rewrite <- Hf. now apply in_map.
  - now apply IH.
Qed.


Lemma sample_emails_unique : emails_unique sample.
Proof. unfold emails_unique. simpl. repeat constructor. intros []. Defined.



Lemma deleteSupplier_found id db s :
  lookup id (suppliers db) = Some s ->
  SupplierService.deleteSupplier id db
  = if supplier_in_use id db
    then (inl (AppError
                 "Cannot delete supplier with existing products or purchase orders" 400),
          db)
    else prisma.supplier.delete id db.
Proof.
  intros Hl.
  unfold SupplierService.deleteSupplier, bind, prisma.supplier.findUnique, query.
  rewrite Hl. unfold supplier_in_use.
  destruct (_ || _); reflexivity.
Qed.

(** X19. deleteSupplier answers 404 for an unknown id; it refuses, with a
    400 and without writing, a supplier that has a product or a purchase
    order; any other supplier it deletes: getSupplierById then answers 404,
    every other supplier is as before, and the deleted email can be used by
    createSupplier again. *)
Theorem deleteSupplier_outcome :
  forall (id : Z) (db : DB),
    (lookup id (suppliers db) = None ->
     SupplierService.deleteSupplier id db = (inl (AppError "Supplier not found" 404), db))
    /\ (lookup id (suppliers db) <> None -> supplier_in_use id db = true ->
        SupplierService.deleteSupplier id db
        = (inl (AppError
                  "Cannot delete supplier with existing products or purchase orders" 400),
           db))
    /\ (forall supplier,
           lookup id (suppliers db) = Some supplier -> supplier_in_use id db = false ->
           exists db',
             SupplierService.deleteSupplier id db = (inr tt, db')
             /\ SupplierService.getSupplierById id db'
                = (inl (AppError "Supplier not found" 404), db')
             /\ (forall j, j <> id -> lookup j (suppliers db') = lookup j (suppliers db))
             /\ (emails_unique db -> ~ email_taken (Supplier.email supplier) db')).
Proof.
  intros id db. split; [|split].
  - intros Hl.
    unfold SupplierService.deleteSupplier, bind, prisma.supplier.findUnique, query.
    now rewrite Hl.
  - intros Hl Hu. destruct (lookup id (suppliers db)) as [s|] eqn:Hs; [|congruence].
    rewrite (deleteSupplier_found id db s Hs). now rewrite Hu.
  - intros supplier Hs Hu.
    rewrite (deleteSupplier_found id db supplier Hs), Hu.
    unfold prisma.supplier.delete. rewrite Hs.
    fold (supplier_in_use id db). rewrite Hu.
    eexists. split; [reflexivity|].
    unfold SupplierService.getSupplierById, bind, prisma.supplier.findUnique, query.
    cbn [suppliers set_suppliers].
    rewrite lookup_deleted. split; [reflexivity|]. split.
    + intros j Hj. now apply lookup_deleted_other.
    + intros Hue [x [Hx He]]. unfold delete_where_id in Hx. cbn [rows] in Hx.
      apply filter_In in Hx. destruct Hx as [Hx Hid].
      apply negb_true_iff, Z.eqb_neq in Hid. apply Hid.
      apply find_some in Hs. destruct Hs as [Hin Hsid]. apply Z.eqb_eq in Hsid.
      rewrite <- Hsid. change (id_of x) with (Supplier.id x).
      change (id_of supplier) with (Supplier.id supplier). f_equal.
      now apply (NoDup_map_same Supplier.email (rows (suppliers db))).
Qed.

Lemma deleteSupplier_outcome_witness :
  SupplierService.deleteSupplier 1 sample
  = (inl (AppError "Cannot delete supplier with existing products or purchase orders" 400),
     sample).
Proof.
  apply (proj1 (proj2 (deleteSupplier_outcome 1 sample))).
  - discriminate.
  - reflexivity.
Defined.

(** ** Warehouses and locations *)

Lemma missing_fields_true data :
  (WarehouseData.name data =? EmptyString)%string
  || (WarehouseData.capacity data =? 0)
  || (WarehouseData.address data =? EmptyString)%string = true
  <-> missing_fields data.
Proof.
  unfold missing_fields.
  rewrite !orb_true_iff, !String.eqb_eq, Z.eqb_eq. tauto.
Qed.

(** X20. createWarehouse throws the 400 'Missing required fields', writing
    nothing, exactly when the name is empty, the capacity is 0 or the
    address is empty; every other request, a negative capacity included,
    appends a warehouse with a fresh id and the request's fields, which
    getWarehouseById then finds. *)
Theorem createWarehouse_outcome :
  forall (data : WarehouseData.t) (db : DB),
    (WarehouseService.createWarehouse data db
     = (inl (AppError "Missing required fields" 400), db)
     <-> missing_fields data)
    /\ (~ missing_fields data ->
        exists warehouse db',
          WarehouseService.createWarehouse data db = (inr warehouse, db')
          /\ Warehouse.name warehouse = WarehouseData.name data
          /\ Warehouse.capacity warehouse = WarehouseData.capacity data
          /\ Warehouse.address warehouse = WarehouseData.address data
          /\ rows (warehouses db') = rows (warehouses db) ++ [warehouse]
          /\ lookup (Warehouse.id warehouse) (warehouses db) = None
          /\ WarehouseService.getWarehouseById (Warehouse.id warehouse) db'
             = (inr warehouse, db')).
Proof.
  intros data db. unfold WarehouseService.createWarehouse.
  destruct ((WarehouseData.name data =? EmptyString)%string
            || (WarehouseData.capacity data =? 0)
            || (WarehouseData.address data =? EmptyString)%string) eqn:Hm.
  - apply missing_fields_true in Hm. split; [|contradiction].
    split; [intros _; exact Hm | reflexivity].
  - assert (Hn : ~ missing_fields data).
    { intros H. apply missing_fields_true in H. congruence. }
    unfold prisma.warehouse.create, insert. cbv zeta.
    split; [split; [discriminate | contradiction]|].
    intros _. do 2 eexists. split; [reflexivity|].
    cbn [Warehouse.name Warehouse.capacity Warehouse.address warehouses set_warehouses rows].
    repeat (split; [reflexivity|]).
    split; [apply (next_id_fresh (seq (warehouses db)) (rows (warehouses db)))|].
    unfold WarehouseService.getWarehouseById, bind, prisma.warehouse.findUnique, query.
    cbn [warehouses set_warehouses].
    match goal with
    | |- context [lookup ?i (mkTable (?l ++ [?r]) ?s)] =>
        replace (lookup i (mkTable (l ++ [r]) s)) with (Some r)
          by (symmetry;
              exact (lookup_appended l r s
                       (next_id_fresh (seq (warehouses db)) (rows (warehouses db)))))
    end.
    reflexivity.
Qed.

Lemma createWarehouse_outcome_witness :
  exists warehouse db',
    WarehouseService.createWarehouse (WarehouseData.mk "Depot" (-5) "4 Dock Rd") sample
    = (inr warehouse, db')
    /\ Warehouse.name warehouse = "Depot"
    /\ Warehouse.capacity warehouse = -5
    /\ Warehouse.address warehouse = "4 Dock Rd"
    /\ rows (warehouses db') = rows (warehouses sample) ++ [warehouse]
    /\ lookup (Warehouse.id warehouse) (warehouses sample) = None
    /\ WarehouseService.getWarehouseById (Warehouse.id warehouse) db'
       = (inr warehouse, db').
Proof.
  apply (proj2 (createWarehouse_outcome (WarehouseData.mk "Depot" (-5) "4 Dock Rd") sample)).
  intros [H|[H|H]]; discriminate H.
Defined.

(** X21. updateWarehouse answers 404 for an unknown id and otherwise always
    succeeds: the warehouse keeps its id and takes the fields the request
    carries, without any of the checks of createWarehouse (a capacity of 0
    is stored), and every other warehouse, the locations and the Stock table
    are as before. *)
Theorem updateWarehouse_outcome :
  forall (id : Z) (data : WarehouseUpdate.t) (db : DB),
    (lookup id (warehouses db) = None ->
     WarehouseService.updateWarehouse id data db
     = (inl (AppError "Warehouse not found" 404), db))
    /\ (forall warehouse,
           lookup id (warehouses db) = Some warehouse ->
           exists db',
             WarehouseService.updateWarehouse id data db
             = (inr (WarehouseUpdate.apply data warehouse), db')
             /\ lookup id (warehouses db') = Some (WarehouseUpdate.apply data warehouse)
             /\ Warehouse.id (WarehouseUpdate.apply data warehouse) = id
             /\ (forall capacity,
                    WarehouseUpdate.capacity data = Some capacity ->
                    Warehouse.capacity (WarehouseUpdate.apply data warehouse) = capacity)
             /\ (forall j, j <> id -> lookup j (warehouses db') = lookup j (warehouses db))
             /\ locations db' = locations db
             /\ stocks db' = stocks db).
Proof.
  intros id data db.
  unfold WarehouseService.updateWarehouse, bind, prisma.warehouse.findUnique, query,
    prisma.warehouse.update.
  split.
  - intros ->. reflexivity.
  - intros warehouse Hl. rewrite Hl. cbv beta. rewrite Hl.
    eexists. split; [reflexivity|].
    cbn [warehouses set_warehouses locations stocks].
    split; [apply lookup_update; [intros x; reflexivity | exact Hl]|].
    split.
    { apply find_some in Hl. destruct Hl as [_ Hl]. now apply Z.eqb_eq in Hl. }
    split.
    { intros capacity Hc. unfold WarehouseUpdate.apply. cbn [Warehouse.capacity].
      now rewrite Hc. }
    split; [|split; reflexivity].
    intros j Hj. apply lookup_update_other; [intros x; reflexivity | exact Hj].
Qed.

Lemma updateWarehouse_outcome_witness :
  exists db',
    WarehouseService.updateWarehouse 1 (WarehouseUpdate.mk None (Some 0) None) sample
    = (inr (Warehouse.mk 1 "Main Warehouse" 0 "123 Main St, City"), db')
    /\ lookup 1 (warehouses db')
       = Some (Warehouse.mk 1 "Main Warehouse" 0 "123 Main St, City").
Proof.
  destruct (proj2 (updateWarehouse_outcome 1 (WarehouseUpdate.mk None (Some 0) None) sample)
              (Warehouse.mk 1 "Main Warehouse" 1000 "123 Main St, City") eq_refl)
    as [db' [H1 [H2 _]]].
  exists db'. split; [exact H1 | exact H2].
Defined.

Lemma deleteWarehouse_found id db w :
  lookup id (warehouses db) = Some w ->
  WarehouseService.deleteWarehouse id db
  = if warehouse_in_use id db
    then (inl (AppError "Cannot delete warehouse with existing products or stock" 400), db)
    else prisma.warehouse.delete id db.
Proof.
  intros Hl.
  unfold WarehouseService.deleteWarehouse, bind, prisma.warehouse.findUnique, query.
  rewrite Hl. unfold warehouse_in_use.
  destruct (_ || _); reflexivity.
Qed.

(** X22. deleteWarehouse never removes a warehouse that has a product, a
    Stock row or a location. With a product or a Stock row it throws its own
    400; with locations only, which it counts but does not check, the DELETE
    hits the foreign key of Location and the error that comes back is the
    database's, answered by errorHandler with 400 'Database operation
    failed'. A warehouse with none of the three is deleted, and
    getWarehouseById then answers 404. *)
Theorem deleteWarehouse_outcome :
  forall (id : Z) (db : DB),
    (lookup id (warehouses db) = None ->
     WarehouseService.deleteWarehouse id db
     = (inl (AppError "Warehouse not found" 404), db))
    /\ (lookup id (warehouses db) <> None -> warehouse_in_use id db = true ->
        WarehouseService.deleteWarehouse id db
        = (inl (AppError "Cannot delete warehouse with existing products or stock" 400),
           db))
    /\ (lookup id (warehouses db) <> None -> warehouse_in_use id db = false ->
        has_locations id db = true ->
        WarehouseService.deleteWarehouse id db = (inl P2003, db)
        /\ errorHandler P2003 = Response.mk 400 "error" "Database operation failed")
    /\ (lookup id (warehouses db) <> None -> warehouse_in_use id db = false ->
        has_locations id db = false ->
        exists db',
          WarehouseService.deleteWarehouse id db = (inr tt, db')
          /\ WarehouseService.getWarehouseById id db'
             = (inl (AppError "Warehouse not found" 404), db')
          /\ (forall j, j <> id -> lookup j (warehouses db') = lookup j (warehouses db))).
Proof.
  intros id db.
  assert (Hdel : forall w,
             lookup id (warehouses db) = Some w -> warehouse_in_use id db = false ->
             WarehouseService.deleteWarehouse id db
             = if has_locations id db
               then (inl P2003, db)
               else (inr tt, set_warehouses (delete_where_id id (warehouses db)) db)).
  { intros w Hl Hu. rewrite (deleteWarehouse_found id db w Hl), Hu.
    unfold prisma.warehouse.delete. rewrite Hl.
    unfold warehouse_in_use in Hu. apply orb_false_iff in Hu. destruct Hu as [Hp Hs].
    rewrite Hp, Hs, !orb_false_r. reflexivity. }
  split; [|split; [|split]].
  - intros Hl.
    unfold WarehouseService.deleteWarehouse, bind, prisma.warehouse.findUnique, query.
    now rewrite Hl.
  - intros Hl Hu. destruct (lookup id (warehouses db)) as [w|] eqn:Hw; [|congruence].
    rewrite (deleteWarehouse_found id db w Hw). now rewrite Hu.
  - intros Hl Hu Hloc. destruct (lookup id (warehouses db)) as [w|] eqn:Hw; [|congruence].
    rewrite (Hdel w eq_refl Hu), Hloc. split; reflexivity.
  - intros Hl Hu Hloc. destruct (lookup id (warehouses db)) as [w|] eqn:Hw; [|congruence].
    rewrite (Hdel w eq_refl Hu), Hloc.
    eexists. split; [reflexivity|].
    unfold WarehouseService.getWarehouseById, bind, prisma.warehouse.findUnique, query.
    cbn [warehouses set_warehouses]. rewrite lookup_deleted.
    split; [reflexivity|]. intros j Hj. now apply lookup_deleted_other.
Qed.

Lemma deleteWarehouse_outcome_witness :
  WarehouseService.deleteWarehouse 1 sample
  = (inl (AppError "Cannot delete warehouse with existing products or stock" 400), sample).
Proof.
  apply (proj1 (proj2 (deleteWarehouse_outcome 1 sample))).
  - discriminate.
  - reflexivity.
Defined.

Lemma createStock_new data db l :
  lookup (CreateStockData.locationId data) (locations db) = Some l ->
  Location.warehouseId l = CreateStockData.warehouseId data ->
  lookup (CreateStockData.productId data) (products db) <> None ->
  lookup (CreateStockData.warehouseId data) (warehouses db) <> None ->
  find (fun s => (Stock.productId s =? CreateStockData.productId data)
                 && (Stock.locationId s =? CreateStockData.locationId data))
       (rows (stocks db)) = None ->
  StockService.createStock data db
  = (inr (Stock.mk (next_id (seq (stocks db)) (rows (stocks db)))
            (CreateStockData.productId data) (CreateStockData.warehouseId data)
            (CreateStockData.locationId data) (CreateStockData.quantity data)),
     set_stocks
       (mkTable (rows (stocks db)
                   ++ [Stock.mk (next_id (seq (stocks db)) (rows (stocks db)))
                         (CreateStockData.productId data)
                         (CreateStockData.warehouseId data)
                         (CreateStockData.locationId data)
                         (CreateStockData.quantity data)])
                (next_id (seq (stocks db)) (rows (stocks db))))
       db).
Proof.
  intros Hl Hw Hp Hwh Hf.
  unfold StockService.createStock, bind, prisma.location.findUnique,
    prisma.stock.findFirst, query, prisma.stock.create.
  rewrite Hl, Hw, Z.eqb_refl. cbn [negb]. rewrite Hf.
  rewrite !exists_id_lookup, Hl.
  destruct (lookup (CreateStockData.productId data) (products db)); [|congruence].
  destruct (lookup (CreateStockData.warehouseId data) (warehouses db)); [|congruence].
  reflexivity.
Qed.

Lemma addLocation_ok warehouseId name db :
  lookup warehouseId (warehouses db) <> None ->
  WarehouseService.addLocation warehouseId name db
  = (inr (Location.mk (next_id (seq (locations db)) (rows (locations db))) name warehouseId),
     set_locations
       (mkTable (rows (locations db)
                   ++ [Location.mk (next_id (seq (locations db)) (rows (locations db)))
                         name warehouseId])
                (next_id (seq (locations db)) (rows (locations db))))
       db).
Proof.
  intros Hw.
  destruct (lookup warehouseId (warehouses db)) as [w|] eqn:Hl; [|congruence].
  unfold WarehouseService.addLocation, bind, prisma.warehouse.findUnique, query,
    prisma.location.create.
  rewrite Hl. cbv beta iota. rewrite exists_id_lookup, Hl. reflexivity.
Qed.

(** X23. addLocation for an existing warehouse returns a location of that
    warehouse with an id no location had, and the location is usable at
    once: createStock for an existing product, that warehouse and the new
    location succeeds, while createStock naming any other warehouse for it
    is refused with the 400 'Invalid location for warehouse'. Every Stock
    row references an existing location, as the foreign key has it. *)
Theorem addLocation_then_createStock :
  forall (warehouseId productId quantity : Z) (name : string) (db : DB),
    lookup warehouseId (warehouses db) <> None ->
    lookup productId (products db) <> None ->
    stock_in_location_warehouse db ->
    exists location db1,
      WarehouseService.addLocation warehouseId name db = (inr location, db1)
      /\ Location.warehouseId location = warehouseId
      /\ Location.name location = name
      /\ lookup (Location.id location) (locations db) = None
      /\ (exists stock db2,
             StockService.createStock
               (CreateStockData.mk productId warehouseId (Location.id location) quantity) db1
             = (inr stock, db2)
             /\ Stock.locationId stock = Location.id location
             /\ Stock.warehouseId stock = warehouseId
             /\ Stock.quantity stock = quantity)
      /\ (forall other,
             other <> warehouseId ->
             StockService.createStock
               (CreateStockData.mk productId other (Location.id location) quantity) db1
             = (inl (AppError "Invalid location for warehouse" 400), db1)).
Proof.
  intros warehouseId productId quantity name db Hw Hp Hinv.
  pose proof (next_id_fresh (seq (locations db)) (rows (locations db))) as Hfresh.
  set (i := next_id (seq (locations db)) (rows (locations db))) in *.
  set (location := Location.mk i name warehouseId).
  set (db1 := set_locations (mkTable (rows (locations db) ++ [location]) i) db).
  assert (Hl1 : lookup i (locations db1) = Some location).
  { subst db1. cbn [locations set_locations].
    exact (lookup_appended (rows (locations db)) location i Hfresh). }
  exists location, db1.
  split; [exact (addLocation_ok warehouseId name db Hw)|].
  split; [reflexivity|]. split; [reflexivity|]. split; [exact Hfresh|].
  split.
  - do 2 eexists. split.
    + apply (createStock_new
               (CreateStockData.mk productId warehouseId (Location.id location) quantity)
               db1 location); try assumption; try reflexivity.
      cbn [CreateStockData.productId CreateStockData.locationId Location.id location].
      change (stocks db1) with (stocks db).
      destruct (find _ (rows (stocks db))) as [s|] eqn:Hf; [|reflexivity].
      exfalso. apply find_some in Hf. destruct Hf as [Hin Hs].
      apply andb_true_iff in Hs. destruct Hs as [_ Hs]. apply Z.eqb_eq in Hs.
      destruct (Hinv s Hin) as [l [Hl _]]. rewrite Hs in Hl.
      unfold lookup in Hl. rewrite Hfresh in Hl. discriminate Hl.
    + repeat split.
  - intros other Hother. apply createStock_invalid_location.
    cbn [CreateStockData.locationId CreateStockData.warehouseId Location.id location].
    rewrite Hl1. cbn [Location.warehouseId location]. congruence.
Qed.

Lemma addLocation_then_createStock_witness :
  exists location db1,
    WarehouseService.addLocation 1 "B1" sample = (inr location, db1)
    /\ Location.warehouseId location = 1
    /\ Location.name location = "B1"
    /\ lookup (Location.id location) (locations sample) = None
    /\ (exists stock db2,
           StockService.createStock
             (CreateStockData.mk 1 1 (Location.id location) 6) db1
           = (inr stock, db2)
           /\ Stock.locationId stock = Location.id location
           /\ Stock.warehouseId stock = 1
           /\ Stock.quantity stock = 6)
    /\ (forall other,
           other <> 1 ->
           StockService.createStock
             (CreateStockData.mk 1 other (Location.id location) 6) db1
           = (inl (AppError "Invalid location for warehouse" 400), db1)).
Proof.
  apply (addLocation_then_createStock 1 1 6 "B1" sample).
  - discriminate.
  - discriminate.
  - exact sample_in_location_warehouse.
Defined.

(** X24. removeLocation answers 404 for an unknown id; it refuses, with the
    400 'Cannot delete location with existing stock' and without writing, a
    location that a Stock row references; any other location it deletes,
    leaving the other locations and the Stock table as they are, and
    createStock for the deleted location is then refused with the 400
    'Invalid location for warehouse'. *)
Theorem removeLocation_outcome :
  forall (locationId : Z) (db : DB),
    (lookup locationId (locations db) = None ->
     WarehouseService.removeLocation locationId db
     = (inl (AppError "Location not found" 404), db))
    /\ (lookup locationId (locations db) <> None ->
        existsb (fun s => Stock.locationId s =? locationId) (rows (stocks db)) = true ->
        WarehouseService.removeLocation locationId db
        = (inl (AppError "Cannot delete location with existing stock" 400), db))
    /\ (lookup locationId (locations db) <> None ->
        existsb (fun s => Stock.locationId s =? locationId) (rows (stocks db)) = false ->
        exists db',
          WarehouseService.removeLocation locationId db = (inr tt, db')
          /\ lookup locationId (locations db') = None
          /\ (forall j, j <> locationId ->
                        lookup j (locations db') = lookup j (locations db))
          /\ stocks db' = stocks db
          /\ (forall productId warehouseId quantity,
                 StockService.createStock
                   (CreateStockData.mk productId warehouseId locationId quantity) db'
                 = (inl (AppError "Invalid location for warehouse" 400), db'))).
Proof.
  intros locationId db.
  unfold WarehouseService.removeLocation, bind, prisma.location.findUnique, query,
    prisma.location.delete.
  split; [|split].
  - intros ->. reflexivity.
  - intros Hl Hs. destruct (lookup locationId (locations db)); [|congruence].
    now rewrite Hs.
  - intros Hl Hs. destruct (lookup locationId (locations db)) eqn:Hloc; [|congruence].
    rewrite Hs. cbv beta. rewrite Hloc, Hs.
    eexists. split; [reflexivity|].
    cbn [locations set_locations stocks].
    split; [apply lookup_deleted|].
    split; [intros j Hj; now apply lookup_deleted_other|].
    split; [reflexivity|].
    intros productId warehouseId quantity. apply createStock_invalid_location.
    cbn [CreateStockData.locationId locations set_locations].
    now rewrite lookup_deleted.
Qed.

Lemma removeLocation_outcome_witness :
  exists db',
    WarehouseService.removeLocation 2 sample = (inr tt, db')
    /\ lookup 2 (locations db') = None
    /\ (forall j, j <> 2 -> lookup j (locations db') = lookup j (locations sample))
    /\ stocks db' = stocks sample
    /\ (forall productId warehouseId quantity,
           StockService.createStock (CreateStockData.mk productId warehouseId 2 quantity) db'
           = (inl (AppError "Invalid location for warehouse" 400), db')).
Proof.
  apply (proj2 (proj2 (removeLocation_outcome 2 sample))).
  - discriminate.
  - reflexivity.
Defined.

(** ** Authentication *)

Lemma split_no_separator c s : contains c s = false -> split c s = [s].
Proof.
  induction s as [|a s IH]; simpl; [reflexivity|].
  intros H. apply orb_false_iff in H. destruct H as [Ha Hs].
  rewrite Ha, (IH Hs). reflexivity.
Qed.

Lemma authenticate_cases verify req :
  authenticate verify req
  = match Request.authorization req with
    | Some authHeader =>
        if String.prefix "Bearer " authHeader
        then match verify (bearer_token authHeader) with
             | Some payload =>
                 (Request.mk (Request.authorization req)
                             (Some (User.mk (JwtPayload.userId payload)
                                            (JwtPayload.role payload))),
                  next)
             | None => (req, next_error unauthenticated)
             end
        else (req, next_error unauthenticated)
    | None => (req, next_error unauthenticated)
    end.
Proof.
  unfold authenticate, bearer_token, unauthenticated.
  destruct (Request.authorization req) as [h|]; [|reflexivity].
  destruct (String.prefix "Bearer " h); reflexivity.
Qed.

Lemma valid_token_dec verify req :
  (exists payload, valid_token verify req payload)
  \/ (forall payload, ~ valid_token verify req payload).
Proof.
  unfold valid_token.
  destruct (Request.authorization req) as [h|] eqn:Hh.
  - destruct (String.prefix "Bearer " h) eqn:Hp.
    + destruct (verify (bearer_token h)) as [payload|] eqn:Hv.
      * left. exists payload, h. now repeat split.
      * right. intros payload [h' [H1 [_ H3]]]. congruence.
    + right. intros payload [h' [H1 [H2 _]]]. congruence.
  - right. intros payload [h' [H1 _]]. discriminate H1.
Qed.

Lemma authenticate_invalid verify req :
  (forall payload, ~ valid_token verify req payload) ->
  authenticate verify req = (req, next_error unauthenticated).
Proof.
  intros Hn. rewrite authenticate_cases.
  destruct (Request.authorization req) as [h|] eqn:Hh; [|reflexivity].
  destruct (String.prefix "Bearer " h) eqn:Hp; [|reflexivity].
  destruct (verify (bearer_token h)) as [payload|] eqn:Hv; [|reflexivity].
  exfalso. apply (Hn payload). exists h. now repeat split.
Qed.

(** X25. authenticate lets a request pass exactly when its Authorization
    header starts with 'Bearer ' and the token after the first space
    verifies; the request then carries the user id and role of the token's
    payload, whatever user it carried before. Every rejection, a missing
    header included, is the 401 'Invalid or expired token' with the request
    unchanged: the 'No token provided' error thrown inside the try block is
    never what the caller sees. For the header 'Bearer ' followed by a token
    without spaces the verified token is that token. *)
Theorem authenticate_outcome :
  forall (verify : string -> option JwtPayload.t) (req : Request.t),
    (forall payload,
        valid_token verify req payload ->
        authenticate verify req
        = (Request.mk (Request.authorization req)
                      (Some (User.mk (JwtPayload.userId payload) (JwtPayload.role payload))),
           next))
    /\ ((forall payload, ~ valid_token verify req payload) ->
        authenticate verify req = (req, next_error unauthenticated))
    /\ (forall req' e,
           authenticate verify req = (req', next_error e) ->
           e = unauthenticated /\ req' = req
           /\ e <> AppError "No token provided" 401)
    /\ (forall token,
           contains " " token = false ->
           bearer_token ("Bearer " ++ token) = token).
Proof.
  intros verify req.
  split; [|split; [|split]].
  - intros payload [h [Hh [Hp Hv]]]. rewrite authenticate_cases.
    now rewrite Hh, Hp, Hv.
  - apply authenticate_invalid.
  - intros req' e. rewrite authenticate_cases.
    destruct (Request.authorization req) as [h|].
    + destruct (String.prefix "Bearer " h).
      * destruct (verify (bearer_token h)).
        -- discriminate.
        -- intros H. inversion H; subst. repeat split. discriminate.
      * intros H. inversion H; subst. repeat split. discriminate.
    + intros H. inversion H; subst. repeat split. discriminate.
  - intros token Ht. unfold bearer_token.
    cbn [append split Ascii.eqb Bool.eqb]. cbn.
    rewrite (split_no_separator _ _ Ht). reflexivity.
Qed.

Lemma authenticate_outcome_witness :
  authenticate sample_verify (Request.mk (Some "Bearer abc.def.ghi") None)
  = (Request.mk (Some "Bearer abc.def.ghi") (Some (User.mk 1 "admin")), next).
Proof.
  apply (proj1 (authenticate_outcome sample_verify
                  (Request.mk (Some "Bearer abc.def.ghi") None))
           (JwtPayload.mk 1 "admin")).
  exists "Bearer abc.def.ghi". repeat split.
Defined.

(** X26. A route guarded by authenticate and then authorize(roles) runs its
    handler exactly when the token verifies and the role in the token's
    payload is one of the roles; it answers 401 when the token does not
    verify and 403 when it verifies for another role. A user already set on
    the incoming request makes no difference. *)
Theorem authenticate_then_authorize :
  forall (verify : string -> option JwtPayload.t) (allowedRoles : list string)
         (req : Request.t),
    let guard := chain (authenticate verify) (authorize allowedRoles) in
    (forall payload,
        valid_token verify req payload ->
        snd (guard req)
        = if includes allowedRoles (JwtPayload.role payload)
          then next else next_error forbidden)
    /\ ((forall payload, ~ valid_token verify req payload) ->
        guard req = (req, next_error unauthenticated))
    /\ (snd (guard req) = next
        <-> exists payload,
              valid_token verify req payload
              /\ In (JwtPayload.role payload) allowedRoles)
    /\ (forall user,
           snd (guard (Request.mk (Request.authorization req) user)) = snd (guard req)).
Proof.
  intros verify allowedRoles req guard. subst guard.
  assert (Hvalid : forall payload,
             valid_token verify req payload ->
             snd (chain (authenticate verify) (authorize allowedRoles) req)
             = if includes allowedRoles (JwtPayload.role payload)
               then next else next_error forbidden).
  { intros payload [h [Hh [Hp Hv]]]. unfold chain.
    rewrite authenticate_cases, Hh, Hp, Hv.
    unfold authorize. cbn [Request.user User.role].
    destruct (includes allowedRoles (JwtPayload.role payload)); reflexivity. }
  assert (Hinvalid : (forall payload, ~ valid_token verify req payload) ->
                     chain (authenticate verify) (authorize allowedRoles) req
                     = (req, next_error unauthenticated)).
  { intros Hn. unfold chain. now rewrite (authenticate_invalid verify req Hn). }
  split; [exact Hvalid|]. split; [exact Hinvalid|]. split.
  - split.
    + intros Hnext.
      destruct (valid_token_dec verify req) as [[payload Hv]|Hn].
      * exists payload. split; [exact Hv|].
        rewrite (Hvalid payload Hv) in Hnext.
        destruct (includes allowedRoles (JwtPayload.role payload)) eqn:Hi;
          [now apply includes_In | discriminate Hnext].
      * rewrite (Hinvalid Hn) in Hnext. discriminate Hnext.
    + intros [payload [Hv Hin]]. rewrite (Hvalid payload Hv).
      apply includes_In in Hin. now rewrite Hin.
  - intros user. unfold chain. rewrite !authenticate_cases.
    cbn [Request.authorization].
    destruct (Request.authorization req) as [h|]; [|reflexivity].
    destruct (String.prefix "Bearer " h); [|reflexivity].
    destruct (verify (bearer_token h)); reflexivity.
Qed.

Lemma authenticate_then_authorize_witness :
  snd (chain (authenticate sample_verify) (authorize ["manager"])
             (Request.mk (Some "Bearer abc.def.ghi") (Some (User.mk 2 "manager"))))
  = next_error forbidden.
Proof.
  apply (proj1 (authenticate_then_authorize sample_verify ["manager"]
                  (Request.mk (Some "Bearer abc.def.ghi") (Some (User.mk 2 "manager"))))
           (JwtPayload.mk 1 "admin")).
  exists "Bearer abc.def.ghi". repeat split.
Defined.

(** ** Pages of the stock list *)

Lemma ceil_div_formula total pageSize :
  1 <= pageSize ->
  StockService.ceil_div total pageSize = (total + pageSize - 1) / pageSize.
Proof.
  intros Hp. unfold StockService.ceil_div, Qround.Qceiling, Qround.Qfloor.
  destruct pageSize as [|p|p]; try lia.
  unfold QArith_base.Qdiv, QArith_base.Qinv, QArith_base.inject_Z,
    QArith_base.Qmult, QArith_base.Qopp.
  cbn [QArith_base.Qnum QArith_base.Qden].
  rewrite Z.mul_1_r, Pos.mul_1_l.
  pose proof (Z.div_mod (- total) (Z.pos p) ltac:(lia)) as Hdm.
  pose proof (Z.mod_pos_bound (- total) (Z.pos p) ltac:(lia)) as Hb.
  symmetry. symmetry.
  apply (Z.div_unique_pos (total + Z.pos p - 1) (Z.pos p)
           (- (- total / Z.pos p)) (Z.pos p - 1 - (- total) mod Z.pos p)); lia.
Qed.

Lemma firstn_add {A : Type} (a b : nat) (l : list A) :
  firstn (a + b) l = firstn a l ++ firstn b (skipn a l).
Proof.
  revert l. induction a as [|a IH]; intros l; [reflexivity|].
  destruct l as [|x l]; simpl.
  - now rewrite firstn_nil.
  - now rewrite IH.
Qed.

Lemma concat_chunks {A : Type} (n size : nat) (l : list A) :
  List.concat (map (fun k => firstn size (skipn (k * size) l)) (List.seq 0 n))
  = firstn (n * size) l.
Proof.
  induction n as [|n IH]; [reflexivity|].
  rewrite seq_S, map_app, concat_app, IH. cbn [map List.concat plus].
  rewrite app_nil_r. rewrite <- firstn_add. f_equal. lia.
Qed.

Lemma getStocks_run page pageSize db :
  1 <= page -> 1 <= pageSize ->
  StockService.getStocks page pageSize db
  = (inr (StockService.mkPage
            (firstn (Z.to_nat pageSize)
                    (skipn (Z.to_nat ((page - 1) * pageSize)) (rows (stocks db))))
            (Z.of_nat (List.length (rows (stocks db)))) page pageSize
            (StockService.ceil_div (Z.of_nat (List.length (rows (stocks db)))) pageSize)),
     db).
Proof.
  intros Hpage Hsize.
  unfold StockService.getStocks, bind, prisma.stock.findManyPage, prisma.stock.count,
    query, ret, skip_take.
  assert (H1 : ((page - 1) * pageSize <? 0) = false) by (apply Z.ltb_ge; nia).
  assert (H2 : (pageSize <? 0) = false) by (apply Z.ltb_ge; lia).
  now rewrite H1, H2.
Qed.

(** X27. getStocks with a page number and a page size of at least 1 never
    throws and writes nothing. It reports the number of Stock rows as total
    and the ceiling of total / pageSize as totalPages; a page holds at most
    pageSize rows and is empty exactly when its number is above totalPages;
    and the pages 1 to totalPages, one after the other, are the Stock table,
    each row once and in order. *)
Theorem getStocks_pages_partition_the_table :
  forall (page pageSize : Z) (db : DB),
    1 <= page -> 1 <= pageSize ->
    exists p,
      StockService.getStocks page pageSize db = (inr p, db)
      /\ StockService.total p = Z.of_nat (List.length (rows (stocks db)))
      /\ StockService.totalPages p
         = (StockService.total p + pageSize - 1) / pageSize
      /\ Z.of_nat (List.length (StockService.data p)) <= pageSize
      /\ (StockService.data p = [] <-> StockService.totalPages p < page)
      /\ List.concat (map (page_rows db pageSize) (pages (StockService.totalPages p)))
         = rows (stocks db).
Proof.
  intros page pageSize db Hpage Hsize.
  eexists. split; [exact (getStocks_run page pageSize db Hpage Hsize)|].
  cbn [StockService.total StockService.totalPages StockService.data].
  rewrite (ceil_div_formula _ pageSize Hsize).
  set (l := rows (stocks db)).
  set (total := Z.of_nat (List.length l)).
  assert (Htot : 0 <= total) by (subst total; lia).
  pose proof (Z.div_mod (total + pageSize - 1) pageSize ltac:(lia)) as Hdm.
  pose proof (Z.mod_pos_bound (total + pageSize - 1) pageSize ltac:(lia)) as Hb.
  set (n := (total + pageSize - 1) / pageSize) in *.
  split; [reflexivity|]. split; [reflexivity|]. split; [|split].
  - pose proof (firstn_le_length (Z.to_nat pageSize)
                  (skipn (Z.to_nat ((page - 1) * pageSize)) l)) as Hle.
    lia.
  - split.
    + intros He. apply (f_equal (@List.length Stock.t)) in He.
      rewrite length_firstn, length_skipn in He. cbn [List.length] in He.
      fold l in He. nia.
    + intros Hlt. apply List.length_zero_iff_nil.
      rewrite length_firstn, length_skipn. nia.
  - unfold pages. rewrite <- seq_shift, !map_map.
    rewrite (map_ext_in _ (fun k => firstn (Z.to_nat pageSize)
                                      (skipn (k * Z.to_nat pageSize) l))).
    + rewrite concat_chunks. apply firstn_all2. fold l. nia.
    + intros k _. unfold page_rows.
      rewrite (getStocks_run (Z.of_nat (S k)) pageSize db ltac:(lia) Hsize).
      cbn [fst StockService.data]. fold l. do 2 f_equal. nia.
Qed.

Lemma getStocks_pages_partition_the_table_witness :
  exists p,
    StockService.getStocks 1 10 sample = (inr p, sample)
    /\ StockService.total p = 1
    /\ StockService.totalPages p = (StockService.total p + 10 - 1) / 10
    /\ Z.of_nat (List.length (StockService.data p)) <= 10
    /\ (StockService.data p = [] <-> StockService.totalPages p < 1)
    /\ List.concat (map (page_rows sample 10) (pages (StockService.totalPages p)))
       = rows (stocks sample).
Proof.
  apply (getStocks_pages_partition_the_table 1 10 sample); lia.
Defined.

(** ** What the order operations leave alone *)

(** X28. No operation on sales orders or purchase orders adds, removes or
    moves a Stock row, or writes to the Product or Location table: after
    createSalesOrder, updateSalesOrder, cancelSalesOrder,
    createPurchaseOrder, updatePurchaseOrder, receivePurchaseOrder or
    deletePurchaseOrder, whether it returned or threw, the Stock rows have
    the ids, products, warehouses and locations they had, in the same order;
    only quantities can differ. *)
Theorem order_operations_change_quantities_only :
  forall (db : DB),
    (forall data, quiet db (snd (SalesOrderService.createSalesOrder data db)))
    /\ (forall id status, quiet db (snd (SalesOrderService.updateSalesOrder id status db)))
    /\ (forall id, quiet db (snd (SalesOrderService.cancelSalesOrder id db)))
    /\ (forall supplierId items,
           quiet db (snd (PurchaseOrderService.createPurchaseOrder supplierId items db)))
    /\ (forall id status,
           quiet db (snd (PurchaseOrderService.updatePurchaseOrder id status db)))
    /\ (forall id, quiet db (snd (PurchaseOrderService.receivePurchaseOrder id db)))
    /\ (forall id, quiet db (snd (PurchaseOrderService.deletePurchaseOrder id db))).
Proof.
  intros db. split; [|split; [|split; [|split; [|split; [|split]]]]]; intros.
  - apply Quiet_createSalesOrder.
  - apply Quiet_updateSalesOrder.
  - apply Quiet_cancelSalesOrder.
  - apply Quiet_createPurchaseOrder.
  - apply Quiet_updatePurchaseOrder.
  - apply Quiet_receivePurchaseOrder.
  - apply Quiet_deletePurchaseOrder.
Qed.

(** ** Transfers to a new location, and the journal of a Stock row *)

Lemma transaction_ok {A : Type} (body : Prisma A) db a db' :
  body db = (inr a, db') -> transaction body db = (inr a, db').
Proof. intros H. unfold transaction. now rewrite H. Qed.

Lemma stock_create_ok p w l q db :
  lookup p (products db) <> None ->
  lookup w (warehouses db) <> None ->
  lookup l (locations db) <> None ->
  prisma.stock.create p w l q db
  = (inr (Stock.mk (next_id (seq (stocks db)) (rows (stocks db))) p w l q),
     set_stocks
       (mkTable (rows (stocks db)
                   ++ [Stock.mk (next_id (seq (stocks db)) (rows (stocks db))) p w l q])
                (next_id (seq (stocks db)) (rows (stocks db))))
       db).
Proof.
  intros Hp Hw Hl. unfold prisma.stock.create. rewrite !exists_id_lookup.
  destruct (lookup p (products db)); [|congruence].
  destruct (lookup w (warehouses db)); [|congruence].
  destruct (lookup l (locations db)); [|congruence].
  reflexivity.
Qed.

Lemma set_stockMovements_same db : set_stockMovements (stockMovements db) db = db.
Proof. destruct db; reflexivity. Qed.

Lemma createMany_ok ds db :
  Forall (fun d => exists_id (MovementInput.stockId d) (stocks db) = true) ds ->
  prisma.stockMovement.createMany ds db
  = (inr tt, set_stockMovements (record_all ds (stockMovements db)) db).
Proof.
  unfold prisma.stockMovement.createMany. revert db.
  induction ds as [|d ds IH]; intros db H.
  - cbn [forEach record_all fold_left]. unfold ret. now rewrite set_stockMovements_same.
  - inversion H as [|x xs Hd Hds]; subst. cbn [forEach].
    erewrite bind_ok;
      [|erewrite bind_ok; [|exact (stockMovement_create_ok d db Hd)]; reflexivity].
    rewrite IH by exact Hds. reflexivity.
Qed.

(** A transfer to a location that holds no row of the product: the whole
    run of transferStock, statement by statement. *)
Lemma transferStock_new_target :
  forall (data : TransferStockData.t) (db : DB) (src : Stock.t) (loc : Location.t),
    lookup (TransferStockData.sourceStockId data) (stocks db) = Some src ->
    TransferStockData.quantity data <= Stock.quantity src ->
    lookup (TransferStockData.targetLocationId data) (locations db) = Some loc ->
    find (fun s => (Stock.productId s =? Stock.productId src)
                   && (Stock.locationId s =? TransferStockData.targetLocationId data))
         (rows (stocks db)) = None ->
    lookup (Stock.productId src) (products db) <> None ->
    lookup (Location.warehouseId loc) (warehouses db) <> None ->
    exists s t db',
      StockService.transferStock data db = (inr (Some s, Some t), db')
      /\ s = Stock.set_quantity (Stock.quantity src - TransferStockData.quantity data) src
      /\ t = Stock.mk (next_id (seq (stocks db)) (rows (stocks db)))
               (Stock.productId src) (Location.warehouseId loc)
               (TransferStockData.targetLocationId data)
               (0 + TransferStockData.quantity data)
      /\ lookup (Stock.id t) (stocks db) = None
      /\ lookup (TransferStockData.sourceStockId data) (stocks db') = Some s
      /\ lookup (Stock.id t) (stocks db') = Some t
      /\ map StockMovement.stockId (rows (stockMovements db'))
         = map StockMovement.stockId (rows (stockMovements db))
             ++ [TransferStockData.sourceStockId data; Stock.id t]
      /\ map StockMovement.movementType (rows (stockMovements db'))
         = map StockMovement.movementType (rows (stockMovements db)) ++ [OUT; IN]
      /\ map StockMovement.quantity (rows (stockMovements db'))
         = map StockMovement.quantity (rows (stockMovements db))
             ++ [TransferStockData.quantity data; TransferStockData.quantity data].
Proof.
  intros data db src loc Hsrc Hq Hloc Hnone Hp Hw.
  pose proof (next_id_fresh (seq (stocks db)) (rows (stocks db))) as Hfresh.
  set (fresh := next_id (seq (stocks db)) (rows (stocks db))) in *.
  set (source := TransferStockData.sourceStockId data) in *.
  set (q := TransferStockData.quantity data) in *.
  set (new := Stock.mk fresh (Stock.productId src) (Location.warehouseId loc)
                (TransferStockData.targetLocationId data) 0).
  assert (Hne : fresh <> source).
  { intros E.
    assert (H : lookup fresh (stocks db) = Some src) by (rewrite E; exact Hsrc).
    assert (H' : lookup fresh (stocks db) = None) by exact Hfresh.
    congruence. }
  set (db1 := set_stocks (mkTable (rows (stocks db) ++ [new]) fresh) db).
  assert (Hs1 : lookup source (stocks db1) = Some src).
  { subst db1. cbn [stocks set_stocks]. unfold lookup. cbn [rows].
    rewrite find_app. unfold lookup in Hsrc. now rewrite Hsrc. }
  assert (Hn1 : lookup fresh (stocks db1) = Some new).
  { subst db1. cbn [stocks set_stocks].
    exact (lookup_appended (rows (stocks db)) new fresh Hfresh). }
  set (db2 := set_stocks (update_where_id source
                            (Stock.set_quantity (Stock.quantity src - q)) (stocks db1)) db1).
  assert (Hs2 : lookup source (stocks db2)
                = Some (Stock.set_quantity (Stock.quantity src - q) src)).
  { subst db2. cbn [stocks set_stocks].
    apply lookup_update; [intros x; reflexivity | exact Hs1]. }
  assert (Hn2 : lookup fresh (stocks db2) = Some new).
  { subst db2. cbn [stocks set_stocks].
    rewrite lookup_update_other; [exact Hn1 | intros x; reflexivity | exact Hne]. }
  set (db3 := set_stocks (update_where_id fresh
                            (Stock.set_quantity (0 + q)) (stocks db2)) db2).
  assert (Hs3 : lookup source (stocks db3)
                = Some (Stock.set_quantity (Stock.quantity src - q) src)).
  { subst db3. cbn [stocks set_stocks].
    rewrite lookup_update_other; [exact Hs2 | intros x; reflexivity | congruence]. }
  assert (Hn3 : lookup fresh (stocks db3) = Some (Stock.set_quantity (0 + q) new)).
  { subst db3. cbn [stocks set_stocks].
    apply lookup_update; [intros x; reflexivity | exact Hn2]. }
  exists (Stock.set_quantity (Stock.quantity src - q) src),
         (Stock.set_quantity (0 + q) new).
  eexists. split.
  - apply transaction_ok.
    erewrite bind_ok; [|reflexivity]. cbv beta. fold source. rewrite Hsrc. cbv iota beta.
    fold q. replace (Stock.quantity src <? q) with false by (symmetry; apply Z.ltb_ge; lia).
    erewrite bind_ok; [|reflexivity]. cbv beta. rewrite Hloc. cbv iota beta.
    erewrite bind_ok; [|reflexivity]. cbv beta. rewrite Hnone.
    erewrite bind_ok;
      [|apply stock_create_ok; [exact Hp | exact Hw | rewrite Hloc; discriminate]].
    fold fresh. fold new. fold db1.
    erewrite bind_ok; [|apply (stock_update_ok _ _ src); exact Hs1]. fold db2.
    erewrite bind_ok; [|apply (stock_update_ok _ _ new); exact Hn2].
    change (set_stocks (update_where_id (Stock.id new)
                          (Stock.set_quantity (Stock.quantity new + q)) (stocks db2)) db2)
      with db3.
    erewrite bind_ok.
    2:{ apply createMany_ok. repeat constructor; cbn [MovementInput.stockId].
        - rewrite exists_id_lookup, Hs3. reflexivity.
        - change (Stock.id new) with fresh. rewrite exists_id_lookup, Hn3. reflexivity. }
    erewrite bind_ok; [|reflexivity]. erewrite bind_ok; [|reflexivity].
    unfold ret.
    change (stocks (set_stockMovements ?t db3)) with (stocks db3).
    change (Stock.id new) with fresh. rewrite Hs3, Hn3. reflexivity.
  - split; [reflexivity|]. split; [reflexivity|].
    split; [exact Hfresh|].
    split; [exact Hs3|]. split; [exact Hn3|].
    cbn [stockMovements set_stockMovements record_all fold_left record insert snd rows
         MovementInput.stockId MovementInput.movementType MovementInput.quantity].
    rewrite <- !app_assoc, !map_app. cbn [map app]. repeat split.
Qed.

(** C10. In every state reached by service calls, run one after the other,
    from a state where each Stock row's warehouseId is the warehouseId of
    its Location, that is so again. createStock rejects with a 400 AppError
    a request whose location does not exist or belongs to another
    warehouse. transferStock, when the source row covers the quantity and
    the target location exists and holds no row of the product, creates a
    row with an id no Stock row had, for the source's product in the target
    location, with that location's own warehouseId, and returns it as the
    target row. *)
Theorem stock_warehouse_matches_location :
  (forall (data : CreateStockData.t) (db : DB),
      match lookup (CreateStockData.locationId data) (locations db) with
      | Some l => Location.warehouseId l <> CreateStockData.warehouseId data
      | None => True
      end ->
      StockService.createStock data db
      = (inl (AppError "Invalid location for warehouse" 400), db))
  /\ (forall (init db : DB),
         stock_in_location_warehouse init ->
         reachable init db ->
         stock_in_location_warehouse db)
  /\ (forall (data : TransferStockData.t) (db : DB) (src : Stock.t) (loc : Location.t),
         lookup (TransferStockData.sourceStockId data) (stocks db) = Some src ->
         TransferStockData.quantity data <= Stock.quantity src ->
         lookup (TransferStockData.targetLocationId data) (locations db) = Some loc ->
         find (fun s => (Stock.productId s =? Stock.productId src)
                        && (Stock.locationId s =? TransferStockData.targetLocationId data))
              (rows (stocks db)) = None ->
         lookup (Stock.productId src) (products db) <> None ->
         lookup (Location.warehouseId loc) (warehouses db) <> None ->
         exists s t db',
           StockService.transferStock data db = (inr (Some s, Some t), db')
           /\ lookup (Stock.id t) (stocks db) = None
           /\ lookup (Stock.id t) (stocks db') = Some t
           /\ Stock.productId t = Stock.productId src
           /\ Stock.locationId t = TransferStockData.targetLocationId data
           /\ Stock.warehouseId t = Location.warehouseId loc).
Proof.
  split; [|split].
  - exact createStock_invalid_location.
  - intros init db Hi Hr.
    apply (reachable_invariant stock_in_location_warehouse) with (init := init);
      [exact effect_location_warehouse | exact Hi | exact Hr].
  - intros data db src loc Hsrc Hq Hloc Hnone Hp Hw.
    destruct (transferStock_new_target data db src loc Hsrc Hq Hloc Hnone Hp Hw)
      as [s [t [db' [Hrun [_ [Ht [Hfresh [_ [Hnew _]]]]]]]]].
    exists s, t, db'. split; [exact Hrun|].
    split; [exact Hfresh|]. split; [exact Hnew|].
    rewrite Ht. repeat split.
Qed.

Lemma stock_warehouse_matches_location_witness :
  StockService.createStock (CreateStockData.mk 1 2 1 3) sample
  = (inl (AppError "Invalid location for warehouse" 400), sample)
  /\ stock_in_location_warehouse (run sample_transfer sample)
  /\ (exists s t db',
         StockService.transferStock (TransferStockData.mk 1 2 2 "restock shelf") sample
         = (inr (Some s, Some t), db')
         /\ lookup (Stock.id t) (stocks sample) = None
         /\ lookup (Stock.id t) (stocks db') = Some t
         /\ Stock.productId t = 1
         /\ Stock.locationId t = 2
         /\ Stock.warehouseId t = 1).
Proof.
  split; [|split].
  - apply (proj1 stock_warehouse_matches_location (CreateStockData.mk 1 2 1 3) sample).
    simpl. discriminate.
  - apply (proj1 (proj2 stock_warehouse_matches_location) sample).
    + exact sample_in_location_warehouse.
    + apply reachable_run. apply reachable_init.
  - assert (Hq : TransferStockData.quantity (TransferStockData.mk 1 2 2 "restock shelf")
                 <= Stock.quantity (Stock.mk 1 1 1 1 5)) by (simpl; lia).
    apply (proj2 (proj2 stock_warehouse_matches_location)
             (TransferStockData.mk 1 2 2 "restock shelf") sample
             (Stock.mk 1 1 1 1 5) (Location.mk 2 "A2" 1) eq_refl Hq eq_refl eq_refl);
      discriminate.
Defined.

(** X29. transferStock from a Stock row that covers the quantity to an
    existing location holding no row of the product succeeds: it returns the
    source row with the quantity taken off and a new row, with an id no
    Stock row had, for the same product in the target location and that
    location's own warehouse, holding the quantity; both are what the Stock
    table then has under these ids, and the journal gains an 'OUT' movement
    on the source and an 'IN' movement on the new row, each of the
    quantity. *)
Theorem transferStock_creates_target_row :
  forall (data : TransferStockData.t) (db : DB) (src : Stock.t) (loc : Location.t),
    lookup (TransferStockData.sourceStockId data) (stocks db) = Some src ->
    TransferStockData.quantity data <= Stock.quantity src ->
    lookup (TransferStockData.targetLocationId data) (locations db) = Some loc ->
    find (fun s => (Stock.productId s =? Stock.productId src)
                   && (Stock.locationId s =? TransferStockData.targetLocationId data))
         (rows (stocks db)) = None ->
    lookup (Stock.productId src) (products db) <> None ->
    lookup (Location.warehouseId loc) (warehouses db) <> None ->
    exists s t db',
      StockService.transferStock data db = (inr (Some s, Some t), db')
      /\ s = Stock.set_quantity (Stock.quantity src - TransferStockData.quantity data) src
      /\ t = Stock.mk (next_id (seq (stocks db)) (rows (stocks db)))
               (Stock.productId src) (Location.warehouseId loc)
               (TransferStockData.targetLocationId data)
               (0 + TransferStockData.quantity data)
      /\ lookup (Stock.id t) (stocks db) = None
      /\ lookup (TransferStockData.sourceStockId data) (stocks db') = Some s
      /\ lookup (Stock.id t) (stocks db') = Some t
      /\ map StockMovement.stockId (rows (stockMovements db'))
         = map StockMovement.stockId (rows (stockMovements db))
             ++ [TransferStockData.sourceStockId data; Stock.id t]
      /\ map StockMovement.movementType (rows (stockMovements db'))
         = map StockMovement.movementType (rows (stockMovements db)) ++ [OUT; IN]
      /\ map StockMovement.quantity (rows (stockMovements db'))
         = map StockMovement.quantity (rows (stockMovements db))
             ++ [TransferStockData.quantity data; TransferStockData.quantity data].
Proof. exact transferStock_new_target. Qed.

Lemma transferStock_creates_target_row_witness :
  exists s t db',
    StockService.transferStock (TransferStockData.mk 1 2 2 "restock shelf") sample
    = (inr (Some s, Some t), db')
    /\ s = Stock.mk 1 1 1 1 3
    /\ t = Stock.mk 2 1 1 2 2.
Proof.
  assert (Hq : TransferStockData.quantity (TransferStockData.mk 1 2 2 "restock shelf")
               <= Stock.quantity (Stock.mk 1 1 1 1 5)) by (simpl; lia).
  destruct (transferStock_creates_target_row
              (TransferStockData.mk 1 2 2 "restock shelf") sample
              (Stock.mk 1 1 1 1 5) (Location.mk 2 "A2" 1) eq_refl Hq eq_refl eq_refl)
    as [s [t [db' [H1 [H2 [H3 _]]]]]]; try discriminate.
  exists s, t, db'. split; [exact H1|]. split; [exact H2 | exact H3].
Defined.

Lemma recordMovement_ok data db s :
  lookup (MovementInput.stockId data) (stocks db) = Some s ->
  MovementInput.movementType data = IN
  \/ MovementInput.quantity data <= Stock.quantity s ->
  StockService.recordMovement data db
  = (inr (StockMovement.mk (next_id (seq (stockMovements db)) (rows (stockMovements db)))
            (MovementInput.stockId data) (MovementInput.movementType data)
            (MovementInput.quantity data) (MovementInput.reason data)),
     set_stockMovements
       (record (stockMovements db)
               (MovementInput.mk (MovementInput.stockId data)
                                 (MovementInput.movementType data)
                                 (MovementInput.quantity data)
                                 (MovementInput.reason data)))
       (set_stocks
          (update_where_id (MovementInput.stockId data)
             (Stock.set_quantity
                (match MovementInput.movementType data with
                 | IN => Stock.quantity s + MovementInput.quantity data
                 | OUT => Stock.quantity s - MovementInput.quantity data
                 end))
             (stocks db))
          db)).
Proof.
  intros Hl Hok. unfold StockService.recordMovement. apply transaction_ok.
  erewrite bind_ok; [|reflexivity]. cbv beta. rewrite Hl. cbv iota beta.
  assert (Hg : match MovementInput.movementType data with
               | OUT => Stock.quantity s <? MovementInput.quantity data
               | IN => false
               end = false).
  { destruct (MovementInput.movementType data); [reflexivity|].
    destruct Hok as [H|H]; [discriminate | now apply Z.ltb_ge]. }
  rewrite Hg.
  erewrite bind_ok; [|apply (stock_update_ok _ _ s); exact Hl].
  rewrite stockMovement_create_ok; [reflexivity|].
  cbn [MovementInput.stockId stocks set_stocks].
  now apply (exists_id_after_update _ _ _ s).
Qed.

(** X30. After recordMovement on an existing Stock row, with type 'IN' or
    with a quantity the row covers, the row's quantity, the request's and
    the new one being within the range of a 32-bit integer, getStockById on
    the same row returns the row with its new quantity; the movement just
    recorded is among the movements it lists, which are one more than the
    row had, and the adjustments it lists are, in some order, the row's
    adjustments of before. *)
Theorem recordMovement_then_getStockById :
  forall (data : MovementInput.t) (db : DB) (s : Stock.t),
    lookup (MovementInput.stockId data) (stocks db) = Some s ->
    MovementInput.movementType data = IN
    \/ MovementInput.quantity data <= Stock.quantity s ->
    Int_range (Stock.quantity s) ->
    Int_range (MovementInput.quantity data) ->
    Int_range (match MovementInput.movementType data with
               | IN => Stock.quantity s + MovementInput.quantity data
               | OUT => Stock.quantity s - MovementInput.quantity data
               end) ->
    exists m db' detail,
      StockService.recordMovement data db = (inr m, db')
      /\ StockService.getStockById (MovementInput.stockId data) db' = (inr detail, db')
      /\ Stock.quantity (StockService.detail_stock detail)
         = match MovementInput.movementType data with
           | IN => Stock.quantity s + MovementInput.quantity data
           | OUT => Stock.quantity s - MovementInput.quantity data
           end
      /\ Stock.id (StockService.detail_stock detail) = MovementInput.stockId data
      /\ In m (StockService.detail_movements detail)
      /\ List.length (StockService.detail_movements detail)
         = S (List.length
                (filter (fun x => StockMovement.stockId x =? MovementInput.stockId data)
                        (rows (stockMovements db))))
      /\ Permutation
           (StockService.detail_adjustments detail)
           (filter (fun a => StockAdjustment.stockId a =? MovementInput.stockId data)
                   (rows (stockAdjustments db))).
Proof.
  intros data db s Hl Hok _ _ _.
  assert (Hid : Stock.id s = MovementInput.stockId data).
  { apply find_some in Hl. destruct Hl as [_ Hl]. now apply Z.eqb_eq in Hl. }
  do 3 eexists. split; [exact (recordMovement_ok data db s Hl Hok)|].
  split.
  - unfold StockService.getStockById.
    erewrite bind_ok; [|reflexivity]. cbv beta.
    cbn [stocks set_stocks set_stockMovements].
    erewrite lookup_update; [|intros x; reflexivity | exact Hl]. cbv iota beta.
    erewrite bind_ok; [|reflexivity]. erewrite bind_ok; [|reflexivity].
    reflexivity.
  - cbn [StockService.detail_stock StockService.detail_movements
         StockService.detail_adjustments Stock.set_quantity Stock.quantity Stock.id
         stockMovements stockAdjustments set_stockMovements set_stocks
         record insert snd rows MovementInput.stockId MovementInput.movementType
         MovementInput.quantity MovementInput.reason].
    split; [reflexivity|]. split; [exact Hid|].
    rewrite Hid, filter_app. cbn [filter StockMovement.stockId].
    rewrite Z.eqb_refl, rev_app_distr. cbn [rev app].
    split; [now left|]. split; [|apply Permutation_sym, Permutation_rev].
    cbn [List.length]. now rewrite length_rev.
Qed.

Lemma recordMovement_then_getStockById_witness :
  exists m db' detail,
    StockService.recordMovement (MovementInput.mk 1 OUT 2 "sold") sample = (inr m, db')
    /\ StockService.getStockById 1 db' = (inr detail, db')
    /\ Stock.quantity (StockService.detail_stock detail) = 5 - 2
    /\ In m (StockService.detail_movements detail).
Proof.
  destruct (recordMovement_then_getStockById (MovementInput.mk 1 OUT 2 "sold") sample
              (Stock.mk 1 1 1 1 5) eq_refl)
    as [m [db' [detail [H1 [H2 [H3 [_ [H5 _]]]]]]]].
  - right. simpl. lia.
  - unfold Int_range. simpl. lia.
  - unfold Int_range. simpl. lia.
  - unfold Int_range. simpl. lia.
  - exists m, db', detail. split; [exact H1|]. split; [exact H2|].
    split; [exact H3 | exact H5].
Defined.
